(** * Certificate mailing backend: shallow embedding of the core pipeline

    Embeds, from [backend/app]:
    - [utils/fonts.py]: [download_google_font], [get_font], [hex_to_rgb];
    - [services/certificate_service.py]: [generate_certificate],
      [send_certificate], [send_email];
    - [services/template_service.py]: [generate_preview];
    - [api/feedback.py]: [submit_feedback];
    - [api/send.py]: [send_certificates].

    Python exceptions are the [Raise] branch of a state/exception monad;
    [try]/[except Exception] is [try_except]. The process state (files on
    disk, standard output, the MongoDB collections, the messages handed to
    the SMTP server, the clock and the token generator) is one record.
    Library behaviour (Pillow, pdf2image, reportlab, smtplib, urllib,
    [int(_, 16)], Fernet decryption) is left as Section variables, so every
    theorem holds for every behaviour of those libraries. *)

From Stdlib Require Import List String Ascii ZArith Bool Lia Sorting.Sorted Sorting.Permutation.
Import ListNotations.
Open Scope string_scope.
Open Scope list_scope.
Infix "+++" := String.append (at level 60, right associativity).

(** ** Python values and exceptions *)

Inductive exn : Type :=
| HTTPException (status_code : Z) (detail : string)
| PyError (msg : string).

(** [str(e)] *)
Definition exn_str (e : exn) : string :=
  match e with
  | HTTPException _ d => d
  | PyError m => m
  end.

Inductive res (A : Type) : Type :=
| Ok (a : A)
| Raise (e : exn).
Arguments Ok {A} a.
Arguments Raise {A} e.

(** ** Python [str.replace(old, new)] for a non-empty [old]:
    one left-to-right pass over non-overlapping occurrences. [skip] counts
    the characters of an occurrence that are still to be dropped. *)

Fixpoint replace_from (old new : string) (skip : nat) (s : string) : string :=
  match s with
  | EmptyString => EmptyString
  | String c s' =>
      match skip with
      | S k => replace_from old new k s'
      | O =>
          if String.prefix old s
          then new +++ replace_from old new (String.length old - 1) s'
          else String c (replace_from old new 0 s')
      end
  end.

Definition py_replace (s old new : string) : string := replace_from old new 0 s.

(** [s.lstrip(c)] for a single character [c]. *)
Fixpoint py_lstrip (c : ascii) (s : string) : string :=
  match s with
  | String c' s' => if Ascii.eqb c c' then py_lstrip c s' else s
  | EmptyString => EmptyString
  end.

(** [s[i:i+n]] with Python's clamping slice semantics, for [i, n >= 0]. *)
Definition py_slice (s : string) (i n : nat) : string := String.substring i n s.

(** Dictionary lookup on an association list ([k in d] / [d[k]]). *)
Fixpoint assoc {V : Type} (k : string) (d : list (string * V)) : option V :=
  match d with
  | [] => None
  | (k', v) :: d' => if String.eqb k k' then Some v else assoc k d'
  end.

(** ** Process state *)

Inductive status : Type :=
| Pending | FeedbackSent | FeedbackReceived | CertificateSent | Failed.

Definition status_eqb (a b : status) : bool :=
  match a, b with
  | Pending, Pending | FeedbackSent, FeedbackSent
  | FeedbackReceived, FeedbackReceived | CertificateSent, CertificateSent
  | Failed, Failed => true
  | _, _ => false
  end.

(** A raster image as Pillow holds it: its size and the text drawn on it,
    as [(x, y, text, rgb)] in drawing order. *)
Record image : Type := mkImage {
  im_width : Z;
  im_height : Z;
  im_texts : list (Z * Z * string * (Z * Z * Z))
}.

(** Files written by the program. *)
Inductive artifact : Type :=
| PngFile (img : image)
| PdfFile (page_w page_h : Z) (png_path : string) (title : string)
| DownloadedFont (url : string).

Record answer : Type := mkAnswer { question_id : string; answer_text : string }.

(** A document of the [feedback] collection. *)
Record feedback : Type := mkFeedback {
  fb_participant_id : string;
  fb_event_id : string;
  fb_token : string;
  fb_answers : list answer;
  fb_submitted_at : option nat
}.

(** A document of the [participants] collection. *)
Record participant : Type := mkParticipant {
  p_id : string;
  p_event_id : string;
  p_name : string;
  p_email : string;
  p_status : status;
  p_feedback_token : option string;
  p_feedback_submitted_at : option nat;
  p_certificate_sent_at : option nat;
  p_error_message : option string
}.

Record text_settings : Type := mkTextSettings {
  ts_y_position : Z;
  ts_font_name : string;
  ts_font_size : Z;
  ts_text_color : string
}.

Inductive event_status : Type := Draft | Ready | Sending | Completed.

(** A document of the [events] collection ([EventInDB]). *)
Record event : Type := mkEvent {
  ev_id : string;
  ev_user_id : string;
  ev_name : string;
  ev_template_path : option string;
  ev_template_format : string;
  ev_text_settings : text_settings;
  ev_feedback_enabled : bool;
  ev_email_subject : string;
  ev_email_body : string;
  ev_feedback_email_subject : string;
  ev_feedback_email_body : string;
  ev_status : event_status
}.

Record email_settings : Type := mkEmailSettings {
  es_email : string;
  es_app_password_encrypted : string
}.

Record user : Type := mkUser {
  u_id : string;
  u_email_settings : option email_settings
}.

(** An email message as built with [EmailMessage]. *)
Record mail : Type := mkMail {
  m_subject : string;
  m_from : string;
  m_to : string;
  m_body : string;
  m_attachment : option (string * artifact)
}.

Record state : Type := mkState {
  st_files : list string;                 (* paths present on disk *)
  st_log : list string;                   (* lines printed to stdout *)
  st_out : list (string * artifact);      (* files written, latest first *)
  st_feedback : list feedback;
  st_participants : list participant;
  st_events : list event;
  st_users : list user;
  st_outbox : list mail;                  (* messages accepted by SMTP *)
  st_clock : nat;                         (* datetime.utcnow() *)
  st_rng : nat                            (* calls to secrets.token_urlsafe *)
}.

(** ** The state/exception monad *)

Definition M (A : Type) : Type := state -> res A * state.

Definition ret {A} (a : A) : M A := fun s => (Ok a, s).
Definition raise {A} (e : exn) : M A := fun s => (Raise e, s).
Definition bind {A B} (m : M A) (k : A -> M B) : M B :=
  fun s => match m s with
           | (Ok a, s') => k a s'
           | (Raise e, s') => (Raise e, s')
           end.
(** [try: m except Exception as e: h(e)] *)
Definition try_except {A} (m : M A) (h : exn -> M A) : M A :=
  fun s => match m s with
           | (Ok a, s') => (Ok a, s')
           | (Raise e, s') => h e s'
           end.
Definition modify (f : state -> state) : M unit := fun s => (Ok tt, f s).
Definition gets {A} (f : state -> A) : M A := fun s => (Ok (f s), s).

Notation "x <- m ;; k" := (bind m (fun x => k))
  (at level 61, m at next level, right associativity).
Notation "m ;;; k" := (bind m (fun _ => k))
  (at level 61, right associativity).

(** State setters. *)
Definition set_files (f : list string) (s : state) : state :=
  mkState f (st_log s) (st_out s) (st_feedback s) (st_participants s)
    (st_events s) (st_users s) (st_outbox s) (st_clock s) (st_rng s).
Definition set_log (l : list string) (s : state) : state :=
  mkState (st_files s) l (st_out s) (st_feedback s) (st_participants s)
    (st_events s) (st_users s) (st_outbox s) (st_clock s) (st_rng s).
Definition set_out (o : list (string * artifact)) (s : state) : state :=
  mkState (st_files s) (st_log s) o (st_feedback s) (st_participants s)
    (st_events s) (st_users s) (st_outbox s) (st_clock s) (st_rng s).
Definition set_feedback (f : list feedback) (s : state) : state :=
  mkState (st_files s) (st_log s) (st_out s) f (st_participants s)
    (st_events s) (st_users s) (st_outbox s) (st_clock s) (st_rng s).
Definition set_participants (p : list participant) (s : state) : state :=
  mkState (st_files s) (st_log s) (st_out s) (st_feedback s) p
    (st_events s) (st_users s) (st_outbox s) (st_clock s) (st_rng s).
Definition set_events (e : list event) (s : state) : state :=
  mkState (st_files s) (st_log s) (st_out s) (st_feedback s) (st_participants s)
    e (st_users s) (st_outbox s) (st_clock s) (st_rng s).
Definition set_outbox (o : list mail) (s : state) : state :=
  mkState (st_files s) (st_log s) (st_out s) (st_feedback s) (st_participants s)
    (st_events s) (st_users s) o (st_clock s) (st_rng s).
Definition tick (s : state) : state :=
  mkState (st_files s) (st_log s) (st_out s) (st_feedback s) (st_participants s)
    (st_events s) (st_users s) (st_outbox s) (S (st_clock s)) (st_rng s).
Definition tick_rng (s : state) : state :=
  mkState (st_files s) (st_log s) (st_out s) (st_feedback s) (st_participants s)
    (st_events s) (st_users s) (st_outbox s) (st_clock s) (S (st_rng s)).

(** [print(msg)] *)
Definition print (msg : string) : M unit :=
  modify (fun s => set_log (st_log s ++ [msg]) s).

(** [datetime.utcnow()] *)
Definition utcnow : M nat := fun s => (Ok (st_clock s), tick s).

(** [os.path.exists(p)] / [Path(p).exists()] *)
Definition path_exists (p : string) : M bool :=
  gets (fun s => existsb (String.eqb p) (st_files s) ||
                 existsb (fun '(q, _) => String.eqb p q) (st_out s)).

(** ** Font resolution ([utils/fonts.py]) *)

Inductive font : Type :=
| FreeTypeFont (path : string) (size : Z)   (* ImageFont.truetype(path, size) *)
| DefaultFont.                              (* ImageFont.load_default() *)

(** [SYSTEM_FONT_PATHS] *)
Definition SYSTEM_FONT_PATHS : list (string * list string) := [
  ("Georgia", ["/System/Library/Fonts/Georgia.ttf"; "/Library/Fonts/Georgia.ttf"]);
  ("Times New Roman", ["/System/Library/Fonts/Times.ttc"; "/Library/Fonts/Times New Roman.ttf"]);
  ("Palatino Linotype", ["/System/Library/Fonts/Palatino.ttc"; "/Library/Fonts/Palatino.ttf"]);
  ("Book Antiqua", ["/Library/Fonts/Book Antiqua.ttf"]);
  ("Garamond", ["/System/Library/Fonts/Supplemental/Garamond.ttf"; "/Library/Fonts/Garamond.ttf"]);
  ("Arial", ["/System/Library/Fonts/Supplemental/Arial.ttf"; "/Library/Fonts/Arial.ttf"]);
  ("Helvetica", ["/System/Library/Fonts/Helvetica.ttc"]);
  ("Verdana", ["/System/Library/Fonts/Supplemental/Verdana.ttf"; "/Library/Fonts/Verdana.ttf"]);
  ("Trebuchet MS", ["/System/Library/Fonts/Supplemental/Trebuchet MS.ttf"; "/Library/Fonts/Trebuchet MS.ttf"]);
  ("Century Gothic", ["/Library/Fonts/Century Gothic.ttf"]);
  ("Lucida Sans", ["/Library/Fonts/Lucida Sans.ttf"]);
  ("Courier New", ["/System/Library/Fonts/Supplemental/Courier New.ttf"; "/Library/Fonts/Courier New.ttf"]);
  ("Brush Script MT", ["/System/Library/Fonts/Supplemental/Brush Script.ttf"; "/Library/Fonts/Brush Script MT.ttf"]);
  ("Copperplate", ["/System/Library/Fonts/Supplemental/Copperplate.ttc"; "/System/Library/Fonts/Copperplate.ttc"; "/Library/Fonts/Copperplate.ttf"]);
  ("Papyrus", ["/System/Library/Fonts/Supplemental/Papyrus.ttc"; "/Library/Fonts/Papyrus.ttf"])
].

(** [settings.GOOGLE_FONTS] *)
Definition GOOGLE_FONTS : list (string * string) := [
  ("Playfair Display", "https://github.com/google/fonts/raw/main/ofl/playfairdisplay/PlayfairDisplay%5Bwght%5D.ttf");
  ("Cinzel", "https://github.com/google/fonts/raw/main/ofl/cinzel/Cinzel%5Bwght%5D.ttf");
  ("Great Vibes", "https://github.com/google/fonts/raw/main/ofl/greatvibes/GreatVibes-Regular.ttf");
  ("Cormorant Garamond", "https://github.com/google/fonts/raw/main/ofl/cormorantgaramond/CormorantGaramond-Bold.ttf");
  ("Roboto", "https://github.com/google/fonts/raw/main/apache/roboto/static/Roboto-Bold.ttf");
  ("Bebas Neue", "https://github.com/google/fonts/raw/main/ofl/bebasneue/BebasNeue-Regular.ttf");
  ("Oswald", "https://github.com/google/fonts/raw/main/ofl/oswald/Oswald%5Bwght%5D.ttf");
  ("Montserrat", "https://github.com/google/fonts/raw/main/ofl/montserrat/Montserrat%5Bwght%5D.ttf");
  ("Press Start 2P", "https://github.com/google/fonts/raw/main/ofl/pressstart2p/PressStart2P-Regular.ttf");
  ("Silkscreen", "https://github.com/google/fonts/raw/main/ofl/silkscreen/Silkscreen-Regular.ttf");
  ("Orbitron", "https://github.com/google/fonts/raw/main/ofl/orbitron/Orbitron%5Bwght%5D.ttf");
  ("Poppins", "https://github.com/google/fonts/raw/main/ofl/poppins/Poppins-Bold.ttf")
].

(** [settings.SYSTEM_FONTS] *)
Definition SYSTEM_FONTS : list string := [
  "/System/Library/Fonts/Supplemental/Arial.ttf";
  "/System/Library/Fonts/Supplemental/Times New Roman Bold.ttf";
  "/Library/Fonts/Georgia.ttf";
  "C:/Windows/Fonts/times.ttf";
  "C:/Windows/Fonts/timesbd.ttf";
  "/usr/share/fonts/truetype/dejavu/DejaVuSerif-Bold.ttf"
].

(** [settings.FONTS_DIR] *)
Definition FONTS_DIR : string := "fonts".

Section Fonts.

(** Whether FreeType parses the font file at [path] at [size]. *)
Variable font_parses : string -> Z -> bool.
(** [urllib.request.urlretrieve(url, path)]: whether it succeeds, and
    whether a failed transfer still leaves a (partial) file behind. *)
Variable fetch_ok : string -> bool.
Variable fetch_leaves_file : string -> bool.

(** [ImageFont.truetype(path, size)]: raises [OSError] on a missing or
    unparsable file. *)
Definition truetype (path : string) (size : Z) : M font :=
  ex <- path_exists path ;;
  if ex && font_parses path size then ret (FreeTypeFont path size)
  else raise (PyError "cannot open resource").

(** [ImageFont.load_default()]: Pillow's embedded font. *)
Definition load_default : M font := ret DefaultFont.

Definition write_file (path : string) (a : artifact) : M unit :=
  modify (fun s => set_out ((path, a) :: st_out s) s).

Definition urlretrieve (url path : string) : M unit :=
  if fetch_ok url then write_file path (DownloadedFont url)
  else (if fetch_leaves_file url then write_file path (DownloadedFont url)
        else ret tt) ;;; raise (PyError "urlopen error").

(** [download_google_font(font_name, url)] *)
Definition download_google_font (font_name url : string) : M (option string) :=
  let font_filename := py_replace font_name " " "_" +++ ".ttf" in
  let font_path := FONTS_DIR +++ "/" +++ font_filename in
  ex <- path_exists font_path ;;
  if ex then ret (Some font_path)
  else try_except (urlretrieve url font_path ;;; ret (Some font_path))
         (fun e => print ("Failed to download " +++ font_name +++ ": " +++ exn_str e) ;;;
                   ret None).

(** [for path in paths: if os.path.exists(path): try: return
    ImageFont.truetype(path, size) except Exception: continue], falling
    through to [k] when the loop ends. *)
Fixpoint try_font_paths (paths : list string) (size : Z) (k : M font) : M font :=
  match paths with
  | [] => k
  | path :: rest =>
      ex <- path_exists path ;;
      if ex then try_except (truetype path size)
                   (fun _ => try_font_paths rest size k)
      else try_font_paths rest size k
  end.

(** [get_font(font_name, size)] *)
Definition get_font (font_name : string) (size : Z) : M font :=
  let fallback :=
    try_font_paths SYSTEM_FONTS size
      (print ("Warning: Could not load font '" +++ font_name +++ "', using default") ;;;
       load_default) in
  let google :=
    match assoc font_name GOOGLE_FONTS with
    | Some url =>
        font_path <- download_google_font font_name url ;;
        match font_path with
        | Some fp => try_except (truetype fp size) (fun _ => fallback)
        | None => fallback
        end
    | None => fallback
    end in
  match assoc font_name SYSTEM_FONT_PATHS with
  | Some paths => try_font_paths paths size google
  | None => google
  end.

End Fonts.

(** The line [get_font] prints before falling back to the default font. *)
Definition warning_line (font_name : string) : string :=
  "Warning: Could not load font '" +++ font_name +++ "', using default".

(** What every outcome of the resolver satisfies: a FreeType font is only
    returned for a file FreeType parses, and the default font only after the
    warning was printed. *)
Definition font_outcome (font_parses : string -> Z -> bool) (font_name : string)
    (f : font) (st : state) : Prop :=
  (forall p z, f = FreeTypeFont p z -> font_parses p z = true) /\
  (f = DefaultFont -> last (st_log st) "" = warning_line font_name).

Definition never_raises (font_parses : string -> Z -> bool) (font_name : string)
    (m : M font) : Prop :=
  forall st, exists f st', m st = (Ok f, st') /\ font_outcome font_parses font_name f st'.

(** ** Paths and small helpers *)

(** [settings.OUTPUT_DIR] and [settings.STATIC_DIR] *)
Definition OUTPUT_DIR : string := "output".
Definition STATIC_DIR : string := "static".

(** Decimal rendering of a natural number (used for the [?t=] timestamp of
    preview URLs, where the clock value stands for
    [datetime.now().timestamp()]). *)
Fixpoint digits_of (fuel n : nat) (acc : string) : string :=
  match fuel with
  | O => acc
  | S f =>
      let acc' := String (ascii_of_nat (48 + Nat.modulo n 10)) acc in
      if Nat.ltb n 10 then acc' else digits_of f (Nat.div n 10) acc'
  end.
Definition nat_to_string (n : nat) : string := digits_of (S n) n "".

(** Lift a library result into the monad. *)
Definition liftr {A} (r : res A) : M A := fun s => (r, s).

(** [open(path, "rb").read()] on a file the program wrote. *)
Fixpoint lookup_file (path : string) (out : list (string * artifact)) : option artifact :=
  match out with
  | [] => None
  | (q, a) :: out' => if String.eqb path q then Some a else lookup_file path out'
  end.

Definition read_file (path : string) : M artifact :=
  fun s => match lookup_file path (st_out s) with
           | Some a => (Ok a, s)
           | None => (Raise (PyError ("No such file or directory: '" +++ path +++ "'")), s)
           end.

(** [draw.text((x, y), text, fill=rgb)] *)
Definition draw_text (img : image) (x y : Z) (text : string) (rgb : Z * Z * Z) : image :=
  mkImage (im_width img) (im_height img) (im_texts img ++ [(x, y, text, rgb)]).

(** The text written on a certificate PDF ([c.setTitle(...)]). *)
Definition CERTIFICATE_TITLE : string := "Certificate of Participation".

(** [f"Certificate_{name.replace(' ', '_')}.pdf"] *)
Definition attachment_filename (name : string) : string :=
  "Certificate_" +++ py_replace name " " "_" +++ ".pdf".

(** [name.replace("/", "_").replace("\\", "_")] *)
Definition safe_name (name : string) : string :=
  py_replace (py_replace name "/" "_") (String (ascii_of_nat 92) EmptyString) "_".

(** [send_certificate]'s default for its [event_name] parameter. *)
Definition send_certificate_default_event_name : string := "".

(** The subject or body of a certificate email:
    [t.replace("{name}", name).replace("{event_name}", event_name)]. *)
Definition fill_certificate_template (t name event_name : string) : string :=
  py_replace (py_replace t "{name}" name) "{event_name}" event_name.

(** ** MongoDB collections ([find_one], [update_one], [update_one(upsert=True)])
    over documents kept in natural order. *)

Fixpoint find_first {A} (p : A -> bool) (l : list A) : option A :=
  match l with
  | [] => None
  | x :: l' => if p x then Some x else find_first p l'
  end.

Fixpoint update_first {A} (p : A -> bool) (f : A -> A) (l : list A) : list A :=
  match l with
  | [] => []
  | x :: l' => if p x then f x :: l' else x :: update_first p f l'
  end.

Definition upsert_first {A} (p : A -> bool) (f : A -> A) (fresh : A) (l : list A) : list A :=
  if existsb p l then update_first p f l else l ++ [fresh].

(** [feedback_col.update_one({"participant_id": pid}, {"$set": {...}},
    upsert=True)]: every field of the document is set. *)
Definition issue_feedback (participant_id event_id token : string) (l : list feedback)
    : list feedback :=
  let doc := mkFeedback participant_id event_id token [] None in
  upsert_first (fun f => String.eqb (fb_participant_id f) participant_id)
    (fun _ => doc) doc l.

Definition feedback_by_token (token : string) (l : list feedback) : option feedback :=
  find_first (fun f => String.eqb (fb_token f) token) l.

Definition participant_by_id (pid : string) (l : list participant) : option participant :=
  find_first (fun p => String.eqb (p_id p) pid) l.

(** ** [bson.ObjectId] on a [str]

    [ObjectId(oid)] reads a string of 24 characters with [bytes.fromhex] and
    raises [InvalidId] for any other string or when [bytes.fromhex] fails. An
    event's [_id] is kept as its [str()], the lowercase hexadecimal digits of
    its 12 bytes, so [{"_id": ObjectId(event_id)}] matches the event whose
    [ev_id] is [str(ObjectId(event_id))]. (A 24-character string with
    whitespace reads fewer than 12 bytes; its [str()] is shorter than a
    stored id and matches no event.) *)

(** The value of a hexadecimal digit [0-9], [a-f], [A-F]. *)
Definition hex_digit (c : ascii) : option nat :=
  let n := nat_of_ascii c in
  if Nat.leb 48 n && Nat.leb n 57 then Some (n - 48)
  else if Nat.leb 97 n && Nat.leb n 102 then Some (n - 87)
  else if Nat.leb 65 n && Nat.leb n 70 then Some (n - 55)
  else None.

(** ASCII whitespace ([Py_ISSPACE]): space, tab, newline, vertical tab,
    form feed, carriage return. *)
Definition py_isspace (c : ascii) : bool :=
  let n := nat_of_ascii c in Nat.eqb n 32 || (Nat.leb 9 n && Nat.leb n 13).

(** [bytes.fromhex(s)]: two hexadecimal digits per byte, ASCII whitespace
    allowed before each pair; [None] where it raises [ValueError]. *)
Fixpoint fromhex (s : string) : option (list nat) :=
  match s with
  | EmptyString => Some []
  | String c s' =>
      if py_isspace c then fromhex s'
      else match hex_digit c with
           | None => None
           | Some hi =>
               match s' with
               | EmptyString => None
               | String c2 s'' =>
                   match hex_digit c2 with
                   | Some lo => option_map (cons (16 * hi + lo)) (fromhex s'')
                   | None => None
                   end
               end
           end
  end.

Definition hex_char (d : nat) : ascii :=
  match String.get d "0123456789abcdef" with Some c => c | None => "0"%char end.

(** [bytes.hex()]: two lowercase hexadecimal digits per byte. *)
Fixpoint hexlify (bs : list nat) : string :=
  match bs with
  | [] => EmptyString
  | b :: bs' => String (hex_char (b / 16)) (String (hex_char (b mod 16)) (hexlify bs'))
  end.

(** One character of [repr(s)] quoted with [q]: the backslash and the quote
    are escaped, tab, newline and carriage return written [\t], [\n],
    [\r], other control characters [\xhh]; other characters are kept
    (outside ASCII, [repr] keeps the printable ones). *)
Definition repr_char (q c : ascii) : string :=
  let n := nat_of_ascii c in
  let bs := ascii_of_nat 92 in
  if Ascii.eqb c q || Nat.eqb n 92 then String bs (String c EmptyString)
  else if Nat.eqb n 9 then String bs (String "t"%char EmptyString)
  else if Nat.eqb n 10 then String bs (String "n"%char EmptyString)
  else if Nat.eqb n 13 then String bs (String "r"%char EmptyString)
  else if Nat.ltb n 32 || Nat.eqb n 127 then String bs (String "x"%char (hexlify [n]))
  else String c EmptyString.

(** [repr(s)] of a [str]: quoted with a single quote, or with a double
    quote when [s] holds a single quote and no double quote. *)
Definition py_repr (s : string) : string :=
  let l := list_ascii_of_string s in
  let q := if existsb (fun c => Nat.eqb (nat_of_ascii c) 39) l &&
              negb (existsb (fun c => Nat.eqb (nat_of_ascii c) 34) l)
           then ascii_of_nat 34 else ascii_of_nat 39 in
  String q (String.concat EmptyString (map (repr_char q) l) +++ String q EmptyString).

(** [bson.errors.InvalidId] as raised by [_raise_invalid_id(oid)]. *)
Definition invalid_id (oid : string) : exn :=
  PyError (py_repr oid +++ " is not a valid ObjectId, it must be a 12-byte input"
           +++ " or a 24-character hex string").

(** [str(ObjectId(oid))] for a [str] [oid], or the [InvalidId] it raises. *)
Definition ObjectId (oid : string) : res string :=
  if Nat.eqb (String.length oid) 24 then
    match fromhex oid with
    | Some bs => Ok (hexlify bs)
    | None => Raise (invalid_id oid)
    end
  else Raise (invalid_id oid).

(** [events.find_one({"_id": oid, "user_id": user_id})], for the id [oid]
    given as its [str()]. *)
Definition owned_event (oid current_user_id : string) (l : list event) : option event :=
  find_first (fun e => String.eqb (ev_id e) oid && String.eqb (ev_user_id e) current_user_id) l.

(** [participants.update_one({"_id": ObjectId(pid)}, {"$set": ...})] *)
Definition update_participant (pid : string) (f : participant -> participant) : M unit :=
  modify (fun s => set_participants
                     (update_first (fun p => String.eqb (p_id p) pid) f (st_participants s)) s).

Definition with_status (st : status) (err : option string) (p : participant) : participant :=
  mkParticipant (p_id p) (p_event_id p) (p_name p) (p_email p) st (p_feedback_token p)
    (p_feedback_submitted_at p) (p_certificate_sent_at p) err.

Definition with_feedback_received (t : nat) (p : participant) : participant :=
  mkParticipant (p_id p) (p_event_id p) (p_name p) (p_email p) FeedbackReceived
    (p_feedback_token p) (Some t) (p_certificate_sent_at p) (p_error_message p).

Definition with_certificate_sent (t : nat) (err : option string) (p : participant)
    : participant :=
  mkParticipant (p_id p) (p_event_id p) (p_name p) (p_email p) CertificateSent
    (p_feedback_token p) (p_feedback_submitted_at p) (Some t) err.

Definition with_feedback_sent (token : string) (p : participant) : participant :=
  mkParticipant (p_id p) (p_event_id p) (p_name p) (p_email p) FeedbackSent
    (Some token) (p_feedback_submitted_at p) (p_certificate_sent_at p) None.

(** [{"$set": {"answers": ..., "submitted_at": t}}] *)
Definition with_submission (answers : list answer) (t : nat) (f : feedback) : feedback :=
  mkFeedback (fb_participant_id f) (fb_event_id f) (fb_token f) answers (Some t).

(** [settings.FRONTEND_URL or "http://localhost:5173"] *)
(** [user.get("email_settings")] on an optional user document. *)
Definition option_bind {A B} (o : option A) (f : A -> option B) : option B :=
  match o with Some a => f a | None => None end.

Definition FRONTEND_URL : string := "http://localhost:5173".

(** Output paths: [OUTPUT_DIR / event_id / "png" / f"{safe_name}.png"] and the
    PDF counterpart. *)
Definition png_path_of (event_id name : string) : string :=
  OUTPUT_DIR +++ "/" +++ event_id +++ "/png/" +++ safe_name name +++ ".png".
Definition pdf_path_of (event_id name : string) : string :=
  OUTPUT_DIR +++ "/" +++ event_id +++ "/pdf/" +++ safe_name name +++ ".pdf".

(** The per-participant entry of [results["details"]]. *)
Record detail : Type := mkDetail {
  d_name : string;
  d_email : string;
  d_status : status;
  d_error : option string
}.

(** The dictionary returned by [send_certificates]. *)
Record send_results : Type := mkResults {
  r_total : nat;
  r_successful : nat;
  r_failed : nat;
  r_details : list detail
}.

Definition bump_total (r : send_results) : send_results :=
  mkResults (S (r_total r)) (r_successful r) (r_failed r) (r_details r).
Definition add_success (r : send_results) (d : detail) : send_results :=
  mkResults (r_total r) (S (r_successful r)) (r_failed r) (r_details r ++ [d]).
Definition add_failure (r : send_results) (d : detail) : send_results :=
  mkResults (r_total r) (r_successful r) (S (r_failed r)) (r_details r ++ [d]).

(** The query of [send_certificates]: [send_all] selects the statuses
    pending, failed, feedback_sent and certificate_sent; otherwise pending. *)
Definition selected_status (send_all : bool) (st : status) : bool :=
  if send_all then
    match st with
    | Pending | Failed | FeedbackSent | CertificateSent => true
    | FeedbackReceived => false
    end
  else status_eqb st Pending.

Definition select_participants (event_id : string) (send_all : bool)
    (l : list participant) : list participant :=
  filter (fun p => String.eqb (p_event_id p) event_id && selected_status send_all (p_status p)) l.

Definition set_event_status (event_id : string) (es : event_status) (s : state) : state :=
  set_events
    (update_first (fun e => String.eqb (ev_id e) event_id)
       (fun e => mkEvent (ev_id e) (ev_user_id e) (ev_name e) (ev_template_path e)
                   (ev_template_format e) (ev_text_settings e) (ev_feedback_enabled e)
                   (ev_email_subject e) (ev_email_body e) (ev_feedback_email_subject e)
                   (ev_feedback_email_body e) es)
       (st_events s)) s.

Definition template_path_or_raise (e : event) : M string :=
  match ev_template_path e with
  | Some tp => ret tp
  | None => raise (PyError "'NoneType' object has no attribute 'read'")
  end.

Section Backend.
Local Open Scope Z_scope.

(** Font resolution environment (see [get_font]). *)
Variable font_parses : string -> Z -> bool.
Variable fetch_ok fetch_leaves_file : string -> bool.
(** [Image.open(path).convert("RGB")] *)
Variable image_open : string -> res image.
(** [pdf2image.convert_from_path(path, dpi=d)] *)
Variable convert_from_path : string -> Z -> res (list image).
(** [draw.textbbox((0, 0), text, font=font)] *)
Variable textbbox : font -> string -> res (Z * Z * Z * Z).
(** Python's [int(s, 16)] *)
Variable py_int16 : string -> res Z.
(** Whether a file can be written at [path]. *)
Variable writable : string -> bool.
(** The SMTP session ([SMTP_SSL] connect, [login], [send_message]):
    [Some err] when it raises. *)
Variable smtp_error : string -> string -> mail -> option string.

Local Abbreviation get_font := (get_font font_parses fetch_ok fetch_leaves_file).

(** [hex_to_rgb(hex_color)] *)
Definition hex_to_rgb (hex_color : string) : M (Z * Z * Z) :=
  let h := py_lstrip "#" hex_color in
  r <- liftr (py_int16 (py_slice h 0 2)) ;;
  g <- liftr (py_int16 (py_slice h 2 2)) ;;
  b <- liftr (py_int16 (py_slice h 4 2)) ;;
  ret (r, g, b).

(** Loading the template as an RGB raster:
    [convert_from_path(template_path, dpi=dpi)[0].convert("RGB")] for a PDF,
    [Image.open(template_path).convert("RGB")] otherwise. *)
Definition load_template (template_path template_format : string) (dpi : Z) : M image :=
  if String.eqb template_format "pdf" then
    images <- liftr (convert_from_path template_path dpi) ;;
    match images with
    | img :: _ => ret img
    | [] => raise (PyError "list index out of range")
    end
  else liftr (image_open template_path).

(** [img.save(path, "PNG")] *)
Definition save_png (path : string) (img : image) : M unit :=
  if writable path then write_file path (PngFile img)
  else raise (PyError ("Permission denied: '" +++ path +++ "'")).

(** [c = canvas.Canvas(path, pagesize=(w, h)); c.drawImage(png, 0, 0, width=w,
    height=h); c.setTitle(title); c.save()] *)
Definition save_pdf (path : string) (w h : Z) (png_path : string) (title : string) : M unit :=
  _ <- read_file png_path ;;
  if writable path then write_file path (PdfFile w h png_path title)
  else raise (PyError ("Permission denied: '" +++ path +++ "'")).

(** [CertificateService.generate_certificate] *)
Definition generate_certificate (template_path template_format name : string)
    (text_x text_y : Z) (font_name : string) (font_size : Z) (text_color : string)
    (output_png output_pdf : string) : M (string * string) :=
  cert <- load_template template_path template_format 300 ;;
  font <- get_font font_name font_size ;;
  color_rgb <- hex_to_rgb text_color ;;
  bbox <- liftr (textbbox font name) ;;
  let '(b0, b1, b2, b3) := bbox in
  let text_width := b2 - b0 in
  let text_height := b3 - b1 in
  let centered_x := (im_width cert - text_width) / 2 in
  let adjusted_y := text_y - text_height / 2 in
  let cert := draw_text cert centered_x adjusted_y name color_rgb in
  save_png output_png cert ;;;
  save_pdf output_pdf (im_width cert) (im_height cert) output_png CERTIFICATE_TITLE ;;;
  ret (output_png, output_pdf).

(** [TemplateService.generate_preview], with the session's
    [template_path] and [template_format] passed directly. *)
Definition generate_preview (template_path template_format text : string)
    (x y : Z) (font_name : string) (font_size : Z) (color session_id : string)
    : M string :=
  img <- load_template template_path template_format 150 ;;
  font <- get_font font_name font_size ;;
  color_rgb <- hex_to_rgb color ;;
  bbox <- liftr (textbbox font text) ;;
  let '(b0, _, b2, _) := bbox in
  let text_width := b2 - b0 in
  let centered_x := (im_width img - text_width) / 2 in
  let img := draw_text img centered_x y text color_rgb in
  let preview_path := STATIC_DIR +++ "/" +++ session_id +++ "_text_preview.png" in
  save_png preview_path img ;;;
  t <- utcnow ;;
  ret ("/static/" +++ session_id +++ "_text_preview.png?t=" +++ nat_to_string t).

(** Hand a message to the SMTP server. *)
Definition smtp_send (sender_email app_password : string) (msg : mail) : M unit :=
  match smtp_error sender_email app_password msg with
  | Some err => raise (PyError err)
  | None => modify (fun s => set_outbox (st_outbox s ++ [msg]) s)
  end.

(** [CertificateService.send_certificate] *)
Definition send_certificate (name email pdf_path sender_email app_password
    subject body event_name : string) : M unit :=
  let email_subject := fill_certificate_template subject name event_name in
  let email_body := fill_certificate_template body name event_name in
  data <- read_file pdf_path ;;
  smtp_send sender_email app_password
    (mkMail email_subject sender_email email email_body
       (Some (attachment_filename name, data))).

(** [CertificateService.send_email] *)
Definition send_email (to_email sender_email app_password subject body : string)
    : M unit :=
  smtp_send sender_email app_password (mkMail subject sender_email to_email body None).

(** [secrets.token_urlsafe(32)]: the [n]-th call returns [token_of n]. *)
Variable token_of : nat -> string.
(** [decrypt_app_password] (Fernet) *)
Variable decrypt_app_password : string -> res string.

Definition token_urlsafe : M string :=
  fun s => (Ok (token_of (st_rng s)), tick_rng s).

(** Lines 112-169 of [submit_feedback] and 337-389 of [send_certificates]:
    render the certificate and mail it, with [event_name] left at its default. *)
Definition render_and_send (event : event) (event_id name email sender_email
    app_password : string) : M unit :=
  let png_path := png_path_of event_id name in
  let pdf_path := pdf_path_of event_id name in
  let ts := ev_text_settings event in
  template_path <- template_path_or_raise event ;;
  generate_certificate template_path (ev_template_format event) name 0
    (ts_y_position ts) (ts_font_name ts) (ts_font_size ts) (ts_text_color ts)
    png_path pdf_path ;;;
  send_certificate name email pdf_path sender_email app_password
    (ev_email_subject event) (ev_email_body event) send_certificate_default_event_name.

(** [POST /api/feedback/{token}/submit]: [submit_feedback] *)
Definition submit_feedback (token : string) (answers : list answer) : M string :=
  fb <- gets (fun s => feedback_by_token token (st_feedback s)) ;;
  match fb with
  | None => raise (HTTPException 404 "Feedback link not found or expired")
  | Some feedback =>
  match fb_submitted_at feedback with
  | Some _ => raise (HTTPException 410 "Feedback already submitted")
  | None =>
  let pid := fb_participant_id feedback in
  participant <- gets (fun s => participant_by_id pid (st_participants s)) ;;
  match participant with
  | None => raise (HTTPException 404 "Participant not found")
  | Some participant =>
  event <- gets (fun s => find_first (fun e => String.eqb (ev_id e) (fb_event_id feedback))
                            (st_events s)) ;;
  match event with
  | None => raise (HTTPException 404 "Event not found")
  | Some event =>
  user <- gets (fun s => find_first (fun u => String.eqb (u_id u) (ev_user_id event))
                           (st_users s)) ;;
  match option_bind user u_email_settings with
  | None => raise (HTTPException 500 "Event owner email not configured")
  | Some settings =>
  t1 <- utcnow ;;
  modify (fun s => set_feedback
                     (update_first (fun f => String.eqb (fb_token f) token)
                        (with_submission answers t1) (st_feedback s)) s) ;;;
  t2 <- utcnow ;;
  update_participant pid (with_feedback_received t2) ;;;
  try_except
    (let name := p_name participant in
     let email := p_email participant in
     let sender_email := es_email settings in
     app_password <- liftr (decrypt_app_password (es_app_password_encrypted settings)) ;;
     render_and_send event (fb_event_id feedback) name email sender_email app_password ;;;
     t3 <- utcnow ;;
     update_participant pid (fun p => with_certificate_sent t3 (p_error_message p) p) ;;;
     ret "Thank you for your feedback! Your certificate has been sent to your email.")
    (fun e =>
       update_participant pid (with_status Failed (Some (exn_str e))) ;;;
       raise (HTTPException 500 ("Failed to send certificate: " +++ exn_str e)))
  end end end end end.

(** The [try] block of one iteration of the loop of [send_certificates],
    with [results["total"]] already counted. *)
Definition participant_body (event : event) (event_id sender_email app_password : string)
    (participant : participant) (results : send_results) : M send_results :=
  let participant_id := p_id participant in
  let name := p_name participant in
  let email := p_email participant in
  if ev_feedback_enabled event then
    token <- token_urlsafe ;;
    modify (fun s => set_feedback (issue_feedback participant_id event_id token
                                     (st_feedback s)) s) ;;;
    update_participant participant_id (with_feedback_sent token) ;;;
    let feedback_url := FRONTEND_URL +++ "/feedback/" +++ token in
    let feedback_email_body :=
      py_replace (py_replace (py_replace (ev_feedback_email_body event) "{name}" name)
                    "{event_name}" (ev_name event)) "{feedback_url}" feedback_url in
    let feedback_email_subject :=
      py_replace (py_replace (ev_feedback_email_subject event) "{name}" name)
        "{event_name}" (ev_name event) in
    send_email email sender_email app_password feedback_email_subject
      feedback_email_body ;;;
    ret (add_success results (mkDetail name email FeedbackSent None))
  else
    render_and_send event event_id name email sender_email app_password ;;;
    t <- utcnow ;;
    update_participant participant_id (with_certificate_sent t None) ;;;
    ret (add_success results (mkDetail name email CertificateSent None)).

(** One iteration of the loop of [send_certificates]. *)
Definition process_participant (event : event) (event_id sender_email app_password : string)
    (participant : participant) (results : send_results) : M send_results :=
  let results := bump_total results in
  let participant_id := p_id participant in
  let name := p_name participant in
  let email := p_email participant in
  try_except
    (participant_body event event_id sender_email app_password participant results)
    (fun e =>
       update_participant participant_id (with_status Failed (Some (exn_str e))) ;;;
       ret (add_failure results (mkDetail name email Failed (Some (exn_str e)))))%Z.

Fixpoint process_all (event : event) (event_id sender_email app_password : string)
    (ps : list participant) (results : send_results) : M send_results :=
  match ps with
  | [] => ret results
  | p :: ps' =>
      r <- process_participant event event_id sender_email app_password p results ;;
      process_all event event_id sender_email app_password ps' r
  end.

(** The results so far and the state with which each turn of the loop of
    [send_certificates] begins. *)
Fixpoint turn_states (event : event) (event_id sender_email app_password : string)
    (ps : list participant) (results : send_results) (s : state)
    : list (send_results * state) :=
  match ps with
  | [] => []
  | p :: ps' =>
      (results, s) ::
        match process_participant event event_id sender_email app_password p results s with
        | (Ok r, s1) => turn_states event event_id sender_email app_password ps' r s1
        | (Raise _, _) => []
        end
  end.

(** How the turn of participant [p], begun with [results] in state [x],
    reports [d]: a [try] block that raises [e] gives the failed detail with
    [str(e)]; one that returns gives a detail with a status of success and
    no error. *)
Definition turn_outcome (event : event) (event_id sender_email app_password : string)
    (p : participant) (begin : send_results * state) (d : detail) : Prop :=
  let '(results, x) := begin in
  ((forall e x1,
     participant_body event event_id sender_email app_password p (bump_total results) x =
       (Raise e, x1) ->
     d = mkDetail (p_name p) (p_email p) Failed (Some (exn_str e))) /\
  (forall a x1,
     participant_body event event_id sender_email app_password p (bump_total results) x =
       (Ok a, x1) ->
     d_status d <> Failed /\ d_error d = None))%type.

(** [POST /api/events/{event_id}/send]: [send_certificates] *)
Definition send_certificates (event_id : string) (send_all : bool) (current_user_id : string)
    : M send_results :=
  user <- gets (fun s => find_first (fun u => String.eqb (u_id u) current_user_id)
                           (st_users s)) ;;
  match option_bind user u_email_settings with
  | None => raise (HTTPException 400 "Email settings not configured")
  | Some settings =>
  oid <- liftr (ObjectId event_id) ;;
  event <- gets (fun s => owned_event oid current_user_id (st_events s)) ;;
  match event with
  | None => raise (HTTPException 404 "Event not found")
  | Some event =>
  match ev_template_path event with
  | None | Some EmptyString => raise (HTTPException 400 "No template uploaded")
  | Some _ =>
  let sender_email := es_email settings in
  app_password <- liftr (decrypt_app_password (es_app_password_encrypted settings)) ;;
  selected <- gets (fun s => select_participants event_id send_all (st_participants s)) ;;
  results <- process_all event event_id sender_email app_password selected
               (mkResults 0 0 0 []) ;;
  (* [events.update_one({"_id": ObjectId(event_id)}, ...)]: the id read above *)
  modify (set_event_status oid (if Nat.eqb (r_failed results) 0 then Completed
                                      else Sending)) ;;;
  ret results
  end end end.

End Backend.

(** ** A concrete library environment, for evaluating the embedding *)

Module Demo.
Local Open Scope Z_scope.

(** The event's id, as [str(ObjectId)] stores it: 24 lowercase hex digits. *)
Definition e1 : string := "66b2f0c1a4d3e5f6a7b8c9e1".

Definition font_parses (_ : string) (_ : Z) : bool := false.
Definition fetch_ok (_ : string) : bool := false.
Definition fetch_leaves_file (_ : string) : bool := false.
Definition template : image := mkImage 2001 1414 [].
Definition image_open (_ : string) : res image := Ok template.
Definition convert_from_path (_ : string) (_ : Z) : res (list image) := Ok [template].
(** Pillow's [textbbox] for a font with a 30 px advance; like Pillow, the
    empty string measures as the zero box. *)
Definition textbbox (_ : font) (s : string) : res (Z * Z * Z * Z) :=
  match s with
  | EmptyString => Ok (0, 0, 0, 0)
  | _ => Ok (0, 4, 30 * Z.of_nat (String.length s), 44)
  end.
Definition hex_value (c : ascii) : option Z :=
  let n := Z.of_nat (nat_of_ascii c) in
  if (48 <=? n) && (n <=? 57) then Some (n - 48)
  else if (97 <=? n) && (n <=? 102) then Some (n - 87)
  else if (65 <=? n) && (n <=? 70) then Some (n - 55)
  else None.
Fixpoint hex_acc (acc : Z) (s : string) : option Z :=
  match s with
  | EmptyString => Some acc
  | String c s' =>
      match hex_value c with
      | Some d => hex_acc (16 * acc + d) s'
      | None => None
      end
  end.
(** [int(s, 16)] on plain hexadecimal digits. *)
Definition py_int16 (s : string) : res Z :=
  match s with
  | EmptyString => Raise (PyError "invalid literal for int() with base 16: ''")
  | _ => match hex_acc 0 s with
         | Some v => Ok v
         | None => Raise (PyError ("invalid literal for int() with base 16: '" +++ s +++ "'"))
         end
  end.
Definition writable (_ : string) : bool := true.
(** The SMTP server refuses a recipient address without an [@]. *)
Definition smtp_error (_ _ : string) (msg : mail) : option string :=
  if existsb (fun c => Ascii.eqb c "@"%char) (list_ascii_of_string (m_to msg)) then None
  else Some ("{'" +++ m_to msg +++ "': (553, 'invalid recipient')}").
Definition token_of (n : nat) : string := "tok" +++ nat_to_string n.
Definition decrypt_app_password (s : string) : res string := Ok s.
Definition empty_state : state := mkState [] [] [] [] [] [] [] [] 0 0.

Definition certificate (name : string) : M (string * string) :=
  generate_certificate font_parses fetch_ok fetch_leaves_file image_open convert_from_path
    textbbox py_int16 writable "uploads/template.png" "image" name 0 500 "Roboto" 60
    "#1a2b3c" ("output/e1/png/" +++ name +++ ".png") ("output/e1/pdf/" +++ name +++ ".pdf").

Definition preview (name : string) : M string :=
  generate_preview font_parses fetch_ok fetch_leaves_file image_open convert_from_path
    textbbox py_int16 writable "uploads/template.png" "image" name 0 500 "Roboto" 60
    "#1a2b3c" "s1".

(** Mailing the certificate rendered by [certificate name]. *)
Definition send_cert (name : string) : M unit :=
  send_certificate smtp_error name "ada@example.org" ("output/e1/pdf/" +++ name +++ ".pdf")
    "org@example.org" "pw" "Your certificate" "Dear {name}" "".

Definition certificate_state (name : string) : state := snd (certificate name empty_state).

(** An event without feedback, owned by [u1]. *)
Definition event_direct : event :=
  mkEvent e1 "u1" "Gala" (Some "uploads/template.png") "image"
    (mkTextSettings 500 "Roboto" 60 "#1a2b3c") false
    "Certificate: {event_name}" "Dear {name}, thank you for joining {event_name}."
    "" "" Draft.

Definition participant_of (pid name email : string) : participant :=
  mkParticipant pid e1 name email Pending None None None None.

Definition direct_step (p : participant) : M send_results :=
  process_participant font_parses fetch_ok fetch_leaves_file image_open convert_from_path
    textbbox py_int16 writable smtp_error token_of event_direct e1 "org@example.org" "pw"
    p (mkResults 0 0 0 []).

Definition owner : user := mkUser "u1" (Some (mkEmailSettings "org@example.org" "pw")).

(** One issued, unsubmitted token [tok0] for participant [p1] of [e1]. *)
Definition redeem_state (email : string) (users : list user) : state :=
  mkState [] [] [] [mkFeedback "p1" e1 "tok0" [] None]
    [participant_of "p1" "Ada Lovelace" email] [event_direct] users [] 0 0.

Definition redeem (answers : list answer) : M string :=
  submit_feedback font_parses fetch_ok fetch_leaves_file image_open convert_from_path
    textbbox py_int16 writable smtp_error decrypt_app_password "tok0" answers.

Definition answers1 : list answer := [mkAnswer "q1" "Great"].

(** Five pending participants of [e1]; the third has an address the SMTP
    server refuses. *)
Definition five : list participant :=
  [participant_of "p1" "Ada Lovelace" "ada@example.org";
   participant_of "p2" "Alan Turing" "alan@example.org";
   participant_of "p3" "Grace Hopper" "not-an-email";
   participant_of "p4" "Edsger Dijkstra" "edsger@example.org";
   participant_of "p5" "Barbara Liskov" "barbara@example.org"].

Definition dispatch_state : state :=
  mkState [] [] [] [] five [event_direct] [owner] [] 0 0.

(** The same participants for an event that collects feedback first. *)
Definition event_feedback : event :=
  mkEvent e1 "u1" "Gala" (Some "uploads/template.png") "image"
    (mkTextSettings 500 "Roboto" 60 "#1a2b3c") true
    "Certificate: {event_name}" "Dear {name}, thank you for joining {event_name}."
    "Feedback for {event_name}" "Dear {name}, please answer at {feedback_url}." Draft.

Definition feedback_state : state :=
  mkState [] [] [] [] five [event_feedback] [owner] [] 0 0.

Definition dispatch (send_all : bool) : M send_results :=
  send_certificates font_parses fetch_ok fetch_leaves_file image_open convert_from_path
    textbbox py_int16 writable smtp_error token_of decrypt_app_password e1 send_all "u1".

End Demo.

(** ** Frame conditions

    [keeps I m]: running [m] from a state satisfying [I] ends in a state
    satisfying [I], whether [m] returns or raises. *)
Definition keeps {A} (I : state -> Prop) (m : M A) : Prop :=
  forall s r s', I s -> m s = (r, s') -> I s'.

(** [I] survives the state changes of font resolution and rendering:
    printing and writing files. *)
Definition render_frame (I : state -> Prop) : Prop :=
  (forall s l, I s -> I (set_log l s)) /\ (forall s o, I s -> I (set_out o s)).

(** [I] survives handing a message to the SMTP server. *)
Definition mail_frame (I : state -> Prop) : Prop :=
  forall s o, I s -> I (set_outbox o s).

(** The feedback and participant collections are [fs] and [ps]. *)
Definition stores_frame (fs : list feedback) (ps : list participant) (x : state) : Prop :=
  st_feedback x = fs /\ st_participants x = ps.

(** The collections other than feedback and participants are free. *)
Definition participants_are (ps : list participant) (x : state) : Prop :=
  st_participants x = ps.

(** Adding a detail to the results, as the success or the failure branch of
    the loop does according to the detail's status. *)
Definition record_detail (r : send_results) (d : detail) : send_results :=
  match d_status d with
  | Failed => add_failure r d
  | _ => add_success r d
  end.

(** What the loop reports for one participant and leaves on its document. *)
Definition detail_spec (s' : state) (p : participant) (d : detail) : Prop :=
  d_name d = p_name p /\ d_email d = p_email p /\
  (((d_status d = FeedbackSent \/ d_status d = CertificateSent) /\ d_error d = None) \/
   (d_status d = Failed /\ exists msg, d_error d = Some msg)) /\
  exists y, participant_by_id (p_id p) (st_participants s') = Some y /\
    p_status y = d_status d /\ p_error_message y = d_error d.

(** At most one feedback record per participant. *)
Definition feedback_unique (x : state) : Prop :=
  NoDup (map fb_participant_id (st_feedback x)).

(** A participant update that keeps the document's id. *)
Definition id_preserving (g : participant -> participant) : Prop :=
  forall x, p_id (g x) = p_id x.

(** Map every character of a string. *)
Fixpoint string_map (f : ascii -> ascii) (s : string) : string :=
  match s with
  | EmptyString => EmptyString
  | String c s' => String (f c) (string_map f s')
  end.

(** The name with each space turned into an underscore, character by
    character. *)
Definition space_to_underscore (name : string) : string :=
  string_map (fun c => if Ascii.eqb c " " then "_"%char else c) name.

(** ** Read endpoints, exports and template upload

    Embeds, from [backend/app]: [get_feedback_form] ([api/feedback.py]),
    [get_results] and [download_feedback] ([api/send.py]),
    [TemplateService.process_template] ([services/template_service.py]) and
    its caller [upload_template] ([api/events.py]). *)

(** [settings.UPLOAD_DIR] *)
Definition UPLOAD_DIR : string := "uploads".

(** A stored [FeedbackQuestion], with the fields the form and the export read. *)
Record question : Type := mkQuestion { q_id : string; q_question : string }.

(** [FeedbackFormData] *)
Record feedback_form : Type := mkForm {
  form_participant_name : string;
  form_participant_email : string;
  form_event_name : string;
  form_questions : list question
}.

(** [results["statistics"]] of [get_results] *)
Record statistics : Type := mkStatistics {
  stat_total : nat;
  stat_pending : nat;
  stat_feedback_sent : nat;
  stat_feedback_received : nat;
  stat_certificate_sent : nat;
  stat_failed : nat
}.

(** The dictionary returned by [get_results]. *)
Record results_summary : Type := mkSummary {
  sum_event_name : string;
  sum_feedback_enabled : bool;
  sum_statistics : statistics
}.

(** [participants.count_documents(query)] *)
Definition count_documents (query : participant -> bool) (l : list participant) : nat :=
  List.length (filter query l).

(** [{"event_id": event_id, "status": st}] *)
Definition event_status_query (event_id : string) (st : status) (p : participant) : bool :=
  String.eqb (p_event_id p) event_id && status_eqb (p_status p) st.

(** [GET /api/events/{event_id}/results]: [get_results] *)
Definition get_results (event_id current_user_id : string) : M results_summary :=
  oid <- liftr (ObjectId event_id) ;;
  event <- gets (fun s => owned_event oid current_user_id (st_events s)) ;;
  match event with
  | None => raise (HTTPException 404 "Event not found")
  | Some event =>
  total <- gets (fun s => count_documents (fun p => String.eqb (p_event_id p) event_id)
                            (st_participants s)) ;;
  pending <- gets (fun s => count_documents (event_status_query event_id Pending)
                              (st_participants s)) ;;
  feedback_sent <- gets (fun s => count_documents (event_status_query event_id FeedbackSent)
                                    (st_participants s)) ;;
  feedback_received <- gets (fun s => count_documents
                                        (event_status_query event_id FeedbackReceived)
                                        (st_participants s)) ;;
  certificate_sent <- gets (fun s => count_documents
                                       (event_status_query event_id CertificateSent)
                                       (st_participants s)) ;;
  failed <- gets (fun s => count_documents (event_status_query event_id Failed)
                             (st_participants s)) ;;
  ret (mkSummary (ev_name event) (ev_feedback_enabled event)
         (mkStatistics total pending feedback_sent feedback_received certificate_sent failed))
  end.

(** Python's [s.lower()] on ASCII text. *)
Definition ascii_lower (c : ascii) : ascii :=
  let n := nat_of_ascii c in
  if Nat.leb 65 n && Nat.leb n 90 then ascii_of_nat (n + 32) else c.
Definition py_lower (s : string) : string := string_map ascii_lower s.

(** Python's [s.endswith(suffix)]. *)
Definition py_endswith (s suffix : string) : bool :=
  Nat.leb (String.length suffix) (String.length s) &&
  String.eqb (String.substring (String.length s - String.length suffix)
                (String.length suffix) s) suffix.

(** Python's [d[k] = v] on a dictionary kept in insertion order. *)
Fixpoint dict_set {V : Type} (k : string) (v : V) (d : list (string * V))
    : list (string * V) :=
  match d with
  | [] => [(k, v)]
  | (k', v') :: d' => if String.eqb k k' then (k', v) :: d' else (k', v') :: dict_set k v d'
  end.

(** [{a["question_id"]: a["answer"] for a in fb.get("answers", [])}] *)
Definition answers_map (answers : list answer) : list (string * string) :=
  fold_left (fun d a => dict_set (question_id a) (answer_text a) d) answers [].

(** [d.get(k, "")] *)
Definition dict_get_or_empty (k : string) (d : list (string * string)) : string :=
  match assoc k d with Some v => v | None => "" end.

(** [{"event_id": event_id, "submitted_at": {"$ne": None}}] *)
Definition submitted_of_event (event_id : string) (fb : feedback) : bool :=
  String.eqb (fb_event_id fb) event_id &&
  match fb_submitted_at fb with Some _ => true | None => false end.

(** The stored form of a [status]. *)
Definition status_str (st : status) : string :=
  match st with
  | Pending => "pending"
  | FeedbackSent => "feedback_sent"
  | FeedbackReceived => "feedback_received"
  | CertificateSent => "certificate_sent"
  | Failed => "failed"
  end.

(** [.sort("name", 1)]: ascending by name, compared byte by byte. MongoDB
    leaves the order of equal names open; this insertion sort is one of the
    orders it may return. *)
Fixpoint insert_by_name (p : participant) (l : list participant) : list participant :=
  match l with
  | [] => [p]
  | q :: l' => if String.leb (p_name p) (p_name q) then p :: l else q :: insert_by_name p l'
  end.

Definition sort_by_name (l : list participant) : list participant :=
  fold_right insert_by_name [] l.

Section Forms.

(** [event.get("feedback_questions", [])] *)
Variable event_questions : event -> list question.
(** How [csv.writer] writes a stored time stamp ([str(datetime)]). *)
Variable show_time : nat -> string.

(** [GET /api/feedback/{token}]: [get_feedback_form] *)
Definition get_feedback_form (token : string) : M feedback_form :=
  fb <- gets (fun s => feedback_by_token token (st_feedback s)) ;;
  match fb with
  | None => raise (HTTPException 404 "Feedback link not found or expired")
  | Some feedback =>
  match fb_submitted_at feedback with
  | Some _ => raise (HTTPException 410 "Feedback already submitted")
  | None =>
  participant <- gets (fun s => participant_by_id (fb_participant_id feedback)
                                  (st_participants s)) ;;
  match participant with
  | None => raise (HTTPException 404 "Participant not found")
  | Some participant =>
  event <- gets (fun s => find_first (fun e => String.eqb (ev_id e) (fb_event_id feedback))
                            (st_events s)) ;;
  match event with
  | None => raise (HTTPException 404 "Event not found")
  | Some event =>
  ret (mkForm (p_name participant) (p_email participant) (ev_name event)
         (event_questions event))
  end end end end.

(** The header row of the feedback export. *)
Definition feedback_header (anonymous : bool) (questions : list question) : list string :=
  (if anonymous then ["Response #"; "Submitted At"] else ["Name"; "Email"; "Submitted At"])
  ++ map q_question questions.

(** [fb.get("submitted_at", "")] *)
Definition submitted_cell (fb : feedback) : string :=
  match fb_submitted_at fb with Some t => show_time t | None => "" end.

(** [for q in questions: row.append(answers_map.get(q["id"], ""))] *)
Definition answer_cells (questions : list question) (fb : feedback) : list string :=
  let amap := answers_map (fb_answers fb) in
  map (fun q => dict_get_or_empty (q_id q) amap) questions.

(** The data rows: the loop over the cursor, with [response_num]; a
    non-anonymous row whose participant is gone is skipped ([continue]). *)
Fixpoint feedback_rows (anonymous : bool) (questions : list question)
    (ps : list participant) (response_num : nat) (fbs : list feedback)
    : list (list string) :=
  match fbs with
  | [] => []
  | fb :: rest =>
      if anonymous then
        (["Response " +++ nat_to_string response_num; submitted_cell fb]
           ++ answer_cells questions fb)
        :: feedback_rows anonymous questions ps (S response_num) rest
      else
        match participant_by_id (fb_participant_id fb) ps with
        | None => feedback_rows anonymous questions ps response_num rest
        | Some participant =>
            ([p_name participant; p_email participant; submitted_cell fb]
               ++ answer_cells questions fb)
            :: feedback_rows anonymous questions ps (S response_num) rest
        end
  end.

(** [GET /api/events/{event_id}/feedback/download]: [download_feedback],
    returning the file name and the rows handed to [csv.writer]. *)
Definition download_feedback (event_id : string) (anonymous : bool) (current_user_id : string)
    : M (string * list (list string)) :=
  oid <- liftr (ObjectId event_id) ;;
  event <- gets (fun s => owned_event oid current_user_id (st_events s)) ;;
  match event with
  | None => raise (HTTPException 404 "Event not found")
  | Some event =>
  let questions := event_questions event in
  let header := feedback_header anonymous questions in
  fbs <- gets (fun s => filter (submitted_of_event event_id) (st_feedback s)) ;;
  ps <- gets st_participants ;;
  let filename := "feedback_" +++ (if anonymous then "anonymous_" else "") +++ event_id
                  +++ ".csv" in
  ret (filename, header :: feedback_rows anonymous questions ps 1 fbs)
  end.

(** The value [csv.writer] writes for an optional time stamp: [str(datetime)],
    or the empty string for a missing or [None] field. *)
Definition time_cell (t : option nat) : string :=
  match t with Some t => show_time t | None => "" end.

(** [[p["name"], p["email"], p.get("status", "pending"),
    p.get("feedback_submitted_at", ""), p.get("certificate_sent_at", ""),
    p.get("error_message", "")]] *)
Definition results_row (p : participant) : list string :=
  [p_name p; p_email p; status_str (p_status p); time_cell (p_feedback_submitted_at p);
   time_cell (p_certificate_sent_at p);
   match p_error_message p with Some m => m | None => "" end].

(** [GET /api/events/{event_id}/results/download]: [download_results],
    returning the file name of the [Content-Disposition] header and the rows
    handed to [csv.writer]. *)
Definition download_results (event_id current_user_id : string)
    : M (string * list (list string)) :=
  oid <- liftr (ObjectId event_id) ;;
  event <- gets (fun s => owned_event oid current_user_id (st_events s)) ;;
  match event with
  | None => raise (HTTPException 404 "Event not found")
  | Some _ =>
  let header := ["Name"; "Email"; "Status"; "Feedback Submitted"; "Certificate Sent"; "Error"] in
  cursor <- gets (fun s => sort_by_name (filter (fun p => String.eqb (p_event_id p) event_id)
                                           (st_participants s))) ;;
  ret ("results_" +++ event_id +++ ".csv", header :: map results_row cursor)
  end.

End Forms.

(** What [process_template] returns. *)
Record template_info : Type := mkTemplateInfo {
  ti_template_path : string;
  ti_template_format : string;
  ti_width : Z;
  ti_height : Z;
  ti_preview_url : string
}.

(** [allowed_extensions] of [upload_template] *)
Definition allowed_extensions : list string := [".png"; ".jpg"; ".jpeg"; ".pdf"].

(** [events.update_one({"_id": ObjectId(event_id)}, {"$set": {"template_path": tp,
    "template_format": fmt, ..., "text_settings.y_position": height // 2}})] *)
Definition with_template (tp fmt : string) (height : Z) (e : event) : event :=
  let ts := ev_text_settings e in
  mkEvent (ev_id e) (ev_user_id e) (ev_name e) (Some tp) fmt
    (mkTextSettings (Z.div height 2) (ts_font_name ts) (ts_font_size ts) (ts_text_color ts))
    (ev_feedback_enabled e) (ev_email_subject e) (ev_email_body e)
    (ev_feedback_email_subject e) (ev_feedback_email_body e) (ev_status e).

Definition set_template (event_id tp fmt : string) (height : Z) (s : state) : state :=
  set_events
    (update_first (fun e => String.eqb (ev_id e) event_id) (with_template tp fmt height)
       (st_events s)) s.

(** [Path(path).unlink()] *)
Definition unlink (path : string) : M unit :=
  modify (fun s => set_out (filter (fun '(q, _) => negb (String.eqb path q)) (st_out s))
                     (set_files (filter (fun q => negb (String.eqb path q)) (st_files s)) s)).

(** [settings.UPLOAD_DIR / f"{session_id}_template_{file.filename}"] *)
Definition upload_path (session_id filename : string) : string :=
  UPLOAD_DIR +++ "/" +++ session_id +++ "_template_" +++ filename.

(** ["pdf" if file.filename.lower().endswith(".pdf") else "image"] *)
Definition template_format_of (filename : string) : string :=
  if py_endswith (py_lower filename) ".pdf" then "pdf" else "image".

Section Templates.
Local Open Scope Z_scope.

Variable image_open : string -> res image.
Variable convert_from_path : string -> Z -> res (list image).
Variable writable : string -> bool.

(** [with open(file_path, "wb") as buffer: buffer.write(await file.read())] *)
Definition write_upload (path : string) : M unit :=
  if writable path then modify (fun s => set_files (path :: st_files s) s)
  else raise (PyError ("Permission denied: '" +++ path +++ "'")).

(** [TemplateService.process_template(file, session_id)] for an upload named
    [filename]; [pdf2image] is taken to be installed. *)
Definition process_template (filename session_id : string) : M template_info :=
  let file_path := upload_path session_id filename in
  try_except
    (write_upload file_path ;;;
     let template_format := template_format_of filename in
     img <- (if String.eqb template_format "pdf" then
               try_except
                 (images <- liftr (convert_from_path file_path 150) ;;
                  match images with
                  | img :: _ => ret img
                  | [] => raise (PyError "list index out of range")
                  end)
                 (fun e => raise (PyError ("Failed to convert PDF: " +++ exn_str e
                                           +++ ". Make sure poppler is installed.")))
             else liftr (image_open file_path)) ;;
     let preview_path := STATIC_DIR +++ "/" +++ session_id +++ "_preview.png" in
     save_png writable preview_path img ;;;
     t <- utcnow ;;
     ret (mkTemplateInfo file_path template_format (im_width img) (im_height img)
            ("/static/" +++ session_id +++ "_preview.png?t=" +++ nat_to_string t)))
    (fun e =>
       ex <- path_exists file_path ;;
       (if ex then unlink file_path else ret tt) ;;;
       raise e).

(** [POST /api/events/{event_id}/template]: [upload_template], returning
    [(preview_url, width, height)]. *)
Definition upload_template (event_id filename current_user_id : string)
    : M (string * Z * Z) :=
  oid <- liftr (ObjectId event_id) ;;
  event <- gets (fun s => owned_event oid current_user_id (st_events s)) ;;
  match event with
  | None => raise (HTTPException 404 "Event not found")
  | Some _ =>
  if negb (existsb (py_endswith (py_lower filename)) allowed_extensions) then
    raise (HTTPException 400 "Only PNG, JPG, and PDF files are supported")
  else
  result <- process_template filename event_id ;;
  _ <- utcnow ;;
  modify (set_template oid (ti_template_path result) (ti_template_format result)
            (ti_height result)) ;;;
  ret (ti_preview_url result, ti_width result, ti_height result)
  end.

End Templates.

(** ** A concrete environment for the read endpoints and the upload *)

Module DemoViews.

Definition questions : list question :=
  [mkQuestion "q1" "How was the event?"; mkQuestion "q2" "What did you like most?"].
Definition event_questions (_ : event) : list question := questions.
Definition show_time (t : nat) : string := "T" +++ nat_to_string t.
Definition settings : email_settings := mkEmailSettings "org@example.org" "pw".

(** [Demo.redeem_state] before and after redeeming [tok0]. *)
Definition redeem_state : state := Demo.redeem_state "ada@example.org" [Demo.owner].
Definition redeemed : state := snd (Demo.redeem Demo.answers1 redeem_state).

(** The event of [Demo.dispatch_state] before any template was uploaded. *)
Definition event_untemplated : event :=
  mkEvent Demo.e1 "u1" "Gala" None "image" (mkTextSettings 500 "Roboto" 60 "#1a2b3c") false
    "Certificate: {event_name}" "Dear {name}, thank you for joining {event_name}."
    "" "" Draft.
Definition untemplated_state : state :=
  mkState [] [] [] [] Demo.five [event_untemplated] [Demo.owner] [] 0 0.

Definition upload (filename : string) : M (string * Z * Z) :=
  upload_template Demo.image_open Demo.convert_from_path Demo.writable Demo.e1 filename "u1".

End DemoViews.

(** * Proofs *)

(** ** Lemmas on the font resolver *)

Section FontProofs.

Variable font_parses : string -> Z -> bool.
Variable fetch_ok fetch_leaves_file : string -> bool.
Variable font_name : string.

Local Abbreviation warning_line := (warning_line font_name).
Local Abbreviation never_raises := (never_raises font_parses font_name).

Lemma truetype_or_fallback_safe (p : string) (z : Z) (k : M font) :
  never_raises k ->
  never_raises (try_except (truetype font_parses p z) (fun _ => k)).
Proof.
  intros Hk st. unfold try_except, truetype, bind, path_exists, gets.
  destruct ((existsb (String.eqb p) (st_files st)
             || existsb (fun '(q, _) => String.eqb p q) (st_out st))
            && font_parses p z) eqn:E.
  - exists (FreeTypeFont p z), st. split; [reflexivity|].
    split; [|discriminate].
    intros p' z' Heq. injection Heq as -> ->.
    apply andb_true_iff in E. tauto.
  - apply Hk.
Qed.

Lemma try_font_paths_safe (paths : list string) (z : Z) (k : M font) :
  never_raises k -> never_raises (try_font_paths font_parses paths z k).
Proof.
  intros Hk. induction paths as [|p ps IH]; simpl; [exact Hk|].
  intros st. unfold bind, path_exists, gets.
  destruct (existsb (String.eqb p) (st_files st)
            || existsb (fun '(q, _) => String.eqb p q) (st_out st)).
  - apply (truetype_or_fallback_safe p z _ IH).
  - apply IH.
Qed.

Lemma default_fallback_safe :
  never_raises (print warning_line ;;; load_default).
Proof.
  intros st. eexists DefaultFont, _. split; [reflexivity|].
  split; [discriminate|]. intros _. simpl.
  rewrite last_last. reflexivity.
Qed.

Lemma download_google_font_total (url : string) (st : state) :
  exists o st',
    download_google_font fetch_ok fetch_leaves_file font_name url st = (Ok o, st').
Proof.
  unfold download_google_font, bind, try_except, urlretrieve, path_exists, gets,
    ret, raise, write_file, modify, print.
  repeat match goal with
         | |- context [if ?b then _ else _] => destruct b
         end; unfold bind; simpl; eauto.
Qed.

Lemma fallback_safe (size : Z) :
  never_raises
    (try_font_paths font_parses SYSTEM_FONTS size (print warning_line ;;; load_default)).
Proof. apply try_font_paths_safe, default_fallback_safe. Qed.

Lemma get_font_safe (size : Z) :
  never_raises (get_font font_parses fetch_ok fetch_leaves_file font_name size).
Proof.
  assert (Hg : forall o : option (string),
             never_raises
               (match o with
                | Some url =>
                    bind (download_google_font fetch_ok fetch_leaves_file font_name url)
                      (fun font_path =>
                         match font_path with
                         | Some fp => try_except (truetype font_parses fp size)
                                        (fun _ => try_font_paths font_parses SYSTEM_FONTS size
                                                    (print warning_line ;;; load_default))
                         | None => try_font_paths font_parses SYSTEM_FONTS size
                                     (print warning_line ;;; load_default)
                         end)
                | None => try_font_paths font_parses SYSTEM_FONTS size
                            (print warning_line ;;; load_default)
                end)).
  { intros [url|]; [|apply fallback_safe].
    intros st. destruct (download_google_font_total url st) as [o [st' H]].
    unfold bind at 1. rewrite H.
    destruct o as [fp|].
    - apply truetype_or_fallback_safe, fallback_safe.
    - apply fallback_safe. }
  unfold get_font.
  destruct (assoc font_name SYSTEM_FONT_PATHS) as [paths|].
  - apply try_font_paths_safe, Hg.
  - apply Hg.
Qed.

(** C7: for every font name and size, [get_font] returns a font and never
    raises. It tries the known system paths of the name, then the cached or
    downloaded Google font, then the generic fallback paths, then Pillow's
    default font; a path that exists but fails to load is skipped (the
    exception is caught), a returned FreeType font is one that loaded, and
    the default font is returned only after the warning line was printed. *)
Theorem get_font_never_raises (size : Z) (st : state) :
  exists f st',
    get_font font_parses fetch_ok fetch_leaves_file font_name size st = (Ok f, st') /\
    (forall p z, f = FreeTypeFont p z -> font_parses p z = true) /\
    (f = DefaultFont -> last (st_log st') "" =
       "Warning: Could not load font '" +++ font_name +++ "', using default").
Proof.
  destruct (get_font_safe size st) as (f & st' & H & H1 & H2).
  exists f, st'. split; [exact H|]. split; [exact H1|]. exact H2.
Qed.

End FontProofs.

(** ** Lemmas on the compositor *)

Example py_replace_spaces : py_replace "Ada King Lovelace" " " "_" = "Ada_King_Lovelace".
Proof. reflexivity. Qed.

Example py_replace_single_pass :
  py_replace "{event{event_name}_name}" "{event_name}" "" = "{event_name}".
Proof. reflexivity. Qed.

Example safe_name_slashes : safe_name "a/b" = "a_b".
Proof. reflexivity. Qed.

Section CompositorProofs.
Local Open Scope Z_scope.

Variable font_parses : string -> Z -> bool.
Variable fetch_ok fetch_leaves_file : string -> bool.
Variable image_open : string -> res image.
Variable convert_from_path : string -> Z -> res (list image).
Variable textbbox : font -> string -> res (Z * Z * Z * Z).
Variable py_int16 : string -> res Z.
Variable writable : string -> bool.

Lemma load_template_pure (tp fmt : string) (dpi : Z) (st st' : state) (r : res image) :
  load_template image_open convert_from_path tp fmt dpi st = (r, st') -> st' = st.
Proof.
  unfold load_template, bind, liftr, ret, raise.
  destruct (String.eqb fmt "pdf").
  - destruct (convert_from_path tp dpi) as [[|i is]|e]; congruence.
  - congruence.
Qed.

Lemma hex_to_rgb_pure (c : string) (st st' : state) (r : res (Z * Z * Z)) :
  hex_to_rgb py_int16 c st = (r, st') -> st' = st.
Proof.
  unfold hex_to_rgb, bind, liftr, ret.
  destruct (py_int16 _) as [r1|e1]; [|congruence].
  destruct (py_int16 _) as [r2|e2]; [|congruence].
  destruct (py_int16 _) as [r3|e3]; congruence.
Qed.

Lemma generate_certificate_output (tp fmt name : string) (text_x text_y : Z)
    (font_name : string) (font_size : Z) (color output_png output_pdf : string)
    (st st' : state) (r : string * string) :
  generate_certificate font_parses fetch_ok fetch_leaves_file image_open convert_from_path
    textbbox py_int16 writable tp fmt name text_x text_y font_name font_size color
    output_png output_pdf st = (Ok r, st') ->
  exists cert f rgb b0 b1 b2 b3 st1,
    load_template image_open convert_from_path tp fmt 300 st = (Ok cert, st) /\
    textbbox f name = Ok (b0, b1, b2, b3) /\
    r = (output_png, output_pdf) /\
    st_out st' =
      (output_pdf, PdfFile (im_width cert) (im_height cert) output_png CERTIFICATE_TITLE)
      :: (output_png, PngFile (draw_text cert ((im_width cert - (b2 - b0)) / 2)
                                 (text_y - (b3 - b1) / 2) name rgb))
      :: st_out st1.
Proof.
  unfold generate_certificate, bind at 1.
  destruct (load_template _ _ tp fmt 300 st) as [[cert|e] s1] eqn:Hl; [|congruence].
  pose proof (load_template_pure _ _ _ _ _ _ Hl) as ->.
  unfold bind at 1.
  destruct (get_font _ _ _ font_name font_size st) as [[f|e] s2] eqn:Hf; [|congruence].
  unfold bind at 1.
  destruct (hex_to_rgb py_int16 color s2) as [[rgb|e] s3] eqn:Hc; [|congruence].
  pose proof (hex_to_rgb_pure _ _ _ _ Hc) as ->.
  unfold bind at 1, liftr.
  destruct (textbbox f name) as [[[[b0 b1] b2] b3]|e] eqn:Hb; [|congruence].
  unfold save_png, save_pdf, read_file, write_file, modify, ret, raise, bind.
  destruct (writable output_png); [|congruence].
  unfold set_out; cbn [st_out lookup_file]; rewrite String.eqb_refl; cbn.
  destruct (writable output_pdf); [|congruence].
  intros H. injection H as <- <-.
  exists cert, f, rgb, b0, b1, b2, b3, s2. repeat split; auto.
Qed.

Lemma generate_preview_output (tp fmt text : string) (x y : Z)
    (font_name : string) (font_size : Z) (color session_id : string)
    (st st' : state) (u : string) :
  generate_preview font_parses fetch_ok fetch_leaves_file image_open convert_from_path
    textbbox py_int16 writable tp fmt text x y font_name font_size color session_id st
    = (Ok u, st') ->
  exists img f rgb b0 b1 b2 b3 st1,
    load_template image_open convert_from_path tp fmt 150 st = (Ok img, st) /\
    textbbox f text = Ok (b0, b1, b2, b3) /\
    st_out st' =
      (STATIC_DIR +++ "/" +++ session_id +++ "_text_preview.png",
       PngFile (draw_text img ((im_width img - (b2 - b0)) / 2) y text rgb))
      :: st_out st1.
Proof.
  unfold generate_preview, bind at 1.
  destruct (load_template _ _ tp fmt 150 st) as [[img|e] s1] eqn:Hl; [|congruence].
  pose proof (load_template_pure _ _ _ _ _ _ Hl) as ->.
  unfold bind at 1.
  destruct (get_font _ _ _ font_name font_size st) as [[f|e] s2] eqn:Hf; [|congruence].
  unfold bind at 1.
  destruct (hex_to_rgb py_int16 color s2) as [[rgb|e] s3] eqn:Hc; [|congruence].
  pose proof (hex_to_rgb_pure _ _ _ _ Hc) as ->.
  unfold bind at 1, liftr.
  destruct (textbbox f text) as [[[[b0 b1] b2] b3]|e] eqn:Hb; [|congruence].
  unfold save_png, write_file, modify, ret, raise, utcnow, bind.
  destruct (writable _); [|congruence].
  intros H. injection H as _ <-.
  exists img, f, rgb, b0, b1, b2, b3, s2. repeat split; auto.
Qed.

(** C5: both the final compositor and the preview renderer draw the name at
    x = (W - w) / 2, where W is the width of the loaded template, w is the
    width [bbox[2] - bbox[0]] of the measured text, and [/] is [Z.div], the
    floor division of Python's [//], for even and odd [W - w] alike. *)
Theorem centered_x_final_and_preview (tp fmt name : string) (text_x text_y : Z)
    (font_name : string) (font_size : Z) (color output_png output_pdf session_id : string)
    (st st' st2 st2' : state) (r : string * string) (u : string) :
  (generate_certificate font_parses fetch_ok fetch_leaves_file image_open convert_from_path
     textbbox py_int16 writable tp fmt name text_x text_y font_name font_size color
     output_png output_pdf st = (Ok r, st') ->
   exists cert f b0 b1 b2 b3 y rgb pdf rest,
     load_template image_open convert_from_path tp fmt 300 st = (Ok cert, st) /\
     textbbox f name = Ok (b0, b1, b2, b3) /\
     st_out st' =
       (output_pdf, pdf)
       :: (output_png, PngFile (mkImage (im_width cert) (im_height cert)
              (im_texts cert ++ [((im_width cert - (b2 - b0)) / 2, y, name, rgb)])))
       :: rest) /\
  (generate_preview font_parses fetch_ok fetch_leaves_file image_open convert_from_path
     textbbox py_int16 writable tp fmt name text_x text_y font_name font_size color
     session_id st2 = (Ok u, st2') ->
   exists img f b0 b1 b2 b3 y rgb rest,
     load_template image_open convert_from_path tp fmt 150 st2 = (Ok img, st2) /\
     textbbox f name = Ok (b0, b1, b2, b3) /\
     st_out st2' =
       (STATIC_DIR +++ "/" +++ session_id +++ "_text_preview.png",
        PngFile (mkImage (im_width img) (im_height img)
              (im_texts img ++ [((im_width img - (b2 - b0)) / 2, y, name, rgb)])))
       :: rest).
Proof.
  split.
  - intros H.
    destruct (generate_certificate_output tp fmt name text_x text_y font_name font_size color
              output_png output_pdf st st' r H)
      as (cert & f & rgb & b0 & b1 & b2 & b3 & st1 & Hl & Hb & _ & Ho).
    exists cert, f, b0, b1, b2, b3, (text_y - (b3 - b1) / 2), rgb.
    eexists _, _. split; [exact Hl|]. split; [exact Hb|]. exact Ho.
  - intros H.
    destruct (generate_preview_output tp fmt name text_x text_y font_name font_size color
              session_id st2 st2' u H)
      as (img & f & rgb & b0 & b1 & b2 & b3 & st1 & Hl & Hb & Ho).
    exists img, f, b0, b1, b2, b3, text_y, rgb.
    eexists. split; [exact Hl|]. split; [exact Hb|]. exact Ho.
Qed.

(** C6: for the caller's Y and the measured text height
    h = [bbox[3] - bbox[1]], the final compositor draws at y = Y - h / 2
    (floor division: Y is the vertical centre of the text) while the preview
    renderer draws at y = Y exactly (Y is the top of the text). *)
Theorem vertical_placement_final_vs_preview (tp fmt name : string) (text_x text_y : Z)
    (font_name : string) (font_size : Z) (color output_png output_pdf session_id : string)
    (st st' st2 st2' : state) (r : string * string) (u : string) :
  (generate_certificate font_parses fetch_ok fetch_leaves_file image_open convert_from_path
     textbbox py_int16 writable tp fmt name text_x text_y font_name font_size color
     output_png output_pdf st = (Ok r, st') ->
   exists cert f b0 b1 b2 b3 x rgb pdf rest,
     load_template image_open convert_from_path tp fmt 300 st = (Ok cert, st) /\
     textbbox f name = Ok (b0, b1, b2, b3) /\
     st_out st' =
       (output_pdf, pdf)
       :: (output_png, PngFile (mkImage (im_width cert) (im_height cert)
              (im_texts cert ++ [(x, text_y - (b3 - b1) / 2, name, rgb)])))
       :: rest) /\
  (generate_preview font_parses fetch_ok fetch_leaves_file image_open convert_from_path
     textbbox py_int16 writable tp fmt name text_x text_y font_name font_size color
     session_id st2 = (Ok u, st2') ->
   exists img x rgb rest,
     st_out st2' =
       (STATIC_DIR +++ "/" +++ session_id +++ "_text_preview.png",
        PngFile (mkImage (im_width img) (im_height img)
              (im_texts img ++ [(x, text_y, name, rgb)])))
       :: rest).
Proof.
  split.
  - intros H.
    destruct (generate_certificate_output tp fmt name text_x text_y font_name font_size color
              output_png output_pdf st st' r H)
      as (cert & f & rgb & b0 & b1 & b2 & b3 & st1 & Hl & Hb & _ & Ho).
    exists cert, f, b0, b1, b2, b3, ((im_width cert - (b2 - b0)) / 2), rgb.
    eexists _, _. split; [exact Hl|]. split; [exact Hb|]. exact Ho.
  - intros H.
    destruct (generate_preview_output tp fmt name text_x text_y font_name font_size color
              session_id st2 st2' u H)
      as (img & f & rgb & b0 & b1 & b2 & b3 & st1 & Hl & Hb & Ho).
    exists img, ((im_width img - (b2 - b0)) / 2), rgb. eexists. exact Ho.
Qed.

(** C8 (as amended): [generate_certificate] catches nothing. An error raised
    while loading the template (missing or corrupt image, unreadable PDF)
    reaches the caller unchanged and nothing is written; so does an error of
    the colour parse, or of the text measurement in the font [get_font]
    resolved. The compositor makes no check of its own on the name: whenever
    the template loads, the colour parses, the measuring library returns a
    box for the name in that font (Pillow does for the empty name) and the
    outputs are writable, it completes and returns the two paths. *)
Theorem generate_certificate_errors_and_names (tp fmt name : string) (text_x text_y : Z)
    (font_name : string) (font_size : Z) (color output_png output_pdf : string)
    (st : state) :
  (forall e, load_template image_open convert_from_path tp fmt 300 st = (Raise e, st) ->
     generate_certificate font_parses fetch_ok fetch_leaves_file image_open convert_from_path
       textbbox py_int16 writable tp fmt name text_x text_y font_name font_size color
       output_png output_pdf st = (Raise e, st)) /\
  (forall cert f st1 st2 e,
     load_template image_open convert_from_path tp fmt 300 st = (Ok cert, st) ->
     get_font font_parses fetch_ok fetch_leaves_file font_name font_size st = (Ok f, st1) ->
     hex_to_rgb py_int16 color st1 = (Raise e, st2) ->
     generate_certificate font_parses fetch_ok fetch_leaves_file image_open convert_from_path
       textbbox py_int16 writable tp fmt name text_x text_y font_name font_size color
       output_png output_pdf st = (Raise e, st2)) /\
  (forall cert f st1 rgb st2 e,
     load_template image_open convert_from_path tp fmt 300 st = (Ok cert, st) ->
     get_font font_parses fetch_ok fetch_leaves_file font_name font_size st = (Ok f, st1) ->
     hex_to_rgb py_int16 color st1 = (Ok rgb, st2) ->
     textbbox f name = Raise e ->
     generate_certificate font_parses fetch_ok fetch_leaves_file image_open convert_from_path
       textbbox py_int16 writable tp fmt name text_x text_y font_name font_size color
       output_png output_pdf st = (Raise e, st2)) /\
  (forall cert f st1 rgb st2 bb,
     load_template image_open convert_from_path tp fmt 300 st = (Ok cert, st) ->
     get_font font_parses fetch_ok fetch_leaves_file font_name font_size st = (Ok f, st1) ->
     hex_to_rgb py_int16 color st1 = (Ok rgb, st2) ->
     textbbox f name = Ok bb ->
     writable output_png = true -> writable output_pdf = true ->
     fst (generate_certificate font_parses fetch_ok fetch_leaves_file image_open
            convert_from_path textbbox py_int16 writable tp fmt name text_x text_y font_name
            font_size color output_png output_pdf st) = Ok (output_png, output_pdf)).
Proof.
  split; [|split; [|split]].
  - intros e Hl. unfold generate_certificate, bind at 1. rewrite Hl. reflexivity.
  - intros cert f st1 st2 e Hl Hf Hc. unfold generate_certificate, bind at 1. rewrite Hl.
    unfold bind at 1. rewrite Hf.
    unfold bind at 1. rewrite Hc. reflexivity.
  - intros cert f st1 rgb st2 e Hl Hf Hc Hb. unfold generate_certificate, bind at 1.
    rewrite Hl. unfold bind at 1. rewrite Hf.
    unfold bind at 1. rewrite Hc.
    unfold bind at 1, liftr. rewrite Hb. reflexivity.
  - intros cert f st1 rgb st2 [[[b0 b1] b2] b3] Hl Hf Hc Hb Hw1 Hw2.
    unfold generate_certificate, bind at 1. rewrite Hl.
    unfold bind at 1. rewrite Hf.
    unfold bind at 1. rewrite Hc.
    unfold bind at 1, liftr. rewrite Hb.
    unfold save_png, save_pdf, read_file, write_file, modify, ret, raise, bind.
    rewrite Hw1. unfold set_out; cbn [st_out lookup_file]. rewrite String.eqb_refl; cbn.
    rewrite Hw2. reflexivity.
Qed.

End CompositorProofs.

(** ** Frame lemmas *)

Section Frame.

Variable I : state -> Prop.

Lemma keeps_bind {A B} (m : M A) (k : A -> M B) :
  keeps I m -> (forall a, keeps I (k a)) -> keeps I (bind m k).
Proof.
  intros Hm Hk s r s' Hs. unfold bind.
  destruct (m s) as [[a|e] s1] eqn:E; intros H.
  - eapply Hk; [eapply Hm; eauto | exact H].
  - injection H as _ <-. eapply Hm; eauto.
Qed.

Lemma keeps_try {A} (m : M A) (h : exn -> M A) :
  keeps I m -> (forall e, keeps I (h e)) -> keeps I (try_except m h).
Proof.
  intros Hm Hh s r s' Hs. unfold try_except.
  destruct (m s) as [[a|e] s1] eqn:E; intros H.
  - injection H as _ <-. eapply Hm; eauto.
  - eapply Hh; [eapply Hm; eauto | exact H].
Qed.

Lemma keeps_ret {A} (a : A) : keeps I (ret a).
Proof. intros s r s' Hs H. injection H as _ <-. exact Hs. Qed.

Lemma keeps_raise {A} (e : exn) : keeps I (@raise A e).
Proof. intros s r s' Hs H. injection H as _ <-. exact Hs. Qed.

Lemma keeps_gets {A} (f : state -> A) : keeps I (gets f).
Proof. intros s r s' Hs H. injection H as _ <-. exact Hs. Qed.

Lemma keeps_liftr {A} (x : res A) : keeps I (liftr x).
Proof. intros s r s' Hs H. injection H as _ <-. exact Hs. Qed.

Lemma keeps_modify (f : state -> state) :
  (forall s, I s -> I (f s)) -> keeps I (modify f).
Proof. intros Hf s r s' Hs H. injection H as _ <-. auto. Qed.

Lemma keeps_state {A} (m : M A) :
  (forall s, I s -> I (snd (m s))) -> keeps I m.
Proof. intros Hf s r s' Hs H. specialize (Hf s Hs). rewrite H in Hf. exact Hf. Qed.

End Frame.

Ltac keeps_tac :=
  repeat match goal with
  | |- keeps _ (bind _ _) => apply keeps_bind; [|intro]
  | |- keeps _ (try_except _ _) => apply keeps_try; [|intro]
  | |- keeps _ (ret _) => apply keeps_ret
  | |- keeps _ (raise _) => apply keeps_raise
  | |- keeps _ (gets _) => apply keeps_gets
  | |- keeps _ (liftr _) => apply keeps_liftr
  | |- keeps _ (modify _) => apply keeps_modify; intros ?s ?Hs
  | |- keeps _ (if ?b then _ else _) => destruct b
  | |- keeps _ (match ?x with _ => _ end) => destruct x
  | |- keeps _ (let _ := _ in _) => cbv zeta
  | H : keeps ?I ?m |- keeps ?I ?m => exact H
  | |- keeps _ (path_exists _) => apply keeps_gets
  | |- keeps _ (truetype _ _ _) => unfold truetype
  | |- keeps _ (print _) => unfold print
  | |- keeps _ load_default => apply keeps_ret
  | |- keeps _ (write_file _ _) => unfold write_file
  | |- keeps _ (read_file _) =>
      apply keeps_state; intros ?s ?Hs; unfold read_file; cbv beta;
      destruct (lookup_file _ _); exact Hs
  | H : render_frame ?I |- ?I (set_log _ _) => apply (proj1 H); assumption
  | H : render_frame ?I |- ?I (set_out _ _) => apply (proj2 H); assumption
  | H : mail_frame ?I |- ?I (set_outbox _ _) => apply H; assumption
  | |- keeps _ utcnow => apply keeps_state; intros ?s ?Hs; cbn [snd utcnow]
  | |- keeps _ (token_urlsafe _) => apply keeps_state; intros ?s ?Hs; cbn [snd token_urlsafe]
  | |- keeps _ (update_participant _ _) => unfold update_participant
  end.

Section RenderFrame.

Variable I : state -> Prop.
Hypothesis HI : render_frame I.
Variable font_parses : string -> Z -> bool.
Variable fetch_ok fetch_leaves_file : string -> bool.
Variable image_open : string -> res image.
Variable convert_from_path : string -> Z -> res (list image).
Variable textbbox : font -> string -> res (Z * Z * Z * Z).
Variable py_int16 : string -> res Z.
Variable writable : string -> bool.

Lemma keeps_try_font_paths (paths : list string) (z : Z) (k : M font) :
  keeps I k -> keeps I (try_font_paths font_parses paths z k).
Proof.
  intros Hk. induction paths as [|p ps IH]; simpl; [exact Hk|].
  keeps_tac.
Qed.

Lemma keeps_get_font (font_name : string) (size : Z) :
  keeps I (get_font font_parses fetch_ok fetch_leaves_file font_name size).
Proof.
  assert (Hfb : keeps I (try_font_paths font_parses SYSTEM_FONTS size
                           (print (warning_line font_name) ;;; load_default))).
  { apply keeps_try_font_paths. unfold print, load_default. keeps_tac. }
  unfold get_font, download_google_font, urlretrieve, write_file, path_exists,
    truetype, print.
  cbv zeta.
  destruct (assoc font_name SYSTEM_FONT_PATHS); [apply keeps_try_font_paths|];
    keeps_tac; exact Hfb.
Qed.

Lemma keeps_generate_certificate (tp fmt name : string) (x y : Z) (font_name : string)
    (font_size : Z) (color output_png output_pdf : string) :
  keeps I (generate_certificate font_parses fetch_ok fetch_leaves_file image_open
             convert_from_path textbbox py_int16 writable tp fmt name x y font_name
             font_size color output_png output_pdf).
Proof.
  unfold generate_certificate, load_template, hex_to_rgb, save_png, save_pdf, write_file.
  keeps_tac. apply keeps_get_font.
Qed.

End RenderFrame.

(** ** Inversion of the monad's combinators *)

Lemma bind_inv {A B} (m : M A) (k : A -> M B) (s : state) (r : res B) (s'' : state) :
  bind m k s = (r, s'') ->
  (exists e, m s = (Raise e, s'') /\ r = Raise e) \/
  (exists a s', m s = (Ok a, s') /\ k a s' = (r, s'')).
Proof.
  unfold bind. destruct (m s) as [[a|e] s1]; intros H.
  - right. eauto.
  - left. injection H as <- <-. eauto.
Qed.

Lemma try_inv {A} (m : M A) (h : exn -> M A) (s : state) (r : res A) (s'' : state) :
  try_except m h s = (r, s'') ->
  (exists a, m s = (Ok a, s'') /\ r = Ok a) \/
  (exists e s', m s = (Raise e, s') /\ h e s' = (r, s'')).
Proof.
  unfold try_except. destruct (m s) as [[a|e] s1]; intros H.
  - left. injection H as <- <-. eauto.
  - right. eauto.
Qed.

Lemma outbox_render_frame (c : list mail) : render_frame (fun s => st_outbox s = c).
Proof. split; intros; assumption. Qed.

(** ** The mail the certificate sender hands to SMTP *)

Section MailProofs.

Variable smtp_error : string -> string -> mail -> option string.

Lemma send_certificate_outbox (name email pdf sender pw subject body event_name : string)
    (s s' : state) (r : res unit) :
  send_certificate smtp_error name email pdf sender pw subject body event_name s = (r, s') ->
  (st_outbox s' = st_outbox s /\ exists e, r = Raise e) \/
  (r = Ok tt /\
   exists data,
     st_outbox s' = st_outbox s ++
       [mkMail (fill_certificate_template subject name event_name) sender email
          (fill_certificate_template body name event_name)
          (Some (attachment_filename name, data))]).
Proof.
  unfold send_certificate, bind, read_file.
  destruct (lookup_file pdf (st_out s)) as [data|].
  - unfold smtp_send, raise, modify.
    destruct (smtp_error _ _ _) as [err|]; intros H; injection H as <- <-.
    + left. eauto.
    + right. split; [reflexivity|]. exists data. reflexivity.
  - intros H. injection H as <- <-. left. eauto.
Qed.

Lemma keeps_send_certificate (I : state -> Prop) (HM : mail_frame I)
    (name email pdf sender pw subject body event_name : string) :
  keeps I (send_certificate smtp_error name email pdf sender pw subject body event_name).
Proof. unfold send_certificate, smtp_send. keeps_tac. Qed.

Lemma keeps_send_email (I : state -> Prop) (HM : mail_frame I)
    (to sender pw subject body : string) :
  keeps I (send_email smtp_error to sender pw subject body).
Proof. unfold send_email, smtp_send. keeps_tac. Qed.

(** [str.replace] with a one-character pattern and replacement maps that
    character and keeps every other one. *)
Lemma py_replace_char (s : string) (c d : ascii) :
  py_replace s (String c EmptyString) (String d EmptyString) =
  string_map (fun x => if Ascii.eqb x c then d else x) s.
Proof.
  unfold py_replace. induction s as [|x s IH]; [reflexivity|].
  cbn [replace_from String.prefix String.length]. rewrite Nat.sub_diag, IH. cbn.
  replace (String.prefix EmptyString s) with true by (destruct s; reflexivity).
  destruct (ascii_dec c x) as [->|Hne].
  - rewrite Ascii.eqb_refl. reflexivity.
  - assert (E : Ascii.eqb x c = false) by (apply Ascii.eqb_neq; congruence).
    rewrite E. reflexivity.
Qed.

(** C9 (as amended): the attachment of the certificate email is named
    [Certificate_<name>.pdf] where only the spaces of the name become
    underscores; every other character, hyphens and slashes included, is
    kept as it is. *)
Theorem certificate_attachment_filename (name email pdf sender pw subject body
    event_name : string) (s s' : state) :
  send_certificate smtp_error name email pdf sender pw subject body event_name s =
    (Ok tt, s') ->
  exists data,
    st_outbox s' = st_outbox s ++
      [mkMail (fill_certificate_template subject name event_name) sender email
         (fill_certificate_template body name event_name)
         (Some ("Certificate_" +++ space_to_underscore name +++ ".pdf", data))].
Proof.
  intros H.
  destruct (send_certificate_outbox _ _ _ _ _ _ _ _ _ _ _ H)
    as [[_ [e He]] | [_ [data Hd]]]; [discriminate|].
  exists data. rewrite Hd. unfold attachment_filename.
  rewrite (py_replace_char name " " "_"). reflexivity.
Qed.

End MailProofs.

(** ** The batch dispatch engine *)

Section DispatchProofs.

Variable font_parses : string -> Z -> bool.
Variable fetch_ok fetch_leaves_file : string -> bool.
Variable image_open : string -> res image.
Variable convert_from_path : string -> Z -> res (list image).
Variable textbbox : font -> string -> res (Z * Z * Z * Z).
Variable py_int16 : string -> res Z.
Variable writable : string -> bool.
Variable smtp_error : string -> string -> mail -> option string.
Variable token_of : nat -> string.
Variable decrypt_app_password : string -> res string.

Local Abbreviation render_and_send_ :=
  (render_and_send font_parses fetch_ok fetch_leaves_file image_open convert_from_path
     textbbox py_int16 writable smtp_error).
Local Abbreviation process_participant_ :=
  (process_participant font_parses fetch_ok fetch_leaves_file image_open convert_from_path
     textbbox py_int16 writable smtp_error token_of).
Local Abbreviation process_all_ :=
  (process_all font_parses fetch_ok fetch_leaves_file image_open convert_from_path
     textbbox py_int16 writable smtp_error token_of).
Local Abbreviation participant_body_ :=
  (participant_body font_parses fetch_ok fetch_leaves_file image_open convert_from_path
     textbbox py_int16 writable smtp_error token_of).
Local Abbreviation turn_states_ :=
  (turn_states font_parses fetch_ok fetch_leaves_file image_open convert_from_path
     textbbox py_int16 writable smtp_error token_of).
Local Abbreviation turn_outcome_ :=
  (turn_outcome font_parses fetch_ok fetch_leaves_file image_open convert_from_path
     textbbox py_int16 writable smtp_error token_of).
Local Abbreviation send_certificates_ :=
  (send_certificates font_parses fetch_ok fetch_leaves_file image_open convert_from_path
     textbbox py_int16 writable smtp_error token_of decrypt_app_password).
Local Abbreviation submit_feedback_ :=
  (submit_feedback font_parses fetch_ok fetch_leaves_file image_open convert_from_path
     textbbox py_int16 writable smtp_error decrypt_app_password).

(** Rendering and mailing one certificate adds at most the certificate mail
    to the outbox, and adds it exactly when it returns normally. *)
Lemma render_and_send_outbox (ev : event) (event_id name email sender pw : string)
    (s s' : state) (r : res unit) :
  render_and_send_ ev event_id name email sender pw s = (r, s') ->
  (st_outbox s' = st_outbox s /\ exists e, r = Raise e) \/
  (r = Ok tt /\
   exists data,
     st_outbox s' = st_outbox s ++
       [mkMail (fill_certificate_template (ev_email_subject ev) name
                  send_certificate_default_event_name) sender email
          (fill_certificate_template (ev_email_body ev) name
             send_certificate_default_event_name)
          (Some (attachment_filename name, data))]).
Proof.
  unfold render_and_send. cbv zeta. intros H.
  apply bind_inv in H as [[e [Ht ->]] | [tp [s1 [Ht H]]]].
  { unfold template_path_or_raise in Ht. destruct (ev_template_path ev);
      injection Ht as _ <-; left; eauto. }
  assert (E1 : s1 = s).
  { unfold template_path_or_raise in Ht. destruct (ev_template_path ev);
      injection Ht as _ <-; reflexivity. }
  subst s1.
  apply bind_inv in H as [[e [Hg ->]] | [pp [s2 [Hg H]]]].
  - left. split; [|eauto].
    eapply (keeps_generate_certificate _ (outbox_render_frame (st_outbox s)));
      [reflexivity | exact Hg].
  - assert (E2 : st_outbox s2 = st_outbox s).
    { eapply (keeps_generate_certificate _ (outbox_render_frame (st_outbox s)));
        [reflexivity | exact Hg]. }
    rewrite <- E2.
    exact (send_certificate_outbox _ _ _ _ _ _ _ _ _ _ _ _ H).
Qed.

Lemma outbox_kept {A} (m : M A) (s s' : state) (r : res A) :
  keeps (fun x => st_outbox x = st_outbox s) m -> m s = (r, s') ->
  st_outbox s' = st_outbox s.
Proof. intros K H. exact (K s r s' eq_refl H). Qed.

Ltac outbox_tac := keeps_tac; cbn [st_outbox set_participants set_feedback tick tick_rng];
  assumption.

(** C10: in the direct path of the dispatch loop (feedback disabled), the
    only mail sent for a participant is the certificate mail, whose subject
    and body are the event's templates with [{name}] replaced by the
    participant's name and then [{event_name}] replaced by the empty string. *)
Theorem direct_dispatch_blank_event_name (ev : event) (event_id sender pw : string)
    (p : participant) (results : send_results) (s s' : state) (r : res send_results) :
  ev_feedback_enabled ev = false ->
  process_participant_ ev event_id sender pw p results s = (r, s') ->
  st_outbox s' = st_outbox s \/
  exists data,
    st_outbox s' = st_outbox s ++
      [mkMail (py_replace (py_replace (ev_email_subject ev) "{name}" (p_name p))
                 "{event_name}" "")
              sender (p_email p)
              (py_replace (py_replace (ev_email_body ev) "{name}" (p_name p))
                 "{event_name}" "")
              (Some (attachment_filename (p_name p), data))].
Proof.
  intros Hfe H. unfold process_participant, participant_body in H. cbv zeta in H. rewrite Hfe in H.
  assert (Hbody : forall r1 s1,
    (render_and_send_ ev event_id (p_name p) (p_email p) sender pw ;;;
     t <- utcnow ;;
     update_participant (p_id p) (with_certificate_sent t None) ;;;
     ret (add_success (bump_total results)
            (mkDetail (p_name p) (p_email p) CertificateSent None))) s = (r1, s1) ->
    st_outbox s1 = st_outbox s \/
    exists data,
      st_outbox s1 = st_outbox s ++
        [mkMail (py_replace (py_replace (ev_email_subject ev) "{name}" (p_name p))
                   "{event_name}" "")
                sender (p_email p)
                (py_replace (py_replace (ev_email_body ev) "{name}" (p_name p))
                   "{event_name}" "")
                (Some (attachment_filename (p_name p), data))]).
  { intros r1 s1 Hb.
    apply bind_inv in Hb as [[e [Hr _]] | [u [s2 [Hr Hb]]]].
    - apply render_and_send_outbox in Hr as [[E _] | [Hok _]]; [left; exact E|discriminate].
    - apply outbox_kept in Hb; [|outbox_tac]. rewrite Hb.
      apply render_and_send_outbox in Hr as [[E _] | [_ [data E]]]; [left; exact E|].
      right. exists data. exact E. }
  apply try_inv in H as [[a [Hb _]] | [e [s1 [Hb Hh]]]].
  - exact (Hbody _ _ Hb).
  - apply outbox_kept in Hh; [|outbox_tac]. rewrite Hh. exact (Hbody _ _ Hb).
Qed.

(** ** Token redemption *)

Lemma bind_gets {A B} (f : state -> A) (k : A -> M B) (s : state) :
  bind (gets f) k s = k (f s) s.
Proof. reflexivity. Qed.

Lemma bind_utcnow {B} (k : nat -> M B) (s : state) :
  bind utcnow k s = k (st_clock s) (tick s).
Proof. reflexivity. Qed.

Lemma bind_liftr {A B} (x : res A) (k : A -> M B) (s : state) :
  bind (liftr x) k s = match x with Ok a => k a s | Raise e => (Raise e, s) end.
Proof. destruct x; reflexivity. Qed.

Lemma bind_modify {B} (f : state -> state) (k : unit -> M B) (s : state) :
  bind (modify f) k s = k tt (f s).
Proof. reflexivity. Qed.

Lemma find_first_some_prop {A} (p : A -> bool) (l : list A) (x : A) :
  find_first p l = Some x -> p x = true.
Proof.
  induction l as [|y l IH]; cbn; [discriminate|].
  destruct (p y) eqn:E; [intros H; injection H as <-; exact E | exact IH].
Qed.

Lemma find_first_update_first {A} (p : A -> bool) (f : A -> A) (l : list A) (x : A) :
  find_first p l = Some x -> p (f x) = true ->
  find_first p (update_first p f l) = Some (f x).
Proof.
  intros H Hf. induction l as [|y l IH]; [discriminate|].
  cbn in *. destruct (p y) eqn:E.
  - injection H as ->. cbn. rewrite Hf. reflexivity.
  - cbn. rewrite E. auto.
Qed.

Lemma keeps_render_and_send (I : state -> Prop) (HI : render_frame I) (HM : mail_frame I)
    (ev : event) (event_id name email sender pw : string) :
  keeps I (render_and_send_ ev event_id name email sender pw).
Proof.
  unfold render_and_send, template_path_or_raise. keeps_tac.
  - apply keeps_generate_certificate. exact HI.
  - apply keeps_send_certificate. exact HM.
Qed.

Lemma stores_render_frame fs ps : render_frame (stores_frame fs ps).
Proof. split; intros; assumption. Qed.

Lemma stores_mail_frame fs ps : mail_frame (stores_frame fs ps).
Proof. intros s o H. exact H. Qed.

Section Redemption.

Variables (token : string) (answers : list answer) (s : state) (f : feedback)
  (p : participant) (ev : event) (settings : email_settings).
Hypothesis Hf : feedback_by_token token (st_feedback s) = Some f.
Hypothesis Hp : participant_by_id (fb_participant_id f) (st_participants s) = Some p.
Hypothesis He : find_first (fun e => String.eqb (ev_id e) (fb_event_id f)) (st_events s) = Some ev.
Hypothesis Hs : option_bind (find_first (fun u => String.eqb (u_id u) (ev_user_id ev))
                               (st_users s)) u_email_settings = Some settings.

(** A redemption of an unsubmitted token that passes the lookups stores the
    answers with the time stamp, records the feedback on the participant,
    and ends with the certificate sent or with the participant failed. *)
Lemma submit_feedback_run (r : res string) (s' : state) :
  fb_submitted_at f = None ->
  submit_feedback_ token answers s = (r, s') ->
  feedback_by_token token (st_feedback s') = Some (with_submission answers (st_clock s) f) /\
  exists p',
    participant_by_id (fb_participant_id f) (st_participants s') = Some p' /\
    p_feedback_submitted_at p' = Some (S (st_clock s)) /\
    ((p_status p' = CertificateSent /\
      r = Ok "Thank you for your feedback! Your certificate has been sent to your email.") \/
     (exists msg, p_status p' = Failed /\ p_error_message p' = Some msg /\
        r = Raise (HTTPException 500 ("Failed to send certificate: " +++ msg)))).
Proof.
  intros Hu H. unfold submit_feedback in H.
  rewrite bind_gets in H. cbv beta in H. rewrite Hf in H. cbv iota in H. rewrite Hu in H.
  cbv iota zeta in H. rewrite bind_gets in H. cbv beta in H. rewrite Hp in H.
  cbv iota in H. rewrite bind_gets in H. cbv beta in H. rewrite He in H.
  cbv iota in H. rewrite bind_gets in H. cbv beta in H. rewrite Hs in H.
  cbv iota in H. rewrite bind_utcnow, bind_modify, bind_utcnow in H.
  unfold update_participant at 1 in H. rewrite bind_modify in H. cbv beta in H.
  cbn [st_clock st_feedback st_participants set_feedback set_participants tick] in H.
  set (pid := fb_participant_id f) in *.
  set (fs2 := update_first (fun f0 : feedback => fb_token f0 =? token)
                (with_submission answers (st_clock s)) (st_feedback s)) in H.
  set (ps2 := update_first (fun p0 : participant => p_id p0 =? pid)
                (with_feedback_received (S (st_clock s))) (st_participants s)) in H.
  set (s2 := set_participants ps2 _) in H.
  assert (F2 : feedback_by_token token fs2 = Some (with_submission answers (st_clock s) f)).
  { apply find_first_update_first; [exact Hf|].
    exact (find_first_some_prop _ _ _ Hf). }
  assert (P2 : participant_by_id pid ps2 = Some (with_feedback_received (S (st_clock s)) p)).
  { apply find_first_update_first; [exact Hp|].
    exact (find_first_some_prop _ _ _ Hp). }
  assert (Hst2 : stores_frame fs2 ps2 s2) by (split; reflexivity).
  clearbody s2.
  (* the certificate step, from [s2] *)
  assert (Hstep : forall rb s1,
    (app_password <- liftr (decrypt_app_password (es_app_password_encrypted settings)) ;;
     render_and_send_ ev (fb_event_id f) (p_name p) (p_email p) (es_email settings)
       app_password ;;;
     t3 <- utcnow ;;
     update_participant pid
       (fun p : participant => with_certificate_sent t3 (p_error_message p) p) ;;;
     ret "Thank you for your feedback! Your certificate has been sent to your email.")
      s2 = (rb, s1) ->
    (st_feedback s1 = fs2 /\ exists e, rb = Raise e /\ st_participants s1 = ps2) \/
    (st_feedback s1 = fs2 /\
     rb = Ok "Thank you for your feedback! Your certificate has been sent to your email." /\
     exists t3, st_participants s1 =
       update_first (fun p0 : participant => p_id p0 =? pid)
         (fun p : participant => with_certificate_sent t3 (p_error_message p) p) ps2)).
  { intros rb s1 B.
    apply bind_inv in B as [[e [B ->]] | [pw [s3 [B1 B]]]].
    - unfold liftr in B. injection B as _ <-. destruct Hst2 as [-> ->]. left. eauto.
    - unfold liftr in B1. injection B1 as _ <-.
      apply bind_inv in B as [[e [B ->]] | [u [s4 [B2 B]]]].
      + pose proof (keeps_render_and_send _ (stores_render_frame fs2 ps2)
                      (stores_mail_frame fs2 ps2) _ _ _ _ _ _ _ _ _ Hst2 B) as [-> ->].
        left. eauto.
      + pose proof (keeps_render_and_send _ (stores_render_frame fs2 ps2)
                      (stores_mail_frame fs2 ps2) _ _ _ _ _ _ _ _ _ Hst2 B2) as [F4 P4].
        rewrite bind_utcnow in B. unfold update_participant in B.
        rewrite bind_modify in B. unfold ret in B. injection B as <- <-.
        right. cbn [st_feedback st_participants set_participants tick].
        rewrite F4, P4. split; [reflexivity|]. split; [reflexivity|]. eauto. }
  apply try_inv in H as [[a [B ->]] | [e [s1 [B Hh]]]].
  - apply Hstep in B as [[_ [e [Hr _]]] | [F1 [Ha [t3 P1]]]]; [discriminate|].
    injection Ha as ->. rewrite F1. split; [exact F2|].
    eexists. rewrite P1. split.
    + apply find_first_update_first; [exact P2|]. exact (find_first_some_prop _ _ _ P2).
    + split; [reflexivity|]. left. split; reflexivity.
  - apply Hstep in B as [[F1 [e' [He' P1]]] | [_ [Hr _]]]; [|discriminate].
    unfold update_participant in Hh. rewrite bind_modify in Hh. unfold raise in Hh.
    injection Hh as <- <-. cbn [st_feedback st_participants set_participants].
    rewrite F1, P1. split; [exact F2|].
    eexists. split.
    + apply find_first_update_first; [exact P2|]. exact (find_first_some_prop _ _ _ P2).
    + split; [reflexivity|]. right. exists (exn_str e). split; [reflexivity|].
      split; reflexivity.
Qed.

End Redemption.

Lemma submit_feedback_not_found (token : string) (answers : list answer) (s : state) :
  feedback_by_token token (st_feedback s) = None ->
  submit_feedback_ token answers s =
    (Raise (HTTPException 404 "Feedback link not found or expired"), s).
Proof.
  intros H. unfold submit_feedback. rewrite bind_gets. cbv beta. rewrite H. reflexivity.
Qed.

Lemma submit_feedback_already (token : string) (answers : list answer) (s : state)
    (f : feedback) (t : nat) :
  feedback_by_token token (st_feedback s) = Some f -> fb_submitted_at f = Some t ->
  submit_feedback_ token answers s =
    (Raise (HTTPException 410 "Feedback already submitted"), s).
Proof.
  intros H Hu. unfold submit_feedback. rewrite bind_gets. cbv beta. rewrite H.
  cbv iota. rewrite Hu. reflexivity.
Qed.

Lemma submit_feedback_lookup_fails (token : string) (answers : list answer) (s : state)
    (f : feedback) :
  feedback_by_token token (st_feedback s) = Some f -> fb_submitted_at f = None ->
  (participant_by_id (fb_participant_id f) (st_participants s) = None \/
   find_first (fun e => String.eqb (ev_id e) (fb_event_id f)) (st_events s) = None \/
   (exists ev,
      find_first (fun e => String.eqb (ev_id e) (fb_event_id f)) (st_events s) = Some ev /\
      option_bind (find_first (fun u => String.eqb (u_id u) (ev_user_id ev)) (st_users s))
        u_email_settings = None)) ->
  exists e, submit_feedback_ token answers s = (Raise e, s).
Proof.
  intros H Hu Hl. unfold submit_feedback. rewrite bind_gets. cbv beta. rewrite H.
  cbv iota. rewrite Hu. cbv iota zeta. rewrite bind_gets. cbv beta.
  destruct (participant_by_id (fb_participant_id f) (st_participants s)) as [p|] eqn:Hp;
    [|eexists; reflexivity].
  cbv iota. rewrite bind_gets. cbv beta.
  destruct (find_first (fun e => String.eqb (ev_id e) (fb_event_id f)) (st_events s))
    as [ev|] eqn:He; [|eexists; reflexivity].
  cbv iota. rewrite bind_gets. cbv beta.
  destruct Hl as [Hl | [Hl | [ev' [Hev Hl]]]]; try discriminate.
  injection Hev as <-. rewrite Hl. eexists. reflexivity.
Qed.



(** ** One iteration of the dispatch loop *)

Lemma participants_render_frame ps : render_frame (participants_are ps).
Proof. split; intros; assumption. Qed.

Lemma participants_mail_frame ps : mail_frame (participants_are ps).
Proof. intros s o H. exact H. Qed.

Lemma bind_token_urlsafe {B} (k : string -> M B) (s : state) :
  bind (token_urlsafe token_of) k s = k (token_of (st_rng s)) (tick_rng s).
Proof. reflexivity. Qed.

Lemma update_first_id {A} (P : A -> bool) (l : list A) :
  update_first P (fun x => x) l = l.
Proof. induction l as [|x l IH]; cbn; [reflexivity|]. destruct (P x); congruence. Qed.

Lemma update_first_compose {A} (P : A -> bool) (g1 g2 : A -> A) (l : list A) :
  (forall x, P (g1 x) = P x) ->
  update_first P g2 (update_first P g1 l) = update_first P (fun x => g2 (g1 x)) l.
Proof.
  intros Hg. induction l as [|x l IH]; cbn; [reflexivity|].
  destruct (P x) eqn:E; cbn.
  - rewrite Hg, E. reflexivity.
  - rewrite E, IH. reflexivity.
Qed.

Lemma id_preserving_eqb (g : participant -> participant) (pid : string) :
  id_preserving g -> forall x, (p_id (g x) =? pid) = (p_id x =? pid).
Proof. intros Hg x. rewrite Hg. reflexivity. Qed.

(** Each iteration returns normally, adds one detail for its participant and
    changes the participant collection only by one update of the document
    with the participant's id, which leaves the detail's status and error
    on it. *)
Lemma process_participant_spec (ev : event) (event_id sender pw : string)
    (p : participant) (acc : send_results) (s s' : state) (r : res send_results) :
  process_participant_ ev event_id sender pw p acc s = (r, s') ->
  exists d g,
    r = Ok (record_detail (bump_total acc) d) /\
    d_name d = p_name p /\ d_email d = p_email p /\
    ((d_status d = FeedbackSent /\ d_error d = None) \/
     (d_status d = CertificateSent /\ d_error d = None) \/
     (d_status d = Failed /\ exists msg, d_error d = Some msg)) /\
    id_preserving g /\
    (forall x, p_status (g x) = d_status d /\ p_error_message (g x) = d_error d) /\
    st_participants s' = update_first (fun q => p_id q =? p_id p) g (st_participants s).
Proof.
  intros H. unfold process_participant, participant_body in H. cbv zeta in H.
  (* the participant collection after the body, whatever its outcome *)
  assert (Hbody : forall rb s1,
    (if ev_feedback_enabled ev then
       token <- token_urlsafe token_of ;;
       modify (fun s => set_feedback (issue_feedback (p_id p) event_id token
                                        (st_feedback s)) s) ;;;
       update_participant (p_id p) (with_feedback_sent token) ;;;
       send_email smtp_error (p_email p) sender pw
         (py_replace (py_replace (ev_feedback_email_subject ev) "{name}" (p_name p))
            "{event_name}" (ev_name ev))
         (py_replace (py_replace (py_replace (ev_feedback_email_body ev) "{name}" (p_name p))
            "{event_name}" (ev_name ev)) "{feedback_url}"
            (FRONTEND_URL +++ "/feedback/" +++ token)) ;;;
       ret (add_success (bump_total acc) (mkDetail (p_name p) (p_email p) FeedbackSent None))
     else
       render_and_send_ ev event_id (p_name p) (p_email p) sender pw ;;;
       t <- utcnow ;;
       update_participant (p_id p) (with_certificate_sent t None) ;;;
       ret (add_success (bump_total acc) (mkDetail (p_name p) (p_email p) CertificateSent None)))
    s = (rb, s1) ->
    exists g0, id_preserving g0 /\
      st_participants s1 = update_first (fun q => p_id q =? p_id p) g0 (st_participants s) /\
      ((exists e, rb = Raise e) \/
       (exists d, rb = Ok (record_detail (bump_total acc) d) /\
          d_name d = p_name p /\ d_email d = p_email p /\ d_error d = None /\
          (d_status d = FeedbackSent \/ d_status d = CertificateSent) /\
          forall x, p_status (g0 x) = d_status d /\ p_error_message (g0 x) = d_error d))).
  { intros rb s1 B. destruct (ev_feedback_enabled ev).
    - rewrite bind_token_urlsafe, bind_modify in B. unfold update_participant in B.
      rewrite bind_modify in B.
      apply bind_inv in B as [[e [B ->]] | [u [s2 [B1 B]]]].
      + exists (with_feedback_sent (token_of (st_rng s))). split; [intro; reflexivity|].
        split; [|left; eauto].
        rewrite (keeps_send_email smtp_error _ (participants_mail_frame _) _ _ _ _ _ _ _ _
                   eq_refl B). reflexivity.
      + unfold ret in B. injection B as <- <-.
        exists (with_feedback_sent (token_of (st_rng s))). split; [intro; reflexivity|].
        split.
        * rewrite (keeps_send_email smtp_error _ (participants_mail_frame _) _ _ _ _ _ _ _ _
                     eq_refl B1). reflexivity.
        * right. exists (mkDetail (p_name p) (p_email p) FeedbackSent None).
          split; [reflexivity|]. cbn. auto 10.
    - apply bind_inv in B as [[e [B ->]] | [u [s2 [B1 B]]]].
      + exists (fun x => x). split; [intro; reflexivity|].
        rewrite update_first_id. split; [|left; eauto].
        exact (keeps_render_and_send _ (participants_render_frame _)
                 (participants_mail_frame _) _ _ _ _ _ _ _ _ _ eq_refl B).
      + rewrite bind_utcnow in B. unfold update_participant in B.
        rewrite bind_modify in B. unfold ret in B. injection B as <- <-.
        exists (with_certificate_sent (st_clock s2) None). split; [intro; reflexivity|].
        split.
        * cbn [st_participants set_participants tick].
          rewrite (keeps_render_and_send _ (participants_render_frame _)
                     (participants_mail_frame _) _ _ _ _ _ _ _ _ _ eq_refl B1).
          reflexivity.
        * right. exists (mkDetail (p_name p) (p_email p) CertificateSent None).
          split; [reflexivity|]. cbn. auto 10. }
  apply try_inv in H as [[a [B ->]] | [e [s1 [B Hh]]]].
  - destruct (Hbody _ _ B) as [g0 [Hg0 [P1 [[e He] | [d [Hd [Hn [Hm [Hr [Hs Hx]]]]]]]]]];
      [discriminate|].
    injection Hd as ->. exists d, g0.
    split; [reflexivity|]. do 2 (split; [assumption|]).
    split; [destruct Hs as [Hs|Hs]; [left|right; left]; split; assumption|].
    auto.
  - destruct (Hbody _ _ B) as [g0 [Hg0 [P1 _]]].
    unfold update_participant in Hh. rewrite bind_modify in Hh. unfold ret in Hh.
    injection Hh as <- <-.
    exists (mkDetail (p_name p) (p_email p) Failed (Some (exn_str e))),
      (fun x => with_status Failed (Some (exn_str e)) (g0 x)).
    split; [reflexivity|]. split; [reflexivity|]. split; [reflexivity|].
    split; [right; right; split; [reflexivity | exists (exn_str e); reflexivity]|].
    split; [unfold id_preserving; intro x; cbn; exact (Hg0 x)|].
    split; [intro; split; reflexivity|].
    cbn [st_participants set_participants]. rewrite P1.
    apply update_first_compose. apply id_preserving_eqb. exact Hg0.
Qed.

Lemma participant_by_id_update_same (pid : string) (g : participant -> participant)
    (l : list participant) :
  id_preserving g ->
  participant_by_id pid (update_first (fun q => p_id q =? pid) g l) =
  option_map g (participant_by_id pid l).
Proof.
  intros Hg. unfold participant_by_id. induction l as [|x l IH]; cbn; [reflexivity|].
  destruct (p_id x =? pid) eqn:E; cbn.
  - rewrite Hg, E. reflexivity.
  - rewrite E. exact IH.
Qed.

Lemma participant_by_id_update_other (q pid : string) (g : participant -> participant)
    (l : list participant) :
  id_preserving g -> q <> pid ->
  participant_by_id q (update_first (fun x => p_id x =? pid) g l) = participant_by_id q l.
Proof.
  intros Hg Hq. unfold participant_by_id. induction l as [|x l IH]; cbn; [reflexivity|].
  destruct (p_id x =? pid) eqn:E; cbn.
  - apply String.eqb_eq in E. rewrite Hg, E.
    destruct (pid =? q) eqn:E2; [apply String.eqb_eq in E2; congruence|reflexivity].
  - rewrite IH. reflexivity.
Qed.

Lemma participant_by_id_in (p : participant) (l : list participant) :
  In p l -> exists y, participant_by_id (p_id p) l = Some y.
Proof.
  unfold participant_by_id. induction l as [|x l IH]; cbn; [contradiction|].
  intros [->|Hin].
  - rewrite String.eqb_refl. eauto.
  - destruct (p_id x =? p_id p); eauto.
Qed.

Lemma NoDup_map_filter {A B} (f : A -> B) (P : A -> bool) (l : list A) :
  NoDup (map f l) -> NoDup (map f (filter P l)).
Proof.
  induction l as [|x l IH]; cbn; [auto|]. intros H. inversion H as [|? ? Hn Hd]; subst.
  destruct (P x); cbn; [|auto]. constructor; [|auto].
  intros Hin. apply Hn. apply in_map_iff in Hin as [y [Hy Hin]].
  apply filter_In in Hin as [Hin _]. rewrite <- Hy. apply in_map. exact Hin.
Qed.

(** The whole loop: every participant gets one detail, in order, and the
    counters add up; documents of other participants are untouched. *)
Lemma process_all_spec (ev : event) (event_id sender pw : string) (ps : list participant) :
  forall (acc : send_results) (s s' : state) (r : res send_results),
  NoDup (map p_id ps) ->
  (forall p, In p ps -> exists y, participant_by_id (p_id p) (st_participants s) = Some y) ->
  process_all_ ev event_id sender pw ps acc s = (r, s') ->
  exists out ds,
    r = Ok out /\
    r_total out = r_total acc + List.length ps /\
    r_successful out + r_failed out = r_successful acc + r_failed acc + List.length ps /\
    r_details out = r_details acc ++ ds /\
    Forall2 (detail_spec s') ps ds /\
    (forall q, ~ In q (map p_id ps) ->
       participant_by_id q (st_participants s') = participant_by_id q (st_participants s)).
Proof.
  induction ps as [|p ps IH]; intros acc s s' r Hnd Hin H.
  - cbn in H. injection H as <- <-. exists acc, []. rewrite app_nil_r, Nat.add_0_r.
    repeat split; auto.
  - cbn [process_all] in H. apply bind_inv in H as [[e [H _]] | [a [s1 [H1 H]]]].
    + destruct (process_participant_spec _ _ _ _ _ _ _ _ _ H) as [d [g [Hr _]]].
      discriminate.
    + destruct (process_participant_spec _ _ _ _ _ _ _ _ _ H1)
        as [d [g [Hr [Hn [Hm [Hst [Hg [Hx Hp]]]]]]]].
      injection Hr as ->.
      inversion Hnd as [|? ? Hnotin Hnd']; subst.
      assert (Hother : forall q, q <> p_id p ->
                participant_by_id q (st_participants s1) =
                participant_by_id q (st_participants s)).
      { intros q Hq. rewrite Hp. apply participant_by_id_update_other; assumption. }
      assert (Hin' : forall p', In p' ps ->
                exists y, participant_by_id (p_id p') (st_participants s1) = Some y).
      { intros p' Hp'. rewrite Hother.
        - apply Hin. right. exact Hp'.
        - intros E. apply Hnotin. rewrite <- E. apply in_map. exact Hp'. }
      destruct (IH _ _ _ _ Hnd' Hin' H)
        as [out [ds [-> [Ht [Hsf [Hdt [Hall Hun]]]]]]].
      exists out, (d :: ds).
      assert (Hrec : r_total (record_detail (bump_total acc) d) = S (r_total acc) /\
                     r_successful (record_detail (bump_total acc) d) +
                     r_failed (record_detail (bump_total acc) d) =
                     S (r_successful acc + r_failed acc) /\
                     r_details (record_detail (bump_total acc) d) = r_details acc ++ [d]).
      { unfold record_detail. destruct (d_status d); cbn; repeat split; lia. }
      destruct Hrec as [R1 [R2 R3]].
      split; [reflexivity|]. cbn [List.length].
      split; [rewrite Ht, R1; lia|].
      split; [rewrite Hsf, R2; lia|].
      split; [rewrite Hdt, R3, <- app_assoc; reflexivity|].
      split.
      * constructor; [|exact Hall].
        split; [exact Hn|]. split; [exact Hm|].
        split; [destruct Hst as [[? ?]|[[? ?]|?]]; [left|left|right]; auto|].
        destruct (Hin p (or_introl eq_refl)) as [y0 Hy0].
        exists (g y0). rewrite Hun.
        -- rewrite Hp, participant_by_id_update_same, Hy0 by exact Hg.
           split; [reflexivity|]. apply Hx.
        -- exact Hnotin.
      * intros q Hq. rewrite Hun.
        -- apply Hother. intros ->. apply Hq. left. reflexivity.
        -- intros Hq'. apply Hq. right. exact Hq'.
Qed.

(** A [try] block that returns reports a detail of success with no error. *)
Lemma participant_body_ok (ev : event) (event_id sender pw : string) (p : participant)
    (results : send_results) (s s1 : state) (a : send_results) :
  participant_body_ ev event_id sender pw p results s = (Ok a, s1) ->
  exists d, a = record_detail results d /\ d_status d <> Failed /\ d_error d = None.
Proof.
  unfold participant_body. cbv zeta. intros H.
  destruct (ev_feedback_enabled ev);
    repeat (cbv beta in H; apply bind_inv in H as [[? [_ Hr]] | [? [? [_ H]]]];
            [discriminate Hr|]);
    unfold ret in H; injection H as <- _.
  - exists (mkDetail (p_name p) (p_email p) FeedbackSent None).
    split; [reflexivity|]. split; [discriminate|reflexivity].
  - exists (mkDetail (p_name p) (p_email p) CertificateSent None).
    split; [reflexivity|]. split; [discriminate|reflexivity].
Qed.

(** One turn never raises, and its detail is the one [turn_outcome] gives
    for the state it began in. *)
Lemma process_participant_outcome (ev : event) (event_id sender pw : string)
    (p : participant) (acc : send_results) (s s' : state) (r : res send_results) :
  process_participant_ ev event_id sender pw p acc s = (r, s') ->
  exists d, r = Ok (record_detail (bump_total acc) d) /\
    turn_outcome_ ev event_id sender pw p (acc, s) d.
Proof.
  intros H. unfold process_participant in H. cbv zeta in H.
  apply try_inv in H as [[a [B ->]] | [e [s1 [B Hh]]]].
  - pose proof B as B0. apply participant_body_ok in B0 as [d [-> [Hs He]]].
    exists d. split; [reflexivity|]. unfold turn_outcome. split.
    + intros e x1 B'. rewrite B in B'. discriminate B'.
    + intros a' x1 _. split; assumption.
  - unfold update_participant in Hh. rewrite bind_modify in Hh. unfold ret in Hh.
    injection Hh as <- _.
    exists (mkDetail (p_name p) (p_email p) Failed (Some (exn_str e))).
    split; [reflexivity|]. unfold turn_outcome. split.
    + intros e' x1 B'. rewrite B in B'. injection B' as <- _. reflexivity.
    + intros a x1 B'. rewrite B in B'. discriminate B'.
Qed.

(** The loop takes one turn per participant, and each detail is the one its
    turn gives. *)
Lemma process_all_turns (ev : event) (event_id sender pw : string) (ps : list participant) :
  forall (acc : send_results) (s s' : state) (r : res send_results),
  process_all_ ev event_id sender pw ps acc s = (r, s') ->
  exists out ds,
    r = Ok out /\ r_details out = r_details acc ++ ds /\
    List.length (turn_states_ ev event_id sender pw ps acc s) = List.length ps /\
    Forall2 (fun pb d => turn_outcome_ ev event_id sender pw (fst pb) (snd pb) d)
      (combine ps (turn_states_ ev event_id sender pw ps acc s)) ds.
Proof.
  induction ps as [|p ps IH]; intros acc s s' r H.
  - cbn in H. injection H as <- <-. exists acc, []. rewrite app_nil_r.
    split; [reflexivity|]. split; [reflexivity|]. split; [reflexivity|constructor].
  - cbn [process_all] in H. apply bind_inv in H as [[e [H1 _]] | [a [s1 [H1 H]]]].
    + destruct (process_participant_outcome _ _ _ _ _ _ _ _ _ H1) as [d [Hr _]].
      discriminate.
    + destruct (process_participant_outcome _ _ _ _ _ _ _ _ _ H1) as [d [Ha Ho]].
      injection Ha as ->.
      destruct (IH _ _ _ _ H) as [out [ds [-> [Hdt [Hlen Hall]]]]].
      assert (R : r_details (record_detail (bump_total acc) d) = r_details acc ++ [d]).
      { unfold record_detail. destruct (d_status d); reflexivity. }
      exists out, (d :: ds). split; [reflexivity|].
      split; [rewrite Hdt, R, <- app_assoc; reflexivity|].
      cbn [turn_states]. rewrite H1. split.
      * cbn [List.length]. rewrite Hlen. reflexivity.
      * cbn [combine]. constructor; [exact Ho|exact Hall].
Qed.

(** C3: past its checks (owner email settings, an event id that is a valid
    ObjectId naming the caller's event, a template, a password that
    decrypts), a dispatch run returns normally whatever happens to single
    participants: [total] is the number of selected participants and equals
    [successful + failed]; there is one detail per selected participant, in
    order, and one turn of the loop each. A participant whose [try] block
    raised [e], from the state its turn began in, is reported failed with
    [str(e)]; one whose block returned is reported with a status of success
    and no error. Each participant's document carries the reported status and
    error, and participants that were not selected are untouched. *)
Theorem dispatch_isolates_failures (event_id : string) (send_all : bool) (uid : string)
    (s : state) (settings : email_settings) (oid : string) (ev : event) (tp pw : string)
    (r : res send_results) (s' : state) :
  option_bind (find_first (fun u => String.eqb (u_id u) uid) (st_users s))
    u_email_settings = Some settings ->
  ObjectId event_id = Ok oid ->
  owned_event oid uid (st_events s) = Some ev ->
  ev_template_path ev = Some tp -> tp <> EmptyString ->
  decrypt_app_password (es_app_password_encrypted settings) = Ok pw ->
  NoDup (map p_id (st_participants s)) ->
  send_certificates_ event_id send_all uid s = (r, s') ->
  exists out,
    r = Ok out /\
    r_total out = List.length (select_participants event_id send_all (st_participants s)) /\
    r_total out = r_successful out + r_failed out /\
    Forall2 (detail_spec s') (select_participants event_id send_all (st_participants s))
      (r_details out) /\
    List.length (turn_states_ ev event_id (es_email settings) pw
                   (select_participants event_id send_all (st_participants s))
                   (mkResults 0 0 0 []) s) =
      List.length (select_participants event_id send_all (st_participants s)) /\
    Forall2 (fun pb d => turn_outcome_ ev event_id (es_email settings) pw (fst pb) (snd pb) d)
      (combine (select_participants event_id send_all (st_participants s))
         (turn_states_ ev event_id (es_email settings) pw
            (select_participants event_id send_all (st_participants s))
            (mkResults 0 0 0 []) s))
      (r_details out) /\
    (forall q, ~ In q (map p_id (select_participants event_id send_all (st_participants s))) ->
       participant_by_id q (st_participants s') = participant_by_id q (st_participants s)).
Proof.
  intros Hu Ho He Ht Htp Hd Hnd H.
  unfold send_certificates in H. rewrite bind_gets in H. cbv beta in H. rewrite Hu in H.
  cbv iota in H. rewrite bind_liftr, Ho in H. cbv beta iota in H.
  rewrite bind_gets in H. cbv beta in H. rewrite He in H.
  cbv iota in H. rewrite Ht in H.
  destruct tp as [|c tp']; [contradiction|]. cbv iota zeta in H.
  unfold liftr at 1 in H. unfold bind at 1 in H. rewrite Hd in H.
  rewrite bind_gets in H. cbv beta in H.
  set (sel := select_participants event_id send_all (st_participants s)) in *.
  assert (Hnd' : NoDup (map p_id sel)) by (apply NoDup_map_filter; exact Hnd).
  assert (Hin : forall p, In p sel ->
             exists y, participant_by_id (p_id p) (st_participants s) = Some y).
  { intros p Hp. apply participant_by_id_in. apply filter_In in Hp. apply Hp. }
  apply bind_inv in H as [[e [H _]] | [out [s1 [H1 H]]]].
  - destruct (process_all_spec _ _ _ _ _ _ _ _ _ Hnd' Hin H) as [out [ds [Hr _]]].
    discriminate.
  - destruct (process_all_spec _ _ _ _ _ _ _ _ _ Hnd' Hin H1)
      as [out' [ds [Hr [Ht' [Hsf [Hdt [Hall Hun]]]]]]].
    destruct (process_all_turns _ _ _ _ _ _ _ _ _ H1)
      as [out2 [ds2 [Hr2 [Hdt2 [Hlen Hturns]]]]].
    injection Hr as <-. injection Hr2 as <-.
    rewrite bind_modify in H. unfold ret in H. injection H as <- <-.
    exists out. cbn [r_total r_successful r_failed r_details] in Ht', Hsf, Hdt, Hdt2.
    split; [reflexivity|]. split; [exact Ht'|]. split; [lia|].
    assert (Hframe : forall x l, detail_spec (set_event_status oid l x) =
                                 detail_spec x).
    { reflexivity. }
    rewrite Hframe. split; [rewrite Hdt; exact Hall|].
    split; [exact Hlen|]. split; [rewrite Hdt2; exact Hturns|].
    intros q Hq. exact (Hun q Hq).
Qed.

(** ** Feedback tokens *)

Lemma map_update_first {A B} (f : A -> B) (P : A -> bool) (g : A -> A) (l : list A) :
  (forall x, P x = true -> f (g x) = f x) ->
  map f (update_first P g l) = map f l.
Proof.
  intros Hg. induction l as [|x l IH]; cbn; [reflexivity|].
  destruct (P x) eqn:E; cbn; [rewrite Hg by exact E|rewrite IH]; reflexivity.
Qed.

Lemma NoDup_snoc {A} (l : list A) (x : A) :
  NoDup l -> ~ In x l -> NoDup (l ++ [x]).
Proof.
  induction l as [|y l IH]; cbn; intros Hn Hx.
  - constructor; [intros []|constructor].
  - inversion Hn as [|? ? Hy Hn']; subst. constructor.
    + intros Hin. apply in_app_or in Hin as [Hin|[<-|[]]]; [exact (Hy Hin)|].
      apply Hx. left. reflexivity.
    + apply IH; [exact Hn'|]. intros Hin. apply Hx. right. exact Hin.
Qed.

Lemma existsb_false_not_in (pid : string) (l : list feedback) :
  existsb (fun f => fb_participant_id f =? pid) l = false ->
  ~ In pid (map fb_participant_id l).
Proof.
  induction l as [|x l IH]; cbn; [auto|]. intros H [E|Hin].
  - rewrite E, String.eqb_refl in H. discriminate.
  - apply orb_false_iff in H as [_ H]. exact (IH H Hin).
Qed.

Lemma issue_feedback_unique (pid event_id token : string) (l : list feedback) :
  NoDup (map fb_participant_id l) ->
  NoDup (map fb_participant_id (issue_feedback pid event_id token l)).
Proof.
  intros Hn. unfold issue_feedback, upsert_first.
  destruct (existsb _ l) eqn:E.
  - rewrite map_update_first; [exact Hn|].
    intros x Hx. apply String.eqb_eq in Hx. cbn. congruence.
  - rewrite map_app. apply NoDup_snoc; [exact Hn|]. apply existsb_false_not_in. exact E.
Qed.

Lemma issue_feedback_latest (pid event_id token : string) (l : list feedback) (f : feedback) :
  NoDup (map fb_participant_id l) ->
  In f (issue_feedback pid event_id token l) -> fb_participant_id f = pid ->
  f = mkFeedback pid event_id token [] None.
Proof.
  intros Hn Hin Hf. unfold issue_feedback, upsert_first in Hin.
  destruct (existsb _ l) eqn:E.
  - clear E. induction l as [|x l IH]; cbn in Hin; [contradiction|].
    inversion Hn as [|? ? Hx Hn']; subst.
    destruct (fb_participant_id x =? fb_participant_id f) eqn:Ex.
    + destruct Hin as [<-|Hin]; [reflexivity|].
      apply String.eqb_eq in Ex. exfalso. apply Hx. rewrite Ex. apply in_map. exact Hin.
    + destruct Hin as [<-|Hin]; [rewrite String.eqb_refl in Ex; discriminate|].
      exact (IH Hn' Hin).
  - apply in_app_or in Hin as [Hin|[<-|[]]]; [|reflexivity].
    exfalso. apply (existsb_false_not_in _ _ E). rewrite <- Hf. apply in_map. exact Hin.
Qed.

Lemma feedback_unique_render_frame : render_frame feedback_unique.
Proof. split; intros; assumption. Qed.

Lemma feedback_unique_mail_frame : mail_frame feedback_unique.
Proof. intros s o H. exact H. Qed.

Lemma keeps_process_participant (ev : event) (event_id sender pw : string)
    (p : participant) (acc : send_results) :
  keeps feedback_unique (process_participant_ ev event_id sender pw p acc).
Proof.
  unfold process_participant, participant_body. keeps_tac.
  all: first
    [ apply keeps_send_email; exact feedback_unique_mail_frame
    | apply keeps_render_and_send;
        [exact feedback_unique_render_frame | exact feedback_unique_mail_frame]
    | apply issue_feedback_unique; assumption
    | assumption ].
Qed.

Lemma keeps_process_all (ev : event) (event_id sender pw : string) (ps : list participant) :
  forall acc, keeps feedback_unique (process_all_ ev event_id sender pw ps acc).
Proof.
  induction ps as [|p ps IH]; intros acc; cbn [process_all].
  - apply keeps_ret.
  - apply keeps_bind; [apply keeps_process_participant | intros a; apply IH].
Qed.

Lemma keeps_send_certificates (event_id : string) (send_all : bool) (uid : string) :
  keeps feedback_unique (send_certificates_ event_id send_all uid).
Proof.
  unfold send_certificates. keeps_tac.
  all: first [ apply keeps_process_all | assumption ].
Qed.

Lemma NoDup_map_same {A B} (f : A -> B) (l : list A) (x y : A) :
  NoDup (map f l) -> In x l -> In y l -> f x = f y -> x = y.
Proof.
  induction l as [|z l IH]; cbn; [contradiction|].
  intros Hn Hx Hy E. inversion Hn as [|? ? Hz Hn']; subst.
  destruct Hx as [<-|Hx], Hy as [<-|Hy]; auto.
  - exfalso. apply Hz. rewrite E. apply in_map. exact Hy.
  - exfalso. apply Hz. rewrite <- E. apply in_map. exact Hx.
Qed.

(** C4: issuing a token is an upsert keyed by participant: the only record
    of the participant afterwards is the new one, with the new token.  Two
    dispatch runs with the resend-all selection, one after the other, keep
    at most one feedback record, hence one valid token, per participant. *)
Theorem feedback_token_upsert (event_id uid : string) (s0 s1 s2 : state)
    (r1 r2 : res send_results) :
  feedback_unique s0 ->
  send_certificates_ event_id true uid s0 = (r1, s1) ->
  send_certificates_ event_id true uid s1 = (r2, s2) ->
  (forall pid eid token l f,
     NoDup (map fb_participant_id l) ->
     In f (issue_feedback pid eid token l) -> fb_participant_id f = pid ->
     f = mkFeedback pid eid token [] None) /\
  feedback_unique s1 /\ feedback_unique s2 /\
  (forall f1 f2, In f1 (st_feedback s2) -> In f2 (st_feedback s2) ->
     fb_participant_id f1 = fb_participant_id f2 -> f1 = f2).
Proof.
  intros H0 H1 H2.
  assert (U1 : feedback_unique s1) by exact (keeps_send_certificates _ _ _ _ _ _ H0 H1).
  assert (U2 : feedback_unique s2) by exact (keeps_send_certificates _ _ _ _ _ _ U1 H2).
  split; [exact issue_feedback_latest|].
  split; [exact U1|]. split; [exact U2|].
  intros f1 f2. apply NoDup_map_same. exact U2.
Qed.

End DispatchProofs.

(** ** Read endpoints, exports, uploads and colours *)

Section ViewProofs.

Variable font_parses : string -> Z -> bool.
Variable fetch_ok fetch_leaves_file : string -> bool.
Variable image_open : string -> res image.
Variable convert_from_path : string -> Z -> res (list image).
Variable textbbox : font -> string -> res (Z * Z * Z * Z).
Variable py_int16 : string -> res Z.
Variable writable : string -> bool.
Variable smtp_error : string -> string -> mail -> option string.
Variable token_of : nat -> string.
Variable decrypt_app_password : string -> res string.
Variable event_questions : event -> list question.
Variable show_time : nat -> string.

Local Abbreviation render_and_send_ :=
  (render_and_send font_parses fetch_ok fetch_leaves_file image_open convert_from_path
     textbbox py_int16 writable smtp_error).
Local Abbreviation process_participant_ :=
  (process_participant font_parses fetch_ok fetch_leaves_file image_open convert_from_path
     textbbox py_int16 writable smtp_error token_of).
Local Abbreviation process_all_ :=
  (process_all font_parses fetch_ok fetch_leaves_file image_open convert_from_path
     textbbox py_int16 writable smtp_error token_of).
Local Abbreviation send_certificates_ :=
  (send_certificates font_parses fetch_ok fetch_leaves_file image_open convert_from_path
     textbbox py_int16 writable smtp_error token_of decrypt_app_password).
Local Abbreviation submit_feedback_ :=
  (submit_feedback font_parses fetch_ok fetch_leaves_file image_open convert_from_path
     textbbox py_int16 writable smtp_error decrypt_app_password).
Local Abbreviation get_feedback_form_ := (get_feedback_form event_questions).
Local Abbreviation download_feedback_ := (download_feedback event_questions show_time).

Lemma keeps_get_feedback_form (I : state -> Prop) (token : string) :
  keeps I (get_feedback_form_ token).
Proof. unfold get_feedback_form. keeps_tac. Qed.

Lemma get_feedback_form_read_only (token : string) (s s' : state) (r : res feedback_form) :
  get_feedback_form_ token s = (r, s') -> s' = s.
Proof. intros H. exact (keeps_get_feedback_form (fun x => x = s) token s r s' eq_refl H). Qed.



Lemma keeps_events_process_participant (c : list event) (ev : event)
    (event_id sender pw : string) (p : participant) (acc : send_results) :
  keeps (fun x => st_events x = c) (process_participant_ ev event_id sender pw p acc).
Proof.
  unfold process_participant, participant_body. keeps_tac.
  all: try (apply keeps_send_email; intros ? ? H; exact H).
  all: try (apply keeps_render_and_send; [split; intros; assumption | intros ? ? H; exact H]).
  all: try (cbn; assumption).
Qed.

Lemma keeps_profiles_process_participant (c : list (string * string * string)) (ev : event)
    (event_id sender pw : string) (p : participant) (acc : send_results) :
  keeps (fun x => map (fun q => (p_id q, p_name q, p_email q)) (st_participants x) = c)
    (process_participant_ ev event_id sender pw p acc).
Proof.
  unfold process_participant, participant_body. keeps_tac.
  all: try (apply keeps_send_email; intros ? ? H; exact H).
  all: try (apply keeps_render_and_send; [split; intros; assumption | intros ? ? H; exact H]).
  all: try (cbn; assumption).
  all: cbn; rewrite map_update_first; [assumption | intros; reflexivity].
Qed.

Lemma feedback_mail_frame (c : list feedback) : mail_frame (fun x => st_feedback x = c).
Proof. intros x o H. exact H. Qed.

Lemma profiles_lookup (l l' : list participant) (q : string) (y : participant) :
  map (fun x => (p_id x, p_name x, p_email x)) l' =
  map (fun x => (p_id x, p_name x, p_email x)) l ->
  participant_by_id q l = Some y ->
  exists y', participant_by_id q l' = Some y' /\ p_name y' = p_name y /\ p_email y' = p_email y.
Proof.
  unfold participant_by_id. revert l'. induction l as [|x l IH]; intros l' E H;
    [discriminate|].
  destruct l' as [|x' l']; [discriminate|]. cbn in E. injection E as Ei En Em E.
  cbn in H |- *. rewrite Ei. destruct (p_id x =? q).
  - injection H as <-. eauto.
  - exact (IH _ E H).
Qed.

Lemma feedback_by_token_issue (pid eid token : string) (l : list feedback) :
  ~ In token (map fb_token l) ->
  feedback_by_token token (issue_feedback pid eid token l) =
    Some (mkFeedback pid eid token [] None).
Proof.
  intros Hn. unfold issue_feedback, upsert_first, feedback_by_token.
  destruct (existsb _ l) eqn:E.
  - induction l as [|x l IH]; cbn in E |- *; [discriminate|].
    destruct (fb_participant_id x =? pid); cbn.
    + rewrite String.eqb_refl. reflexivity.
    + destruct (fb_token x =? token) eqn:Et.
      * apply String.eqb_eq in Et. exfalso. apply Hn. left. exact Et.
      * apply IH; [intros Hi; apply Hn; right; exact Hi | exact E].
  - clear E. induction l as [|x l IH]; cbn; [rewrite String.eqb_refl; reflexivity|].
    destruct (fb_token x =? token) eqn:Et.
    + apply String.eqb_eq in Et. exfalso. apply Hn. left. exact Et.
    + apply IH. intros Hi. apply Hn. right. exact Hi.
Qed.

(** With feedback enabled, one iteration of the dispatch loop leaves the
    feedback collection with the new token issued for the participant,
    whatever happens to the invitation mail. *)
Lemma process_participant_feedback_store (ev : event) (event_id sender pw : string)
    (p : participant) (acc : send_results) (s s' : state) (r : res send_results) :
  ev_feedback_enabled ev = true ->
  process_participant_ ev event_id sender pw p acc s = (r, s') ->
  st_feedback s' = issue_feedback (p_id p) event_id (token_of (st_rng s)) (st_feedback s).
Proof.
  intros Hfe H. unfold process_participant, participant_body in H. cbv zeta in H. rewrite Hfe in H.
  assert (Hbody : forall rb s1,
    (token <- token_urlsafe token_of ;;
     modify (fun s => set_feedback (issue_feedback (p_id p) event_id token
                                      (st_feedback s)) s) ;;;
     update_participant (p_id p) (with_feedback_sent token) ;;;
     send_email smtp_error (p_email p) sender pw
       (py_replace (py_replace (ev_feedback_email_subject ev) "{name}" (p_name p))
          "{event_name}" (ev_name ev))
       (py_replace (py_replace (py_replace (ev_feedback_email_body ev) "{name}" (p_name p))
          "{event_name}" (ev_name ev)) "{feedback_url}"
          (FRONTEND_URL +++ "/feedback/" +++ token)) ;;;
     ret (add_success (bump_total acc) (mkDetail (p_name p) (p_email p) FeedbackSent None)))
    s = (rb, s1) ->
    st_feedback s1 = issue_feedback (p_id p) event_id (token_of (st_rng s)) (st_feedback s)).
  { intros rb s1 B. rewrite bind_token_urlsafe, bind_modify in B.
    unfold update_participant in B. rewrite bind_modify in B.
    apply bind_inv in B as [[e [B _]] | [u [s2 [B1 B]]]].
    - rewrite (keeps_send_email smtp_error _ (feedback_mail_frame _)
                 _ _ _ _ _ _ _ _ eq_refl B). reflexivity.
    - unfold ret in B. injection B as _ <-.
      rewrite (keeps_send_email smtp_error _ (feedback_mail_frame _)
                 _ _ _ _ _ _ _ _ eq_refl B1). reflexivity. }
  apply try_inv in H as [[a [B _]] | [e [s1 [B Hh]]]].
  - exact (Hbody _ _ B).
  - unfold update_participant in Hh. rewrite bind_modify in Hh. unfold ret in Hh.
    injection Hh as _ <-. exact (Hbody _ _ B).
Qed.



Lemma ObjectId_error (oid : string) (e : exn) :
  ObjectId oid = Raise e -> e = invalid_id oid.
Proof.
  unfold ObjectId. destruct (Nat.eqb _ 24); [destruct (fromhex oid)|];
    intros H; [discriminate H| |]; injection H as <-; reflexivity.
Qed.

Lemma count_by_status (event_id : string) (l : list participant) :
  count_documents (fun p => String.eqb (p_event_id p) event_id) l =
  count_documents (event_status_query event_id Pending) l +
  count_documents (event_status_query event_id FeedbackSent) l +
  count_documents (event_status_query event_id FeedbackReceived) l +
  count_documents (event_status_query event_id CertificateSent) l +
  count_documents (event_status_query event_id Failed) l.
Proof.
  unfold count_documents, event_status_query.
  induction l as [|x l IH]; cbn; [reflexivity|].
  destruct (p_event_id x =? event_id); cbn; [|exact IH].
  destruct (p_status x); cbn; rewrite IH; lia.
Qed.

(** X4: [get_results] only reads. An event id that is not a valid ObjectId
    makes [ObjectId(event_id)] raise [InvalidId] (a 500); an event that is not
    the caller's is refused with 404; otherwise the status counts add up to
    the total. *)
Theorem results_statistics_partition (event_id uid : string) (s s' : state)
    (r : res results_summary) :
  get_results event_id uid s = (r, s') ->
  s' = s /\
  ((ObjectId event_id = Raise (invalid_id event_id) /\ r = Raise (invalid_id event_id)) \/
   (exists oid, ObjectId event_id = Ok oid /\
    ((owned_event oid uid (st_events s) = None /\
      r = Raise (HTTPException 404 "Event not found")) \/
     (exists ev st,
        owned_event oid uid (st_events s) = Some ev /\
        r = Ok (mkSummary (ev_name ev) (ev_feedback_enabled ev) st) /\
        stat_total st = count_documents (fun p => String.eqb (p_event_id p) event_id)
                          (st_participants s) /\
        stat_total st = stat_pending st + stat_feedback_sent st + stat_feedback_received st +
                        stat_certificate_sent st + stat_failed st)))).
Proof.
  unfold get_results. rewrite bind_liftr.
  destruct (ObjectId event_id) as [oid|e] eqn:O.
  - rewrite bind_gets. cbv beta.
    destruct (owned_event oid uid (st_events s)) as [ev|] eqn:E.
    + intros H. unfold gets, ret, bind in H. injection H as <- <-. split; [reflexivity|].
      right. exists oid. split; [reflexivity|].
      right. eexists ev, _. split; [exact E|]. split; [reflexivity|]. cbn.
      split; [reflexivity|]. apply count_by_status.
    + intros H. injection H as <- <-. split; [reflexivity|]. right. exists oid.
      split; [reflexivity|]. left. split; [exact E|reflexivity].
  - intros H. injection H as <- <-. split; [reflexivity|]. left.
    pose proof (ObjectId_error event_id e O) as ->. auto.
Qed.

Lemma in_update_first_nodup (pid : string) (g : participant -> participant)
    (l : list participant) (x : participant) :
  NoDup (map p_id l) ->
  In x (update_first (fun q => p_id q =? pid) g l) ->
  (In x l /\ p_id x <> pid) \/ (exists y, In y l /\ x = g y).
Proof.
  induction l as [|z l IH]; cbn; [contradiction|]. intros Hn Hx.
  inversion Hn as [|? ? Hz Hn']; subst.
  destruct (p_id z =? pid) eqn:E.
  - apply String.eqb_eq in E. destruct Hx as [<-|Hx]; [right; eauto|].
    left. split; [right; exact Hx|]. intros Ex. apply Hz. rewrite E, <- Ex. apply in_map.
    exact Hx.
  - destruct Hx as [<-|Hx].
    + left. split; [left; reflexivity|]. intros Ex. rewrite Ex, String.eqb_refl in E.
      discriminate.
    + destruct (IH Hn' Hx) as [[Hi Hne]|[y [Hy ->]]]; [left; auto|right; eauto].
Qed.

Lemma find_first_in {A} (P : A -> bool) (l : list A) (x : A) :
  find_first P l = Some x -> In x l.
Proof.
  induction l as [|y l IH]; cbn; [discriminate|].
  destruct (P y); [intros H; injection H as <-; left; reflexivity|intros H; right; auto].
Qed.

Lemma count_zero (P : participant -> bool) (l : list participant) :
  (forall x, In x l -> P x = false) -> count_documents P l = 0.
Proof.
  unfold count_documents. induction l as [|x l IH]; cbn; [reflexivity|]. intros H.
  rewrite (H x (or_introl eq_refl)). apply IH. intros y Hy. apply H. right. exact Hy.
Qed.

Lemma owned_event_update (event_id uid : string) (f : event -> event) (l : list event)
    (ev : event) :
  NoDup (map ev_id l) ->
  (forall e, ev_id (f e) = ev_id e /\ ev_user_id (f e) = ev_user_id e) ->
  owned_event event_id uid l = Some ev ->
  owned_event event_id uid (update_first (fun e => ev_id e =? event_id) f l) = Some (f ev).
Proof.
  unfold owned_event. intros Hn Hf. induction l as [|z l IH]; cbn; [discriminate|].
  inversion Hn as [|? ? Hz Hn']; subst.
  destruct (ev_id z =? event_id) eqn:E; cbn.
  - destruct (Hf z) as [F1 F2]. rewrite F1, F2, E. cbn.
    destruct (ev_user_id z =? uid); [intros H; injection H as <-; reflexivity|].
    intros H. exfalso. apply Hz. pose proof (find_first_some_prop _ _ _ H) as Hp.
    apply andb_true_iff in Hp as [Hp _]. apply String.eqb_eq in Hp.
    apply String.eqb_eq in E. rewrite E, <- Hp. apply in_map. exact (find_first_in _ _ _ H).
  - rewrite E. cbn. exact (IH Hn').
Qed.

Lemma keeps_events_process_all (c : list event) (ev : event) (event_id sender pw : string)
    (ps : list participant) :
  forall acc, keeps (fun x => st_events x = c) (process_all_ ev event_id sender pw ps acc).
Proof.
  induction ps as [|p ps IH]; intros acc; cbn [process_all].
  - apply keeps_ret.
  - apply keeps_bind; [apply keeps_events_process_participant | intros a; apply IH].
Qed.

(** The dispatch loop leaves no participant of the event pending when every
    pending one was selected. *)
Lemma process_all_no_pending (ev : event) (event_id sender pw eid : string)
    (ps : list participant) :
  forall acc s s' r,
  NoDup (map p_id (st_participants s)) ->
  (forall x, In x (st_participants s) -> p_event_id x = eid -> p_status x = Pending ->
     In (p_id x) (map p_id ps)) ->
  process_all_ ev event_id sender pw ps acc s = (r, s') ->
  forall x, In x (st_participants s') -> p_event_id x = eid -> p_status x <> Pending.
Proof.
  induction ps as [|p ps IH]; intros acc s s' r Hn Hinv H.
  - cbn in H. injection H as _ <-. intros x Hx He Hs. exact (Hinv x Hx He Hs).
  - cbn [process_all] in H. apply bind_inv in H as [[e [H _]] | [a [s1 [H1 H]]]].
    + destruct (process_participant_spec _ _ _ _ _ _ _ _ _ _ _ _ _ _ _ _ _ _ _ H)
        as [d [g [Hr _]]]. discriminate.
    + destruct (process_participant_spec _ _ _ _ _ _ _ _ _ _ _ _ _ _ _ _ _ _ _ H1)
        as [d [g [_ [_ [_ [Hst [Hg [Hx Hp]]]]]]]].
      assert (Hn1 : NoDup (map p_id (st_participants s1))).
      { rewrite Hp, map_update_first; [exact Hn|]. intros x _. apply Hg. }
      refine (IH a s1 s' r Hn1 _ H).
      intros x Hx1 He Hs. rewrite Hp in Hx1.
      destruct (in_update_first_nodup _ _ _ _ Hn Hx1) as [[Hx0 Hne]|[y [_ ->]]].
      * destruct (Hinv x Hx0 He Hs) as [E|Hi]; [congruence|exact Hi].
      * exfalso. destruct (Hx y) as [Hs' _]. rewrite Hs' in Hs.
        destruct Hst as [[S _]|[[S _]|[S _]]]; congruence.
Qed.

(** X5: After a dispatch run past its checks, [get_results] finds the event with
    no participant pending and the event's status is completed exactly when
    the run had no failure. *)
Theorem dispatch_leaves_none_pending (event_id : string) (send_all : bool) (uid : string)
    (s : state) (settings : email_settings) (oid : string) (ev : event) (tp pw : string)
    (r : res send_results) (s' : state) :
  option_bind (find_first (fun u => String.eqb (u_id u) uid) (st_users s))
    u_email_settings = Some settings ->
  ObjectId event_id = Ok oid ->
  owned_event oid uid (st_events s) = Some ev ->
  ev_template_path ev = Some tp -> tp <> EmptyString ->
  decrypt_app_password (es_app_password_encrypted settings) = Ok pw ->
  NoDup (map p_id (st_participants s)) ->
  NoDup (map ev_id (st_events s)) ->
  send_certificates_ event_id send_all uid s = (r, s') ->
  exists out sum ev',
    r = Ok out /\
    get_results event_id uid s' = (Ok sum, s') /\
    stat_pending (sum_statistics sum) = 0 /\
    owned_event oid uid (st_events s') = Some ev' /\
    ev_status ev' = (if Nat.eqb (r_failed out) 0 then Completed else Sending).
Proof.
  intros Hu Ho0 He Ht Htp Hd Hnd Hne H.
  unfold send_certificates in H. rewrite bind_gets in H. cbv beta in H. rewrite Hu in H.
  cbv iota in H. rewrite bind_liftr, Ho0 in H. cbv beta iota in H.
  rewrite bind_gets in H. cbv beta in H.
  rewrite He in H. cbv iota in H. rewrite Ht in H.
  destruct tp as [|c tp']; [contradiction|]. cbv iota zeta in H.
  unfold liftr at 1 in H. unfold bind at 1 in H. rewrite Hd in H.
  rewrite bind_gets in H. cbv beta in H.
  set (sel := select_participants event_id send_all (st_participants s)) in *.
  assert (Hnd' : NoDup (map p_id sel)) by (apply NoDup_map_filter; exact Hnd).
  assert (Hin : forall p, In p sel ->
             exists y, participant_by_id (p_id p) (st_participants s) = Some y).
  { intros p Hp. apply participant_by_id_in. apply filter_In in Hp. apply Hp. }
  assert (Hinv : forall x, In x (st_participants s) -> p_event_id x = event_id ->
                   p_status x = Pending -> In (p_id x) (map p_id sel)).
  { intros x Hx Hxe Hxs. apply in_map. apply filter_In. split; [exact Hx|].
    rewrite Hxe, String.eqb_refl, Hxs. destruct send_all; reflexivity. }
  apply bind_inv in H as [[e [H _]] | [out [s1 [H1 H]]]].
  - destruct (process_all_spec _ _ _ _ _ _ _ _ _ _ _ _ _ _ _ _ _ _ _ Hnd' Hin H)
      as [out [ds [Hr _]]]. discriminate.
  - pose proof (process_all_no_pending _ _ _ _ event_id _ _ _ _ _ Hnd Hinv H1) as Np.
    pose proof (keeps_events_process_all _ _ _ _ _ _ _ _ _ _ eq_refl H1) as Ev.
    rewrite bind_modify in H. unfold ret in H. injection H as <- <-.
    set (st := if Nat.eqb (r_failed out) 0 then Completed else Sending).
    set (upd := fun e : event =>
                  mkEvent (ev_id e) (ev_user_id e) (ev_name e) (ev_template_path e)
                    (ev_template_format e) (ev_text_settings e) (ev_feedback_enabled e)
                    (ev_email_subject e) (ev_email_body e) (ev_feedback_email_subject e)
                    (ev_feedback_email_body e) st).
    assert (Ho : owned_event oid uid (st_events (set_event_status oid st s1)) =
                 Some (upd ev)).
    { unfold set_event_status. cbn [st_events set_events]. rewrite Ev.
      apply owned_event_update; [exact Hne| |exact He]. intros e; split; reflexivity. }
    exists out, (mkSummary (ev_name (upd ev)) (ev_feedback_enabled (upd ev))
      (mkStatistics
         (count_documents (fun p => String.eqb (p_event_id p) event_id) (st_participants s1))
         (count_documents (event_status_query event_id Pending) (st_participants s1))
         (count_documents (event_status_query event_id FeedbackSent) (st_participants s1))
         (count_documents (event_status_query event_id FeedbackReceived) (st_participants s1))
         (count_documents (event_status_query event_id CertificateSent) (st_participants s1))
         (count_documents (event_status_query event_id Failed) (st_participants s1)))),
      (upd ev).
    split; [reflexivity|]. split.
    { unfold get_results. rewrite bind_liftr, Ho0. rewrite bind_gets. cbv beta. rewrite Ho.
      reflexivity. }
    split; [|split; [exact Ho | reflexivity]].
    cbn [sum_statistics stat_pending]. apply count_zero. intros x Hx.
    unfold event_status_query. destruct (p_event_id x =? event_id) eqn:E; [|reflexivity].
    apply String.eqb_eq in E. cbn.
    destruct (p_status x) eqn:S; try reflexivity. exfalso. exact (Np x Hx E S).
Qed.

Lemma keeps_events_submit_feedback (c : list event) (token : string) (answers : list answer) :
  keeps (fun x => st_events x = c) (submit_feedback_ token answers).
Proof.
  unfold submit_feedback. keeps_tac.
  all: try (apply keeps_render_and_send; [split; intros; assumption | intros ? ? H; exact H]).
  all: try (cbn; assumption).
Qed.

Lemma keeps_profiles_submit_feedback (c : list (string * string * string)) (token : string)
    (answers : list answer) :
  keeps (fun x => map (fun q => (p_id q, p_name q, p_email q)) (st_participants x) = c)
    (submit_feedback_ token answers).
Proof.
  unfold submit_feedback. keeps_tac.
  all: try (apply keeps_render_and_send; [split; intros; assumption | intros ? ? H; exact H]).
  all: try (cbn; assumption).
  all: cbn; rewrite map_update_first; [assumption | intros; reflexivity].
Qed.

Lemma rows_width (anonymous : bool) (qs : list question) (ps : list participant) :
  forall n fbs, Forall (fun row => List.length row = List.length (feedback_header anonymous qs))
                  (feedback_rows show_time anonymous qs ps n fbs).
Proof.
  intros n fbs. revert n. induction fbs as [|fb fbs IH]; intros n; cbn; [constructor|].
  unfold feedback_header, answer_cells.
  destruct anonymous.
  - constructor; [|apply IH]. cbn. rewrite !length_map. reflexivity.
  - destruct (participant_by_id _ ps); [|apply IH].
    constructor; [|apply IH]. cbn. rewrite !length_map. reflexivity.
Qed.

(** X8: [download_feedback] only reads. An event id that is not a valid
    ObjectId makes [ObjectId(event_id)] raise [InvalidId] (a 500); an event
    that is not the caller's is refused with 404; otherwise the first row is
    the header and every row has as many cells as the header. *)
Theorem feedback_export_rectangular (event_id : string) (anonymous : bool) (uid : string)
    (s s' : state) (r : res (string * list (list string))) :
  download_feedback_ event_id anonymous uid s = (r, s') ->
  s' = s /\
  ((ObjectId event_id = Raise (invalid_id event_id) /\ r = Raise (invalid_id event_id)) \/
   (exists oid, ObjectId event_id = Ok oid /\
    ((owned_event oid uid (st_events s) = None /\
      r = Raise (HTTPException 404 "Event not found")) \/
     (exists ev fname rows,
        owned_event oid uid (st_events s) = Some ev /\
        r = Ok (fname, feedback_header anonymous (event_questions ev) :: rows) /\
        Forall (fun row => List.length row =
                           List.length (feedback_header anonymous (event_questions ev))) rows)))).
Proof.
  unfold download_feedback. rewrite bind_liftr.
  destruct (ObjectId event_id) as [oid|e] eqn:O.
  - rewrite bind_gets. cbv beta.
    destruct (owned_event oid uid (st_events s)) as [ev|] eqn:E.
    + intros H. unfold gets, ret, bind in H. cbv zeta in H. injection H as <- <-.
      split; [reflexivity|]. right. exists oid. split; [reflexivity|].
      right. do 3 eexists. split; [exact E|].
      split; [reflexivity|]. apply rows_width.
    + intros H. injection H as <- <-. split; [reflexivity|]. right. exists oid.
      split; [reflexivity|]. left. split; [exact E|reflexivity].
  - intros H. injection H as <- <-. split; [reflexivity|]. left.
    pose proof (ObjectId_error event_id e O) as ->. auto.
Qed.

Lemma anonymous_rows_numbered (qs : list question) (ps ps' : list participant) :
  forall n fbs,
  feedback_rows show_time true qs ps n fbs = feedback_rows show_time true qs ps' n fbs /\
  map (hd "") (feedback_rows show_time true qs ps n fbs) =
    map (fun i => "Response " +++ nat_to_string i) (seq n (List.length fbs)).
Proof.
  intros n fbs. revert n. induction fbs as [|fb fbs IH]; intros n;
    cbn [feedback_rows List.length seq map hd]; [auto|].
  destruct (IH (S n)) as [E1 E2].
  split; [rewrite E1; reflexivity | cbn [map hd]; rewrite E2; reflexivity].
Qed.

(** X9: The anonymous export does not read the participants collection: it is
    the same whatever the participants are, and its rows are numbered
    [Response 1], [Response 2], ... up to the number of submitted feedback
    records of the event. *)
Theorem anonymous_export_numbered (event_id uid : string) (s : state)
    (ps : list participant) :
  fst (download_feedback_ event_id true uid s) =
    fst (download_feedback_ event_id true uid (set_participants ps s)) /\
  forall fname rows,
    fst (download_feedback_ event_id true uid s) = Ok (fname, rows) ->
    fname = "feedback_anonymous_" +++ event_id +++ ".csv" /\
    map (hd "") (tl rows) =
      map (fun i => "Response " +++ nat_to_string i)
        (seq 1 (List.length (filter (submitted_of_event event_id) (st_feedback s)))).
Proof.
  unfold download_feedback. rewrite !bind_liftr.
  destruct (ObjectId event_id) as [oid|e];
    [|split; [reflexivity|intros ? ? H; discriminate H]].
  rewrite !bind_gets. cbv beta. cbn [st_events set_participants].
  destruct (owned_event oid uid (st_events s)) as [ev|]; [|split; [reflexivity|discriminate]].
  unfold gets, ret, bind. cbv zeta. cbn [fst st_feedback st_participants].
  destruct (anonymous_rows_numbered (event_questions ev) (st_participants s) ps 1
              (filter (submitted_of_event event_id) (st_feedback s))) as [E1 E2].
  split; [rewrite E1; reflexivity|].
  intros fname rows H. injection H as <- <-. split; [reflexivity|]. exact E2.
Qed.

Lemma named_rows_iff (qs : list question) (ps : list participant) :
  forall n fbs row,
  In row (feedback_rows show_time false qs ps n fbs) <->
  exists fb p, In fb fbs /\ participant_by_id (fb_participant_id fb) ps = Some p /\
    row = [p_name p; p_email p; submitted_cell show_time fb] ++ answer_cells qs fb.
Proof.
  intros n fbs. revert n. induction fbs as [|fb fbs IH]; intros n row; cbn.
  - split; [contradiction|]. intros (fb & p & [] & _).
  - destruct (participant_by_id (fb_participant_id fb) ps) as [p|] eqn:Ep.
    + cbn. rewrite IH. split.
      * intros [<-|(fb' & p' & Hin & Hp & ->)]; [exists fb, p; auto|].
        exists fb', p'. auto.
      * intros (fb' & p' & [<-|Hin] & Hp & ->).
        -- left. rewrite Ep in Hp. injection Hp as <-. reflexivity.
        -- right. exists fb', p'. auto.
    + rewrite IH. split.
      * intros (fb' & p' & Hin & Hp & ->). exists fb', p'. auto.
      * intros (fb' & p' & [<-|Hin] & Hp & ->); [congruence|]. exists fb', p'. auto.
Qed.

(** X10: The named export has one row per submitted feedback record of the
    event whose participant still exists, and nothing else: the row holds
    that participant's name and email, the submission time and the answers. *)
Theorem named_export_rows (event_id uid fname : string) (s s' : state)
    (header : list string) (rows : list (list string)) :
  download_feedback_ event_id false uid s = (Ok (fname, header :: rows), s') ->
  exists oid ev, ObjectId event_id = Ok oid /\ owned_event oid uid (st_events s) = Some ev /\
  forall row, In row rows <->
    exists fb p, In fb (st_feedback s) /\ fb_event_id fb = event_id /\
      fb_submitted_at fb <> None /\
      participant_by_id (fb_participant_id fb) (st_participants s) = Some p /\
      row = [p_name p; p_email p; submitted_cell show_time fb] ++
            answer_cells (event_questions ev) fb.
Proof.
  unfold download_feedback. rewrite bind_liftr.
  destruct (ObjectId event_id) as [oid|e]; [|discriminate].
  rewrite bind_gets. cbv beta.
  destruct (owned_event oid uid (st_events s)) as [ev|] eqn:Eo; [|discriminate].
  unfold gets, ret, bind. cbv zeta. intros H. injection H as <- _ <-.
  exists oid, ev. split; [reflexivity|]. split; [exact Eo|]. intros row. rewrite named_rows_iff. split.
  - intros (fb & p & Hin & Hp & ->). apply filter_In in Hin as [Hin Hf].
    unfold submitted_of_event in Hf. apply andb_true_iff in Hf as [He Hsub].
    apply String.eqb_eq in He. exists fb, p. repeat split; auto.
    destruct (fb_submitted_at fb); [discriminate|discriminate].
  - intros (fb & p & Hin & He & Hsub & Hp & ->). exists fb, p. split; [|auto].
    apply filter_In. split; [exact Hin|]. unfold submitted_of_event.
    rewrite He, String.eqb_refl. destruct (fb_submitted_at fb); [reflexivity|congruence].
Qed.

Lemma assoc_dict_set (q k v : string) (d : list (string * string)) :
  assoc q (dict_set k v d) = if String.eqb q k then Some v else assoc q d.
Proof.
  induction d as [|[k' v'] d IH]; cbn; [reflexivity|].
  destruct (k =? k') eqn:E; cbn.
  - apply String.eqb_eq in E. subst k'. destruct (q =? k); reflexivity.
  - rewrite IH. destruct (q =? k') eqn:E1, (q =? k) eqn:E2; try reflexivity.
    apply String.eqb_eq in E1, E2. subst. rewrite String.eqb_refl in E. discriminate.
Qed.

Lemma find_first_snoc {A} (P : A -> bool) (l : list A) (a : A) :
  find_first P (l ++ [a]) =
  match find_first P l with Some x => Some x | None => if P a then Some a else None end.
Proof.
  induction l as [|x l IH]; cbn; [destruct (P a); reflexivity|].
  destruct (P x); [reflexivity|exact IH].
Qed.

Lemma assoc_answers_fold (q : string) (answers : list answer) :
  forall d, assoc q (fold_left (fun d a => dict_set (question_id a) (answer_text a) d)
                       answers d) =
  match find_first (fun a => String.eqb (question_id a) q) (rev answers) with
  | Some a => Some (answer_text a)
  | None => assoc q d
  end.
Proof.
  induction answers as [|a answers IH]; intros d; [reflexivity|].
  cbn [fold_left rev]. rewrite IH, find_first_snoc.
  destruct (find_first _ (rev answers)); [reflexivity|].
  rewrite assoc_dict_set, (String.eqb_sym q (question_id a)).
  destruct (question_id a =? q); reflexivity.
Qed.

(** X11: Each answer cell of the export is the answer to that question given
    last in the submission (a later answer to the same question overrides
    an earlier one), or the empty string when there is none. *)
Theorem export_answer_cells (qs : list question) (fb : feedback) :
  answer_cells qs fb =
  map (fun q => match find_first (fun a => String.eqb (question_id a) (q_id q))
                        (rev (fb_answers fb)) with
                | Some a => answer_text a
                | None => ""
                end) qs.
Proof.
  unfold answer_cells. apply map_ext. intros q. unfold dict_get_or_empty, answers_map.
  rewrite assoc_answers_fold. destruct (find_first _ _); reflexivity.
Qed.

Lemma owned_event_of_first (event_id : string) (l : list event) (ev : event) :
  find_first (fun e => String.eqb (ev_id e) event_id) l = Some ev ->
  owned_event event_id (ev_user_id ev) l = Some ev.
Proof.
  unfold owned_event. induction l as [|x l IH]; cbn; [discriminate|].
  destruct (ev_id x =? event_id); cbn.
  - intros H. injection H as <-. rewrite String.eqb_refl. reflexivity.
  - exact IH.
Qed.

(** X12: A redemption that passes its lookups puts a row in the owner's named
    export: the participant's name and email, the submission time and the
    submitted answers, whatever happened to the certificate. *)
Theorem redemption_in_named_export (token : string) (answers : list answer) (s : state)
    (f : feedback) (p : participant) (ev : event) (settings : email_settings)
    (r : res string) (s' : state) :
  feedback_by_token token (st_feedback s) = Some f ->
  fb_submitted_at f = None ->
  participant_by_id (fb_participant_id f) (st_participants s) = Some p ->
  find_first (fun e => String.eqb (ev_id e) (fb_event_id f)) (st_events s) = Some ev ->
  ObjectId (fb_event_id f) = Ok (fb_event_id f) ->
  option_bind (find_first (fun u => String.eqb (u_id u) (ev_user_id ev)) (st_users s))
    u_email_settings = Some settings ->
  submit_feedback_ token answers s = (r, s') ->
  exists fname rows,
    download_feedback_ (fb_event_id f) false (ev_user_id ev) s' =
      (Ok (fname, feedback_header false (event_questions ev) :: rows), s') /\
    In ([p_name p; p_email p; show_time (st_clock s)] ++
        answer_cells (event_questions ev) (with_submission answers (st_clock s) f)) rows.
Proof.
  intros Hf Hu Hp He HO Hs H.
  destruct (submit_feedback_run font_parses fetch_ok fetch_leaves_file image_open
              convert_from_path textbbox py_int16 writable smtp_error decrypt_app_password
              token answers s f p ev settings Hf Hp He Hs r s' Hu H) as [F _].
  pose proof (keeps_events_submit_feedback _ _ _ _ _ _ eq_refl H) as Ev.
  pose proof (keeps_profiles_submit_feedback _ _ _ _ _ _ eq_refl H) as Pr.
  destruct (profiles_lookup _ _ _ _ Pr Hp) as [p' [Hp' [Hn Hm]]].
  pose proof (owned_event_of_first _ _ _ He) as Ho. cbn beta in Ev. rewrite <- Ev in Ho.
  unfold download_feedback. rewrite bind_liftr, HO. cbv beta iota.
  rewrite bind_gets. cbv beta. rewrite Ho.
  unfold gets, ret, bind. cbv zeta. do 2 eexists. split; [reflexivity|].
  apply named_rows_iff. exists (with_submission answers (st_clock s) f), p'.
  split.
  - apply filter_In. split; [exact (find_first_in _ _ _ F)|].
    unfold submitted_of_event. cbn. rewrite String.eqb_refl. reflexivity.
  - split; [exact Hp'|]. rewrite Hn, Hm. reflexivity.
Qed.

Lemma process_all_ok (ev : event) (event_id sender pw : string) (ps : list participant) :
  forall acc s, exists out s', process_all_ ev event_id sender pw ps acc s = (Ok out, s').
Proof.
  induction ps as [|p ps IH]; intros acc s; cbn [process_all].
  - do 2 eexists. reflexivity.
  - unfold bind. destruct (process_participant_ ev event_id sender pw p acc s) as [r s1] eqn:E.
    apply process_participant_spec in E as (d & g & -> & _). apply IH.
Qed.

(** X6: A refused [send_certificates] has no effect at all: it fails only at one
    of its checks (no email settings, an event id that is not a valid
    ObjectId, not the caller's event, no template, a password that does not
    decrypt), before any mail or status change. *)
Theorem refused_send_changes_nothing (event_id : string) (send_all : bool) (uid : string)
    (s s' : state) (e : exn) :
  send_certificates_ event_id send_all uid s = (Raise e, s') ->
  s' = s /\
  (e = HTTPException 400 "Email settings not configured" \/
   (ObjectId event_id = Raise e /\ e = invalid_id event_id) \/
   e = HTTPException 404 "Event not found" \/
   e = HTTPException 400 "No template uploaded" \/
   exists settings,
     option_bind (find_first (fun u => String.eqb (u_id u) uid) (st_users s))
       u_email_settings = Some settings /\
     decrypt_app_password (es_app_password_encrypted settings) = Raise e).
Proof.
  unfold send_certificates, bind, gets, raise, liftr.
  destruct (option_bind (find_first (fun u => String.eqb (u_id u) uid) (st_users s))
              u_email_settings) as [settings|] eqn:Hu;
    [|intros H; injection H as <- <-; split; [reflexivity|left; reflexivity]].
  destruct (ObjectId event_id) as [oid|e0] eqn:HO;
    [|intros H; injection H as <- <-; split; [reflexivity|right; left];
      split; [reflexivity|exact (ObjectId_error _ _ HO)]].
  destruct (owned_event oid uid (st_events s)) as [ev|];
    [|intros H; injection H as <- <-; split; [reflexivity|right; right; left; reflexivity]].
  destruct (ev_template_path ev) as [[|c tp]|];
    try (intros H; injection H as <- <-; split;
         [reflexivity|right; right; right; left; reflexivity]).
  destruct (decrypt_app_password (es_app_password_encrypted settings)) as [pw|e1] eqn:Hd.
  - destruct (process_all_ ev event_id (es_email settings) pw
                (select_participants event_id send_all (st_participants s))
                (mkResults 0 0 0 []) s) as [r1 s1] eqn:Hp.
    destruct (process_all_ok ev event_id (es_email settings) pw
                (select_participants event_id send_all (st_participants s))
                (mkResults 0 0 0 []) s) as (out & s2 & Hp').
    rewrite Hp' in Hp. injection Hp as <- <-. unfold modify, ret. discriminate.
  - intros H; injection H as <- <-. split; [reflexivity|].
    right; right; right; right. exists settings. split; [reflexivity|exact Hd].
Qed.


End ViewProofs.

Section TemplateProofs.
Variable image_open : string -> res image.
Variable convert_from_path : string -> Z -> res (list image).
Variable writable : string -> bool.

Local Abbreviation process_template_ := (process_template image_open convert_from_path writable).
Local Abbreviation upload_template_ := (upload_template image_open convert_from_path writable).

Lemma existsb_unlinked_files (fp : string) (l : list string) :
  existsb (String.eqb fp) (filter (fun q => negb (fp =? q)) l) = false.
Proof.
  induction l as [|q l IH]; cbn; [reflexivity|].
  destruct (fp =? q) eqn:E; cbn; [exact IH|rewrite E; exact IH].
Qed.

Lemma existsb_unlinked_out (fp : string) (l : list (string * artifact)) :
  existsb (fun '(q, _) => fp =? q) (filter (fun '(q, _) => negb (fp =? q)) l) = false.
Proof.
  induction l as [|[q a] l IH]; cbn; [reflexivity|].
  destruct (fp =? q) eqn:E; cbn; [exact IH|rewrite E; exact IH].
Qed.

Ltac upload_failed_tail :=
  match goal with H : _ = (_, _) |- _ => injection H as <- <- end;
  eexists; split; [reflexivity|];
  split; [cbn -[nat_to_string]; rewrite ?existsb_unlinked_files, ?existsb_unlinked_out;
          try match goal with E : _ = false |- _ => rewrite E end; reflexivity|];
  split; [reflexivity|]; split; reflexivity.

Ltac upload_failed :=
  intros H; right; cbn -[nat_to_string] in H;
  repeat (rewrite String.eqb_refl in H; cbn -[nat_to_string] in H);
  lazymatch type of H with
  | context [if ?b then _ else _] => destruct b eqn:?; cbn -[nat_to_string] in H
  | _ => idtac
  end;
  upload_failed_tail.

Lemma process_template_cases (filename sid : string) (s s' : state) (r : res template_info) :
  process_template_ filename sid s = (r, s') ->
  (exists img,
      load_template image_open convert_from_path (upload_path sid filename)
        (template_format_of filename) 150 s = (Ok img, s) /\
      writable (STATIC_DIR +++ "/" +++ sid +++ "_preview.png") = true /\
      r = Ok (mkTemplateInfo (upload_path sid filename) (template_format_of filename)
                (im_width img) (im_height img)
                ("/static/" +++ sid +++ "_preview.png?t=" +++ nat_to_string (st_clock s))) /\
      s' = tick (set_out ((STATIC_DIR +++ "/" +++ sid +++ "_preview.png", PngFile img)
                          :: st_out s)
                  (set_files (upload_path sid filename :: st_files s) s))) \/
  (exists e, r = Raise e /\
      path_exists (upload_path sid filename) s' = (Ok false, s') /\
      st_events s' = st_events s /\ st_participants s' = st_participants s /\
      st_feedback s' = st_feedback s).
Proof.
  unfold process_template, load_template, upload_path, template_format_of.
  unfold try_except, bind, write_upload, path_exists, unlink, gets, modify, ret, raise,
    liftr, save_png, write_file, utcnow.
  set (fp := UPLOAD_DIR +++ "/" +++ sid +++ "_template_" +++ filename).
  set (pp := STATIC_DIR +++ "/" +++ sid +++ "_preview.png").
  clearbody fp pp.
  destruct (writable fp) eqn:Wf.
  - destruct (py_endswith (py_lower filename) ".pdf"); cbn -[nat_to_string].
    + destruct (convert_from_path fp 150) as [[|img rest]|e]; cbn -[nat_to_string].
      * upload_failed.
      * destruct (writable pp) eqn:Wp; [|upload_failed].
        intros H; cbn -[nat_to_string] in H; injection H as <- <-; left; exists img.
        split; [reflexivity|]; split; [reflexivity|]; split; reflexivity.
      * upload_failed.
    + destruct (image_open fp) as [img|e]; [|upload_failed].
      destruct (writable pp) eqn:Wp; [|upload_failed].
      intros H; cbn -[nat_to_string] in H; injection H as <- <-; left; exists img.
      split; [reflexivity|]; split; [reflexivity|]; split; reflexivity.
  - upload_failed.
Qed.
(** X14: A failed template upload changes no event, participant or feedback
    record: it is refused unchanged ([InvalidId], a 500, for an event id that
    is not a valid ObjectId; 404 for an event that is not the caller's; 400
    for an unsupported extension), or the uploaded file is removed again. *)
Theorem upload_rejected_or_cleaned (event_id filename uid : string) (s s' : state) (e : exn) :
  upload_template_ event_id filename uid s = (Raise e, s') ->
  st_events s' = st_events s /\ st_participants s' = st_participants s /\
  st_feedback s' = st_feedback s /\
  ((ObjectId event_id = Raise e /\ e = invalid_id event_id /\ s' = s) \/
   (exists oid, ObjectId event_id = Ok oid /\
    ((owned_event oid uid (st_events s) = None /\
      e = HTTPException 404 "Event not found" /\ s' = s) \/
     (owned_event oid uid (st_events s) <> None /\
      existsb (py_endswith (py_lower filename)) allowed_extensions = false /\
      e = HTTPException 400 "Only PNG, JPG, and PDF files are supported" /\ s' = s) \/
     (owned_event oid uid (st_events s) <> None /\
      existsb (py_endswith (py_lower filename)) allowed_extensions = true /\
      path_exists (upload_path event_id filename) s' = (Ok false, s'))))).
Proof.
  unfold upload_template, bind, gets, liftr.
  destruct (ObjectId event_id) as [oid|e0] eqn:HO.
  2:{ intros H. injection H as <- <-. split; [reflexivity|]; split; [reflexivity|].
      split; [reflexivity|]. left. split; [reflexivity|].
      split; [exact (ObjectId_error _ _ HO)|reflexivity]. }
  cbv beta iota.
  destruct (owned_event oid uid (st_events s)) as [ev|] eqn:Eo.
  - destruct (existsb (py_endswith (py_lower filename)) allowed_extensions) eqn:Ex; cbn [negb].
    + destruct (process_template_ filename event_id s) as [r1 s1] eqn:Ep.
      destruct (process_template_cases _ _ _ _ _ Ep) as
        [(img & _ & _ & -> & ->)|(e1 & -> & Hx & He & Hp & Hf)].
      * unfold utcnow, modify, ret. discriminate.
      * intros H. injection H as <- <-.
        split; [exact He|]; split; [exact Hp|]; split; [exact Hf|].
        right. exists oid. split; [reflexivity|].
        right; right. split; [rewrite Eo; discriminate|]. split; [reflexivity|exact Hx].
    + intros H. injection H as <- <-. split; [reflexivity|]; split; [reflexivity|].
      split; [reflexivity|]. right. exists oid. split; [reflexivity|].
      right; left. split; [rewrite Eo; discriminate|]. auto.
  - intros H. injection H as <- <-. split; [reflexivity|]; split; [reflexivity|].
    split; [reflexivity|]. right. exists oid. split; [reflexivity|]. left. split; [exact Eo|auto].
Qed.

(** X15: A successful template upload stores the upload path and format on the
    event and sets the text's vertical position to half the height of the
    image loaded at 150 dpi (for a PDF, its first page); the file is kept and
    the preview written. *)
Theorem upload_sets_template (event_id filename uid : string) (s s' : state)
    (url : string) (w h : Z) :
  NoDup (map ev_id (st_events s)) ->
  upload_template_ event_id filename uid s = (Ok (url, w, h), s') ->
  exists oid ev img,
    ObjectId event_id = Ok oid /\
    owned_event oid uid (st_events s) = Some ev /\
    existsb (py_endswith (py_lower filename)) allowed_extensions = true /\
    load_template image_open convert_from_path (upload_path event_id filename)
      (template_format_of filename) 150 s = (Ok img, s) /\
    w = im_width img /\ h = im_height img /\
    url = "/static/" +++ event_id +++ "_preview.png?t=" +++ nat_to_string (st_clock s) /\
    owned_event oid uid (st_events s') =
      Some (with_template (upload_path event_id filename) (template_format_of filename) h ev) /\
    path_exists (upload_path event_id filename) s' = (Ok true, s') /\
    lookup_file (STATIC_DIR +++ "/" +++ event_id +++ "_preview.png") (st_out s') =
      Some (PngFile img).
Proof.
  intros Hn. unfold upload_template, bind, gets, liftr.
  destruct (ObjectId event_id) as [oid|e0] eqn:HO; [|discriminate]. cbv beta iota.
  destruct (owned_event oid uid (st_events s)) as [ev|] eqn:Eo; [|discriminate].
  destruct (existsb (py_endswith (py_lower filename)) allowed_extensions) eqn:Ex;
    cbn [negb]; [|discriminate].
  destruct (process_template_ filename event_id s) as [r1 s1] eqn:Ep.
  destruct (process_template_cases _ _ _ _ _ Ep) as
    [(img & Hl & Hw & -> & ->)|(e1 & -> & _)]; [|discriminate].
  unfold utcnow, modify, ret. cbn -[nat_to_string]. intros H. injection H as <- <- <- <-.
  exists oid, ev, img. split; [reflexivity|]. split; [exact Eo|].
  split; [reflexivity|]. split; [exact Hl|].
  split; [reflexivity|]. split; [reflexivity|]. split; [reflexivity|].
  split; [|split].
  - unfold set_template. cbn [st_events set_events tick set_out set_files].
    apply owned_event_update; [exact Hn| |exact Eo]. intros e. split; reflexivity.
  - unfold path_exists, gets. cbn [st_files set_template set_events tick set_out set_files].
    cbn [existsb]. rewrite String.eqb_refl. reflexivity.
  - cbn [st_out set_template set_events tick set_out set_files lookup_file].
    rewrite String.eqb_refl. reflexivity.
Qed.

End TemplateProofs.

Section ResultsExport.
Variable show_time : nat -> string.

Local Abbreviation by_name := (fun a b : participant => String.leb (p_name a) (p_name b) = true).

Lemma insert_by_name_perm (p : participant) (l : list participant) :
  Permutation (insert_by_name p l) (p :: l).
Proof.
  induction l as [|q l IH]; cbn; [reflexivity|].
  destruct (String.leb (p_name p) (p_name q)); [reflexivity|].
  etransitivity; [apply perm_skip, IH|apply perm_swap].
Qed.

Lemma sort_by_name_perm (l : list participant) : Permutation (sort_by_name l) l.
Proof.
  unfold sort_by_name. induction l as [|p l IH]; cbn; [reflexivity|].
  rewrite insert_by_name_perm. apply perm_skip, IH.
Qed.

Lemma leb_flip (a b : string) : String.leb a b = false -> String.leb b a = true.
Proof. intros H. destruct (String.leb_total a b) as [H'|H']; congruence. Qed.

Lemma insert_by_name_sorted (p : participant) (l : list participant) :
  Sorted by_name l -> Sorted by_name (insert_by_name p l).
Proof.
  induction l as [|q l IH]; intros H; cbn.
  - repeat constructor.
  - destruct (String.leb (p_name p) (p_name q)) eqn:E.
    + constructor; [exact H|constructor; exact E].
    + apply Sorted_inv in H as [Hl Hq]. constructor; [apply IH, Hl|].
      destruct l as [|q' l']; cbn.
      * constructor. apply leb_flip, E.
      * destruct (String.leb (p_name p) (p_name q')); constructor;
          [apply leb_flip, E|inversion Hq; assumption].
Qed.

Lemma sort_by_name_sorted (l : list participant) : Sorted by_name (sort_by_name l).
Proof.
  unfold sort_by_name. induction l as [|p l IH]; cbn; [constructor|].
  apply insert_by_name_sorted, IH.
Qed.

(** X13: [download_results] only reads. An event id that is not a valid
    ObjectId makes [ObjectId(event_id)] raise [InvalidId] (a 500); an event
    that is not the caller's is refused with 404; otherwise it has one row per
    participant of the event, in ascending order of name, as many as the
    total of [get_results]. *)
Theorem results_export_sorted (event_id uid : string) (s s' : state)
    (r : res (string * list (list string))) :
  download_results show_time event_id uid s = (r, s') ->
  s' = s /\
  ((ObjectId event_id = Raise (invalid_id event_id) /\ r = Raise (invalid_id event_id)) \/
   (exists oid, ObjectId event_id = Ok oid /\
    ((owned_event oid uid (st_events s) = None /\
      r = Raise (HTTPException 404 "Event not found")) \/
     exists ev ps sum,
       owned_event oid uid (st_events s) = Some ev /\
       r = Ok ("results_" +++ event_id +++ ".csv",
               ["Name"; "Email"; "Status"; "Feedback Submitted"; "Certificate Sent"; "Error"]
                 :: map (results_row show_time) ps) /\
       Permutation ps (filter (fun p => String.eqb (p_event_id p) event_id) (st_participants s)) /\
       Sorted (fun a b => String.leb (p_name a) (p_name b) = true) ps /\
       get_results event_id uid s = (Ok sum, s) /\
       List.length ps = stat_total (sum_statistics sum)))).
Proof.
  unfold download_results, bind, gets, ret, raise, liftr.
  destruct (ObjectId event_id) as [oid|e0] eqn:HO.
  2:{ intros H. injection H as <- <-. split; [reflexivity|]. left.
      rewrite (ObjectId_error _ _ HO). auto. }
  destruct (owned_event oid uid (st_events s)) as [ev|] eqn:Eo;
    intros H; injection H as <- <-; split; try reflexivity; right; exists oid;
    (split; [reflexivity|]).
  - right. do 3 eexists. split; [exact Eo|]. split; [reflexivity|].
    split; [apply sort_by_name_perm|]. split; [apply sort_by_name_sorted|].
    split.
    + unfold get_results, bind, gets, ret, liftr. rewrite HO, Eo. reflexivity.
    + cbn. unfold count_documents. apply Permutation_length, sort_by_name_perm.
  - left. auto.
Qed.

End ResultsExport.

Lemma substring_prefix (h : string) :
  forall i n m, i + n <= m -> String.substring i n (String.substring 0 m h) =
                               String.substring i n h.
Proof.
  induction h as [|c t IH]; intros i n m Hle.
  - destruct m; reflexivity.
  - destruct m as [|m].
    + assert (i = 0) as -> by lia. assert (n = 0) as -> by lia. reflexivity.
    + destruct i as [|i].
      * destruct n as [|n]; [reflexivity|]. cbn. f_equal. apply IH. lia.
      * cbn. apply IH. lia.
Qed.

Lemma lstrip_prefix (c : ascii) (h : string) (m : nat) :
  py_lstrip c (String.substring 0 m (py_lstrip c h)) = String.substring 0 m (py_lstrip c h).
Proof.
  induction h as [|c' t IH]; cbn.
  - destruct m; reflexivity.
  - destruct (Ascii.eqb c c') eqn:E; [exact IH|].
    destruct m as [|m]; cbn; [reflexivity|]. rewrite E. reflexivity.
Qed.

Lemma substring_past (h : string) :
  forall i n, String.length h <= i -> String.substring i n h = "".
Proof.
  induction h as [|c t IH]; intros i n Hle.
  - destruct i, n; reflexivity.
  - destruct i as [|i]; cbn in Hle; [lia|]. cbn. apply IH. lia.
Qed.

(** X16: [hex_to_rgb] reads only the first six characters after the leading
    ['#'] characters: anything after them (an alpha channel, say) is ignored. *)
Theorem hex_to_rgb_reads_six (py_int16 : string -> res Z) (c : string) (s : state) :
  hex_to_rgb py_int16 c s =
  hex_to_rgb py_int16 (String.substring 0 6 (py_lstrip "#" c)) s.
Proof.
  unfold hex_to_rgb. rewrite lstrip_prefix. unfold py_slice.
  rewrite !substring_prefix by lia. reflexivity.
Qed.

(** X17: A colour of at most four characters after the ['#'] (the shorthand
    ["#abc"], say) makes [hex_to_rgb] raise, since its blue slice is empty. *)
Theorem hex_to_rgb_short_raises (py_int16 : string -> res Z) (c : string) (s : state)
    (e0 : exn) :
  py_int16 "" = Raise e0 ->
  String.length (py_lstrip "#" c) <= 4 ->
  exists e, hex_to_rgb py_int16 c s = (Raise e, s).
Proof.
  intros He Hl. unfold hex_to_rgb, bind, liftr, ret, py_slice.
  rewrite (substring_past _ 4 2 Hl), He.
  destruct (py_int16 (String.substring 0 2 _)) as [r|e]; [|eexists; reflexivity].
  destruct (py_int16 (String.substring 2 2 _)) as [g|e]; eexists; reflexivity.
Qed.

(** X18: A Google font is fetched at most once: after a download that left a file
    at the font path (complete or partial), every later call returns that path
    without fetching; the first call returns [None] exactly when the file was
    absent and the fetch failed. *)
Theorem google_font_fetched_once (fetch_ok fetch_leaves_file : string -> bool)
    (font_name url url' : string) (s s1 : state) (r : res (option string)) :
  download_google_font fetch_ok fetch_leaves_file font_name url s = (r, s1) ->
  (fetch_ok url = true \/ fetch_leaves_file url = true) ->
  download_google_font fetch_ok fetch_leaves_file font_name url' s1 =
    (Ok (Some (FONTS_DIR +++ "/" +++ py_replace font_name " " "_" +++ ".ttf")), s1) /\
  (r = Ok None <->
   fetch_ok url = false /\
   path_exists (FONTS_DIR +++ "/" +++ py_replace font_name " " "_" +++ ".ttf") s = (Ok false, s)).
Proof.
  unfold download_google_font, bind, path_exists, gets, try_except, urlretrieve, write_file,
    modify, ret, raise, print.
  set (p := FONTS_DIR +++ "/" +++ py_replace font_name " " "_" +++ ".ttf"). clearbody p.
  destruct (existsb (String.eqb p) (st_files s) || existsb (fun '(q, _) => p =? q) (st_out s))
    eqn:Ex.
  - intros H _. injection H as <- <-. rewrite Ex. split; [reflexivity|].
    split; [discriminate|intros [_ H]; discriminate].
  - destruct (fetch_ok url) eqn:Fo.
    + intros H _. injection H as <- <-. cbn. rewrite String.eqb_refl, orb_true_r.
      split; [reflexivity|]. split; [discriminate|intros [H _]; discriminate].
    + destruct (fetch_leaves_file url) eqn:Fl; [|intros _ [H|H]; discriminate].
      intros H _. injection H as <- <-. cbn. rewrite String.eqb_refl, orb_true_r.
      split; [reflexivity|]. split; [intros _; split; reflexivity|reflexivity].
Qed.

Example demo_certificate_runs :
  fst (Demo.certificate "Ada Lovelace" Demo.empty_state) =
  Ok ("output/e1/png/Ada Lovelace.png", "output/e1/pdf/Ada Lovelace.pdf").
Proof. reflexivity. Qed.

Lemma centered_x_final_and_preview_witness :
  exists r st' u st2',
    Demo.certificate "Ada Lovelace" Demo.empty_state = (Ok r, st') /\
    Demo.preview "Ada Lovelace" Demo.empty_state = (Ok u, st2') /\
    (exists cert f b0 b1 b2 b3 y rgb pdf rest,
       load_template Demo.image_open Demo.convert_from_path "uploads/template.png" "image" 300
         Demo.empty_state = (Ok cert, Demo.empty_state) /\
       Demo.textbbox f "Ada Lovelace" = Ok (b0, b1, b2, b3) /\
       st_out st' =
         ("output/e1/pdf/Ada Lovelace.pdf", pdf)
         :: ("output/e1/png/Ada Lovelace.png",
             PngFile (mkImage (im_width cert) (im_height cert)
               (im_texts cert ++ [((im_width cert - (b2 - b0)) / 2, y, "Ada Lovelace", rgb)])))
         :: rest)%Z /\
    (exists img f b0 b1 b2 b3 y rgb rest,
       load_template Demo.image_open Demo.convert_from_path "uploads/template.png" "image" 150
         Demo.empty_state = (Ok img, Demo.empty_state) /\
       Demo.textbbox f "Ada Lovelace" = Ok (b0, b1, b2, b3) /\
       st_out st2' =
         (STATIC_DIR +++ "/" +++ "s1" +++ "_text_preview.png",
          PngFile (mkImage (im_width img) (im_height img)
            (im_texts img ++ [((im_width img - (b2 - b0)) / 2, y, "Ada Lovelace", rgb)])))
         :: rest)%Z.
Proof.
  do 4 eexists. split; [cbv; reflexivity|]. split; [cbv; reflexivity|].
  split.
  - refine (proj1 (centered_x_final_and_preview Demo.font_parses Demo.fetch_ok
      Demo.fetch_leaves_file Demo.image_open Demo.convert_from_path Demo.textbbox
      Demo.py_int16 Demo.writable "uploads/template.png" "image" "Ada Lovelace" 0 500
      "Roboto" 60 "#1a2b3c" "output/e1/png/Ada Lovelace.png" "output/e1/pdf/Ada Lovelace.pdf"
      "s1" Demo.empty_state _ Demo.empty_state Demo.empty_state _ "") _).
    cbv. reflexivity.
  - refine (proj2 (centered_x_final_and_preview Demo.font_parses Demo.fetch_ok
      Demo.fetch_leaves_file Demo.image_open Demo.convert_from_path Demo.textbbox
      Demo.py_int16 Demo.writable "uploads/template.png" "image" "Ada Lovelace" 0 500
      "Roboto" 60 "#1a2b3c" "output/e1/png/Ada Lovelace.png" "output/e1/pdf/Ada Lovelace.pdf"
      "s1" Demo.empty_state Demo.empty_state Demo.empty_state _
      ("output/e1/png/Ada Lovelace.png", "output/e1/pdf/Ada Lovelace.pdf") _) _).
    cbv. reflexivity.
Defined.

Lemma vertical_placement_final_vs_preview_witness :
  exists r st' u st2',
    Demo.certificate "Ada Lovelace" Demo.empty_state = (Ok r, st') /\
    Demo.preview "Ada Lovelace" Demo.empty_state = (Ok u, st2') /\
    (exists cert f b0 b1 b2 b3 x rgb pdf rest,
       load_template Demo.image_open Demo.convert_from_path "uploads/template.png" "image" 300
         Demo.empty_state = (Ok cert, Demo.empty_state) /\
       Demo.textbbox f "Ada Lovelace" = Ok (b0, b1, b2, b3) /\
       st_out st' =
         ("output/e1/pdf/Ada Lovelace.pdf", pdf)
         :: ("output/e1/png/Ada Lovelace.png",
             PngFile (mkImage (im_width cert) (im_height cert)
               (im_texts cert ++ [(x, 500 - (b3 - b1) / 2, "Ada Lovelace", rgb)])))
         :: rest)%Z /\
    (exists img x rgb rest,
       st_out st2' =
         (STATIC_DIR +++ "/" +++ "s1" +++ "_text_preview.png",
          PngFile (mkImage (im_width img) (im_height img)
            (im_texts img ++ [(x, 500, "Ada Lovelace", rgb)])))
         :: rest)%Z.
Proof.
  do 4 eexists. split; [cbv; reflexivity|]. split; [cbv; reflexivity|].
  split.
  - refine (proj1 (vertical_placement_final_vs_preview Demo.font_parses Demo.fetch_ok
      Demo.fetch_leaves_file Demo.image_open Demo.convert_from_path Demo.textbbox
      Demo.py_int16 Demo.writable "uploads/template.png" "image" "Ada Lovelace" 0 500
      "Roboto" 60 "#1a2b3c" "output/e1/png/Ada Lovelace.png" "output/e1/pdf/Ada Lovelace.pdf"
      "s1" Demo.empty_state _ Demo.empty_state Demo.empty_state _ "") _).
    cbv. reflexivity.
  - refine (proj2 (vertical_placement_final_vs_preview Demo.font_parses Demo.fetch_ok
      Demo.fetch_leaves_file Demo.image_open Demo.convert_from_path Demo.textbbox
      Demo.py_int16 Demo.writable "uploads/template.png" "image" "Ada Lovelace" 0 500
      "Roboto" 60 "#1a2b3c" "output/e1/png/Ada Lovelace.png" "output/e1/pdf/Ada Lovelace.pdf"
      "s1" Demo.empty_state Demo.empty_state Demo.empty_state _
      ("output/e1/png/Ada Lovelace.png", "output/e1/pdf/Ada Lovelace.pdf") _) _).
    cbv. reflexivity.
Defined.

(** C8 counterexample: with Pillow's measurement of the empty string (the
    zero box), generating the certificate of the empty name raises nothing:
    it returns both paths and writes a PNG whose only text is the empty
    string, drawn at the centre. *)
Lemma empty_name_certificate_is_written :
  exists st',
    Demo.certificate "" Demo.empty_state =
      (Ok ("output/e1/png/.png", "output/e1/pdf/.pdf"), st') /\
    lookup_file "output/e1/png/.png" (st_out st') =
      Some (PngFile (mkImage 2001 1414 [(1000, 500, "", (26, 43, 60))]))%Z.
Proof. eexists. split; [cbv; reflexivity | reflexivity]. Qed.

Lemma generate_certificate_errors_and_names_witness :
  exists f st1,
    get_font Demo.font_parses Demo.fetch_ok Demo.fetch_leaves_file "Roboto" 60
      Demo.empty_state = (Ok f, st1) /\
    generate_certificate Demo.font_parses Demo.fetch_ok Demo.fetch_leaves_file
      (fun _ => Raise (PyError "cannot identify image file 'uploads/t.png'"))
      Demo.convert_from_path Demo.textbbox Demo.py_int16 Demo.writable
      "uploads/t.png" "image" "" 0 500 "Roboto" 60 "#1a2b3c" "p.png" "p.pdf"
      Demo.empty_state
      = (Raise (PyError "cannot identify image file 'uploads/t.png'"), Demo.empty_state) /\
    (exists e,
       generate_certificate Demo.font_parses Demo.fetch_ok Demo.fetch_leaves_file
         Demo.image_open Demo.convert_from_path Demo.textbbox Demo.py_int16 Demo.writable
         "uploads/t.png" "image" "Ada" 0 500 "Roboto" 60 "#abc" "p.png" "p.pdf"
         Demo.empty_state = (Raise e, st1)) /\
    generate_certificate Demo.font_parses Demo.fetch_ok Demo.fetch_leaves_file
      Demo.image_open Demo.convert_from_path
      (fun _ _ => Raise (PyError "invalid text")) Demo.py_int16 Demo.writable
      "uploads/t.png" "image" "" 0 500 "Roboto" 60 "#1a2b3c" "p.png" "p.pdf"
      Demo.empty_state = (Raise (PyError "invalid text"), st1) /\
    fst (Demo.certificate "" Demo.empty_state) =
      Ok ("output/e1/png/.png", "output/e1/pdf/.pdf").
Proof.
  do 2 eexists. split; [vm_compute; reflexivity|]. split; [|split; [|split]].
  - apply (proj1 (generate_certificate_errors_and_names Demo.font_parses Demo.fetch_ok
      Demo.fetch_leaves_file (fun _ => Raise (PyError "cannot identify image file 'uploads/t.png'"))
      Demo.convert_from_path Demo.textbbox Demo.py_int16 Demo.writable "uploads/t.png" "image" ""
      0 500 "Roboto" 60 "#1a2b3c" "p.png" "p.pdf" Demo.empty_state)).
    reflexivity.
  - eexists.
    eapply (proj1 (proj2 (generate_certificate_errors_and_names Demo.font_parses Demo.fetch_ok
      Demo.fetch_leaves_file Demo.image_open Demo.convert_from_path Demo.textbbox
      Demo.py_int16 Demo.writable "uploads/t.png" "image" "Ada" 0 500 "Roboto" 60 "#abc"
      "p.png" "p.pdf" Demo.empty_state))) with (cert := Demo.template).
    + reflexivity.
    + vm_compute. reflexivity.
    + reflexivity.
  - eapply (proj1 (proj2 (proj2 (generate_certificate_errors_and_names Demo.font_parses
      Demo.fetch_ok Demo.fetch_leaves_file Demo.image_open Demo.convert_from_path
      (fun _ _ => Raise (PyError "invalid text")) Demo.py_int16 Demo.writable "uploads/t.png"
      "image" "" 0 500 "Roboto" 60 "#1a2b3c" "p.png" "p.pdf" Demo.empty_state))))
      with (cert := Demo.template) (rgb := (26, 43, 60)%Z).
    + reflexivity.
    + vm_compute. reflexivity.
    + vm_compute. reflexivity.
    + reflexivity.
  - eapply (proj2 (proj2 (proj2 (generate_certificate_errors_and_names Demo.font_parses
      Demo.fetch_ok Demo.fetch_leaves_file Demo.image_open Demo.convert_from_path Demo.textbbox
      Demo.py_int16 Demo.writable "uploads/template.png" "image" "" 0 500 "Roboto" 60
      "#1a2b3c" "output/e1/png/.png" "output/e1/pdf/.pdf" Demo.empty_state))))
      with (cert := Demo.template) (rgb := (26, 43, 60)%Z) (bb := (0, 0, 0, 0)%Z).
    + reflexivity.
    + vm_compute. reflexivity.
    + vm_compute. reflexivity.
    + reflexivity.
    + reflexivity.
    + reflexivity.
Defined.

(** C9 as written fails: a hyphen in the name is kept in the attachment
    filename, it does not become an underscore. *)
Lemma hyphen_kept_in_attachment_name :
  map (fun m => option_map fst (m_attachment m))
    (st_outbox (snd (Demo.send_cert "Ada-Lovelace" (Demo.certificate_state "Ada-Lovelace")))) =
  [Some "Certificate_Ada-Lovelace.pdf"].
Proof. vm_compute. reflexivity. Qed.

Lemma certificate_attachment_filename_witness :
  exists s',
    Demo.send_cert "Ada-Lovelace" (Demo.certificate_state "Ada-Lovelace") = (Ok tt, s') /\
    exists data,
      st_outbox s' = st_outbox (Demo.certificate_state "Ada-Lovelace") ++
        [mkMail (fill_certificate_template "Your certificate" "Ada-Lovelace" "")
           "org@example.org" "ada@example.org"
           (fill_certificate_template "Dear {name}" "Ada-Lovelace" "")
           (Some ("Certificate_" +++ space_to_underscore "Ada-Lovelace" +++ ".pdf", data))].
Proof.
  eexists. split; [vm_compute; reflexivity|].
  refine (certificate_attachment_filename Demo.smtp_error "Ada-Lovelace" "ada@example.org"
            "output/e1/pdf/Ada-Lovelace.pdf" "org@example.org" "pw" "Your certificate"
            "Dear {name}" "" (Demo.certificate_state "Ada-Lovelace") _ _).
  vm_compute. reflexivity.
Defined.

Lemma direct_dispatch_blank_event_name_witness :
  exists r s',
    Demo.direct_step (Demo.participant_of "p1" "Ada Lovelace" "ada@example.org")
      Demo.empty_state = (r, s') /\
    (st_outbox s' = st_outbox Demo.empty_state \/
     exists data,
       st_outbox s' = st_outbox Demo.empty_state ++
         [mkMail (py_replace (py_replace "Certificate: {event_name}" "{name}" "Ada Lovelace")
                    "{event_name}" "")
                 "org@example.org" "ada@example.org"
                 (py_replace (py_replace "Dear {name}, thank you for joining {event_name}."
                                "{name}" "Ada Lovelace") "{event_name}" "")
                 (Some (attachment_filename "Ada Lovelace", data))]).
Proof.
  do 2 eexists. split; [vm_compute; reflexivity|].
  refine (direct_dispatch_blank_event_name Demo.font_parses Demo.fetch_ok
            Demo.fetch_leaves_file Demo.image_open Demo.convert_from_path Demo.textbbox
            Demo.py_int16 Demo.writable Demo.smtp_error Demo.token_of Demo.event_direct Demo.e1
            "org@example.org" "pw" (Demo.participant_of "p1" "Ada Lovelace" "ada@example.org")
            (mkResults 0 0 0 []) Demo.empty_state _ _ eq_refl _).
  vm_compute. reflexivity.
Defined.

(** The direct path on a concrete event: the subject's placeholder vanishes. *)
Example direct_dispatch_subject :
  map m_subject (st_outbox (snd (Demo.direct_step
    (Demo.participant_of "p1" "Ada Lovelace" "ada@example.org") Demo.empty_state))) =
  ["Certificate: "].
Proof. vm_compute. reflexivity. Qed.




(** Five participants, the third one failing at the SMTP server. *)
Example dispatch_five_counts :
  match fst (Demo.dispatch false Demo.dispatch_state) with
  | Ok out => (r_total out, r_successful out, r_failed out, map d_status (r_details out))
  | Raise _ => (0, 0, 0, [])
  end = (5, 4, 1, [CertificateSent; CertificateSent; Failed; CertificateSent; CertificateSent]).
Proof. vm_compute. reflexivity. Qed.

Lemma dispatch_isolates_failures_witness :
  exists r s',
    Demo.dispatch false Demo.dispatch_state = (r, s') /\
    exists out,
      r = Ok out /\
      r_total out = List.length Demo.five /\
      r_total out = r_successful out + r_failed out /\
      Forall2 (detail_spec s') Demo.five (r_details out) /\
      List.length (turn_states Demo.font_parses Demo.fetch_ok Demo.fetch_leaves_file
                Demo.image_open Demo.convert_from_path Demo.textbbox Demo.py_int16
                Demo.writable Demo.smtp_error Demo.token_of
                     Demo.event_direct Demo.e1 "org@example.org" "pw" Demo.five
                     (mkResults 0 0 0 []) Demo.dispatch_state) = List.length Demo.five /\
      Forall2 (fun pb d => turn_outcome Demo.font_parses Demo.fetch_ok Demo.fetch_leaves_file
                Demo.image_open Demo.convert_from_path Demo.textbbox Demo.py_int16
                Demo.writable Demo.smtp_error Demo.token_of
                             Demo.event_direct Demo.e1 "org@example.org" "pw"
                             (fst pb) (snd pb) d)
        (combine Demo.five
           (turn_states Demo.font_parses Demo.fetch_ok Demo.fetch_leaves_file
                Demo.image_open Demo.convert_from_path Demo.textbbox Demo.py_int16
                Demo.writable Demo.smtp_error Demo.token_of
              Demo.event_direct Demo.e1 "org@example.org" "pw" Demo.five
              (mkResults 0 0 0 []) Demo.dispatch_state))
        (r_details out) /\
      (forall q, ~ In q (map p_id Demo.five) ->
         participant_by_id q (st_participants s') =
         participant_by_id q (st_participants Demo.dispatch_state)).
Proof.
  do 2 eexists. split; [vm_compute; reflexivity|].
  refine (dispatch_isolates_failures Demo.font_parses Demo.fetch_ok
            Demo.fetch_leaves_file Demo.image_open Demo.convert_from_path Demo.textbbox
            Demo.py_int16 Demo.writable Demo.smtp_error Demo.token_of
            Demo.decrypt_app_password Demo.e1 false "u1" Demo.dispatch_state
            (mkEmailSettings "org@example.org" "pw") Demo.e1 Demo.event_direct
            "uploads/template.png" "pw" _ _ _ _ _ _ _ _ _ _).
  - vm_compute. reflexivity.
  - vm_compute. reflexivity.
  - vm_compute. reflexivity.
  - vm_compute. reflexivity.
  - discriminate.
  - vm_compute. reflexivity.
  - vm_compute. repeat constructor; cbn; intuition discriminate.
  - vm_compute. reflexivity.
Defined.

(** Two resend-all runs on an event with feedback: one record per
    participant, each with the token of the second run. *)
Example two_runs_latest_tokens :
  map (fun f => (fb_participant_id f, fb_token f))
    (st_feedback (snd (Demo.dispatch true (snd (Demo.dispatch true Demo.feedback_state))))) =
  [("p1", "tok5"); ("p2", "tok6"); ("p3", "tok7"); ("p4", "tok8"); ("p5", "tok9")].
Proof. vm_compute. reflexivity. Qed.

Lemma feedback_token_upsert_witness :
  exists r1 s1 r2 s2,
    Demo.dispatch true Demo.feedback_state = (r1, s1) /\
    Demo.dispatch true s1 = (r2, s2) /\
    (forall pid eid token l f,
       NoDup (map fb_participant_id l) ->
       In f (issue_feedback pid eid token l) -> fb_participant_id f = pid ->
       f = mkFeedback pid eid token [] None) /\
    feedback_unique s1 /\ feedback_unique s2 /\
    (forall f1 f2, In f1 (st_feedback s2) -> In f2 (st_feedback s2) ->
       fb_participant_id f1 = fb_participant_id f2 -> f1 = f2).
Proof.
  do 4 eexists. split; [vm_compute; reflexivity|]. split; [vm_compute; reflexivity|].
  refine (feedback_token_upsert Demo.font_parses Demo.fetch_ok
            Demo.fetch_leaves_file Demo.image_open Demo.convert_from_path Demo.textbbox
            Demo.py_int16 Demo.writable Demo.smtp_error Demo.token_of
            Demo.decrypt_app_password Demo.e1 "u1" Demo.feedback_state _ _ _ _ _ _ _).
  - vm_compute. constructor.
  - vm_compute. reflexivity.
  - vm_compute. reflexivity.
Defined.

(** ** Witnesses for the read endpoints, exports, uploads and colours *)



Lemma results_statistics_partition_witness :
  exists r s',
    get_results Demo.e1 "u1" DemoViews.redeemed = (r, s') /\
    s' = DemoViews.redeemed /\
    ((ObjectId Demo.e1 = Raise (invalid_id Demo.e1) /\ r = Raise (invalid_id Demo.e1)) \/
     (exists oid, ObjectId Demo.e1 = Ok oid /\
      ((owned_event oid "u1" (st_events DemoViews.redeemed) = None /\
        r = Raise (HTTPException 404 "Event not found")) \/
       (exists ev st,
          owned_event oid "u1" (st_events DemoViews.redeemed) = Some ev /\
          r = Ok (mkSummary (ev_name ev) (ev_feedback_enabled ev) st) /\
          stat_total st = count_documents (fun p => String.eqb (p_event_id p) Demo.e1)
                            (st_participants DemoViews.redeemed) /\
          stat_total st = stat_pending st + stat_feedback_sent st +
                          stat_feedback_received st + stat_certificate_sent st +
                          stat_failed st)))).
Proof.
  do 2 eexists. split; [vm_compute; reflexivity|].
  apply results_statistics_partition. vm_compute. reflexivity.
Defined.

Lemma dispatch_leaves_none_pending_witness :
  exists r s',
    Demo.dispatch false Demo.dispatch_state = (r, s') /\
    exists out sum ev',
      r = Ok out /\
      get_results Demo.e1 "u1" s' = (Ok sum, s') /\
      stat_pending (sum_statistics sum) = 0 /\
      owned_event Demo.e1 "u1" (st_events s') = Some ev' /\
      ev_status ev' = (if Nat.eqb (r_failed out) 0 then Completed else Sending).
Proof.
  do 2 eexists. split; [vm_compute; reflexivity|].
  eapply dispatch_leaves_none_pending with
    (font_parses := Demo.font_parses) (fetch_ok := Demo.fetch_ok)
    (fetch_leaves_file := Demo.fetch_leaves_file) (image_open := Demo.image_open)
    (convert_from_path := Demo.convert_from_path) (textbbox := Demo.textbbox)
    (py_int16 := Demo.py_int16) (writable := Demo.writable) (smtp_error := Demo.smtp_error)
    (token_of := Demo.token_of) (decrypt_app_password := Demo.decrypt_app_password)
    (send_all := false) (s := Demo.dispatch_state) (settings := DemoViews.settings)
    (oid := Demo.e1) (ev := Demo.event_direct) (tp := "uploads/template.png") (pw := "pw").
  - vm_compute. reflexivity.
  - vm_compute. reflexivity.
  - vm_compute. reflexivity.
  - vm_compute. reflexivity.
  - discriminate.
  - vm_compute. reflexivity.
  - vm_compute. repeat constructor; cbn; intuition discriminate.
  - vm_compute. repeat constructor; cbn; intuition discriminate.
  - vm_compute. reflexivity.
Defined.

Lemma refused_send_changes_nothing_witness :
  exists e s',
    send_certificates Demo.font_parses Demo.fetch_ok Demo.fetch_leaves_file Demo.image_open
      Demo.convert_from_path Demo.textbbox Demo.py_int16 Demo.writable Demo.smtp_error
      Demo.token_of Demo.decrypt_app_password Demo.e1 false "u1" DemoViews.untemplated_state =
      (Raise e, s') /\
    s' = DemoViews.untemplated_state /\
    (e = HTTPException 400 "Email settings not configured" \/
     (ObjectId Demo.e1 = Raise e /\ e = invalid_id Demo.e1) \/
     e = HTTPException 404 "Event not found" \/
     e = HTTPException 400 "No template uploaded" \/
     exists settings,
       option_bind (find_first (fun u => String.eqb (u_id u) "u1")
                      (st_users DemoViews.untemplated_state)) u_email_settings =
         Some settings /\
       Demo.decrypt_app_password (es_app_password_encrypted settings) = Raise e).
Proof.
  do 2 eexists. split; [vm_compute; reflexivity|].
  eapply refused_send_changes_nothing with
    (font_parses := Demo.font_parses) (fetch_ok := Demo.fetch_ok)
    (fetch_leaves_file := Demo.fetch_leaves_file) (image_open := Demo.image_open)
    (convert_from_path := Demo.convert_from_path) (textbbox := Demo.textbbox)
    (py_int16 := Demo.py_int16) (writable := Demo.writable) (smtp_error := Demo.smtp_error)
    (token_of := Demo.token_of) (decrypt_app_password := Demo.decrypt_app_password)
    (event_id := Demo.e1) (send_all := false) (uid := "u1")
    (s := DemoViews.untemplated_state).
  vm_compute. reflexivity.
Defined.


Lemma feedback_export_rectangular_witness :
  exists r s',
    download_feedback DemoViews.event_questions DemoViews.show_time Demo.e1 false "u1"
      DemoViews.redeemed = (r, s') /\
    s' = DemoViews.redeemed /\
    ((ObjectId Demo.e1 = Raise (invalid_id Demo.e1) /\ r = Raise (invalid_id Demo.e1)) \/
     (exists oid, ObjectId Demo.e1 = Ok oid /\
      ((owned_event oid "u1" (st_events DemoViews.redeemed) = None /\
        r = Raise (HTTPException 404 "Event not found")) \/
       (exists ev fname rows,
          owned_event oid "u1" (st_events DemoViews.redeemed) = Some ev /\
          r = Ok (fname, feedback_header false (DemoViews.event_questions ev) :: rows) /\
          Forall (fun row => List.length row =
                    List.length (feedback_header false (DemoViews.event_questions ev)))
            rows)))).
Proof.
  do 2 eexists. split; [vm_compute; reflexivity|].
  eapply feedback_export_rectangular with (event_questions := DemoViews.event_questions)
    (show_time := DemoViews.show_time) (event_id := Demo.e1) (anonymous := false)
    (uid := "u1") (s := DemoViews.redeemed).
  vm_compute. reflexivity.
Defined.

Lemma named_export_rows_witness :
  exists fname header rows s',
    download_feedback DemoViews.event_questions DemoViews.show_time Demo.e1 false "u1"
      DemoViews.redeemed = (Ok (fname, header :: rows), s') /\
    exists oid ev, ObjectId Demo.e1 = Ok oid /\
    owned_event oid "u1" (st_events DemoViews.redeemed) = Some ev /\
    forall row, In row rows <->
      exists fb p, In fb (st_feedback DemoViews.redeemed) /\ fb_event_id fb = Demo.e1 /\
        fb_submitted_at fb <> None /\
        participant_by_id (fb_participant_id fb) (st_participants DemoViews.redeemed) =
          Some p /\
        row = [p_name p; p_email p; submitted_cell DemoViews.show_time fb] ++
              answer_cells (DemoViews.event_questions ev) fb.
Proof.
  do 4 eexists. split; [vm_compute; reflexivity|].
  eapply named_export_rows with (event_questions := DemoViews.event_questions)
    (show_time := DemoViews.show_time) (event_id := Demo.e1) (uid := "u1")
    (s := DemoViews.redeemed).
  vm_compute. reflexivity.
Defined.

Lemma redemption_in_named_export_witness :
  exists r s',
    Demo.redeem Demo.answers1 DemoViews.redeem_state = (r, s') /\
    exists fname rows,
      download_feedback DemoViews.event_questions DemoViews.show_time Demo.e1 false "u1" s' =
        (Ok (fname, feedback_header false DemoViews.questions :: rows), s') /\
      In (["Ada Lovelace"; "ada@example.org"; DemoViews.show_time 0] ++
          answer_cells DemoViews.questions
            (with_submission Demo.answers1 0 (mkFeedback "p1" Demo.e1 "tok0" [] None))) rows.
Proof.
  do 2 eexists. split; [vm_compute; reflexivity|].
  eapply redemption_in_named_export with
    (font_parses := Demo.font_parses) (fetch_ok := Demo.fetch_ok)
    (fetch_leaves_file := Demo.fetch_leaves_file) (image_open := Demo.image_open)
    (convert_from_path := Demo.convert_from_path) (textbbox := Demo.textbbox)
    (py_int16 := Demo.py_int16) (writable := Demo.writable) (smtp_error := Demo.smtp_error)
    (decrypt_app_password := Demo.decrypt_app_password)
    (event_questions := DemoViews.event_questions) (show_time := DemoViews.show_time)
    (token := "tok0") (answers := Demo.answers1) (s := DemoViews.redeem_state)
    (f := mkFeedback "p1" Demo.e1 "tok0" [] None)
    (p := Demo.participant_of "p1" "Ada Lovelace" "ada@example.org")
    (ev := Demo.event_direct) (settings := DemoViews.settings).
  all: vm_compute; reflexivity.
Defined.

Lemma results_export_sorted_witness :
  exists r s',
    download_results DemoViews.show_time Demo.e1 "u1" Demo.dispatch_state = (r, s') /\
    s' = Demo.dispatch_state /\
    ((ObjectId Demo.e1 = Raise (invalid_id Demo.e1) /\ r = Raise (invalid_id Demo.e1)) \/
     (exists oid, ObjectId Demo.e1 = Ok oid /\
      ((owned_event oid "u1" (st_events Demo.dispatch_state) = None /\
        r = Raise (HTTPException 404 "Event not found")) \/
       exists ev ps sum,
         owned_event oid "u1" (st_events Demo.dispatch_state) = Some ev /\
         r = Ok (("results_" +++ Demo.e1 +++ ".csv"),
                 ["Name"; "Email"; "Status"; "Feedback Submitted"; "Certificate Sent"; "Error"]
                   :: map (results_row DemoViews.show_time) ps) /\
         Permutation ps (filter (fun p => String.eqb (p_event_id p) Demo.e1)
                           (st_participants Demo.dispatch_state)) /\
         Sorted (fun a b => String.leb (p_name a) (p_name b) = true) ps /\
         get_results Demo.e1 "u1" Demo.dispatch_state = (Ok sum, Demo.dispatch_state) /\
         List.length ps = stat_total (sum_statistics sum)))).
Proof.
  do 2 eexists. split; [vm_compute; reflexivity|].
  eapply results_export_sorted with (show_time := DemoViews.show_time) (event_id := Demo.e1)
    (uid := "u1") (s := Demo.dispatch_state).
  vm_compute. reflexivity.
Defined.

Lemma upload_rejected_or_cleaned_witness :
  exists e s',
    DemoViews.upload "notes.txt" Demo.dispatch_state = (Raise e, s') /\
    st_events s' = st_events Demo.dispatch_state /\
    st_participants s' = st_participants Demo.dispatch_state /\
    st_feedback s' = st_feedback Demo.dispatch_state /\
    ((ObjectId Demo.e1 = Raise e /\ e = invalid_id Demo.e1 /\ s' = Demo.dispatch_state) \/
     (exists oid, ObjectId Demo.e1 = Ok oid /\
      ((owned_event oid "u1" (st_events Demo.dispatch_state) = None /\
        e = HTTPException 404 "Event not found" /\ s' = Demo.dispatch_state) \/
       (owned_event oid "u1" (st_events Demo.dispatch_state) <> None /\
        existsb (py_endswith (py_lower "notes.txt")) allowed_extensions = false /\
        e = HTTPException 400 "Only PNG, JPG, and PDF files are supported" /\
        s' = Demo.dispatch_state) \/
       (owned_event oid "u1" (st_events Demo.dispatch_state) <> None /\
        existsb (py_endswith (py_lower "notes.txt")) allowed_extensions = true /\
        path_exists (upload_path Demo.e1 "notes.txt") s' = (Ok false, s'))))).
Proof.
  do 2 eexists. split; [vm_compute; reflexivity|].
  eapply upload_rejected_or_cleaned with (image_open := Demo.image_open)
    (convert_from_path := Demo.convert_from_path) (writable := Demo.writable)
    (event_id := Demo.e1) (filename := "notes.txt") (uid := "u1") (s := Demo.dispatch_state).
  vm_compute. reflexivity.
Defined.

Lemma upload_sets_template_witness :
  exists url w h s',
    DemoViews.upload "Cert.PDF" Demo.dispatch_state = (Ok (url, w, h), s') /\
    exists oid ev img,
      ObjectId Demo.e1 = Ok oid /\
      owned_event oid "u1" (st_events Demo.dispatch_state) = Some ev /\
      existsb (py_endswith (py_lower "Cert.PDF")) allowed_extensions = true /\
      load_template Demo.image_open Demo.convert_from_path (upload_path Demo.e1 "Cert.PDF")
        (template_format_of "Cert.PDF") 150 Demo.dispatch_state = (Ok img, Demo.dispatch_state) /\
      w = im_width img /\ h = im_height img /\
      url = "/static/" +++ Demo.e1 +++ "_preview.png?t=" +++ nat_to_string (st_clock Demo.dispatch_state) /\
      owned_event oid "u1" (st_events s') =
        Some (with_template (upload_path Demo.e1 "Cert.PDF") (template_format_of "Cert.PDF") h ev) /\
      path_exists (upload_path Demo.e1 "Cert.PDF") s' = (Ok true, s') /\
      lookup_file (STATIC_DIR +++ "/" +++ Demo.e1 +++ "_preview.png") (st_out s') = Some (PngFile img).
Proof.
  do 4 eexists. split; [vm_compute; reflexivity|].
  eapply upload_sets_template with (image_open := Demo.image_open)
    (convert_from_path := Demo.convert_from_path) (writable := Demo.writable)
    (event_id := Demo.e1) (filename := "Cert.PDF") (uid := "u1") (s := Demo.dispatch_state).
  - vm_compute. repeat constructor; cbn; intuition discriminate.
  - vm_compute. reflexivity.
Defined.

Lemma hex_to_rgb_short_raises_witness :
  exists e, hex_to_rgb Demo.py_int16 "#abc" Demo.empty_state = (Raise e, Demo.empty_state).
Proof.
  apply (hex_to_rgb_short_raises Demo.py_int16 "#abc" Demo.empty_state
           (PyError "invalid literal for int() with base 16: ''")).
  - reflexivity.
  - vm_compute. lia.
Defined.

Lemma google_font_fetched_once_witness :
  exists r s1,
    download_google_font (fun _ => false) (fun _ => true) "Great Vibes"
      "https://fonts.example/gv.ttf" Demo.empty_state = (r, s1) /\
    download_google_font (fun _ => false) (fun _ => true) "Great Vibes"
      "https://fonts.example/gv2.ttf" s1 =
      (Ok (Some ("fonts/Great_Vibes.ttf")), s1) /\
    (r = Ok None <->
     (fun _ : string => false) "https://fonts.example/gv.ttf" = false /\
     path_exists (FONTS_DIR +++ "/" +++ py_replace "Great Vibes" " " "_" +++ ".ttf")
       Demo.empty_state = (Ok false, Demo.empty_state)).
Proof.
  do 2 eexists. split; [vm_compute; reflexivity|].
  apply (google_font_fetched_once (fun _ => false) (fun _ => true) "Great Vibes"
           "https://fonts.example/gv.ttf" "https://fonts.example/gv2.ttf" Demo.empty_state).
  - vm_compute. reflexivity.
  - right. reflexivity.
Defined.
